(** * adventuregame.elements: a shallow embedding and its checked properties

    The Python module [adventuregame/elements.py] is embedded class by
    class: every class becomes a Rocq [Module] of the same name, every
    method a function of the same name.  Dictionaries are [gmap]s, Python
    integers are [Z], attribute values that may be [None] are [option]s,
    and methods that mutate [self] or raise are computations in a small
    state-and-exception monad: a raised exception leaves the state as it was
    at the [raise].

    Conventions used throughout:
    - internal names, titles and descriptions are modelled as [string]s, that
      is, as the values [Ini_Entry.__init__] leaves untouched (a text that is
      neither [true]/[false], nor all digits, nor a decimal number);
    - weights and values of items (floating point) are read by no modelled
      method and are left out of the records;
    - the iteration order of a [dict] is not kept by [gmap]; no modelled
      result depends on it. *)

From Stdlib Require Import ZArith String Ascii List Bool Lia DecimalString.
From stdpp Require Import base option strings gmap sorting.

Local Open Scope string_scope.
Local Open Scope Z_scope.

(** ** Exceptions and the state-and-exception monad *)

(** The key of a failed dictionary lookup: a string, an integer or [None]. *)
Inductive pykey : Type :=
| KNone
| KStr (s : string)
| KInt (z : Z).

(** [Internal_Exception] and [Bad_Command_Exception] are the two exception
    classes of [adventuregame.exceptions]; the others are Python built-ins the
    modelled methods can raise. *)
Inductive exn : Type :=
| Internal_Exception (message : string)
| Bad_Command_Exception (command message : string)
| KeyError (key : pykey)
| AttributeError (attr : string)
| UnboundLocalError (name : string)
| TypeError
| ValueError.

Inductive result (A : Type) : Type :=
| Ok (a : A)
| Raise (e : exn).
Arguments Ok {A} a.
Arguments Raise {A} e.

(** A method on an object of type [St]: it returns or raises, and leaves the
    object in a (possibly mutated) state either way. *)
Definition M (St A : Type) : Type := St -> result A * St.

Definition ret {St A} (a : A) : M St A := fun s => (Ok a, s).

Definition bind {St A B} (m : M St A) (k : A -> M St B) : M St B :=
  fun s => match m s with
           | (Ok a, s') => k a s'
           | (Raise e, s') => (Raise e, s')
           end.

Definition raise {St A} (e : exn) : M St A := fun s => (Raise e, s).

Definition get_self {St} : M St St := fun s => (Ok s, s).

Definition put_self {St} (s : St) : M St unit := fun _ => (Ok tt, s).

Definition modify_self {St} (f : St -> St) : M St unit := fun s => (Ok tt, f s).

(** Run a method of a sub-object stored in a field of [self]. *)
Definition on_field {St F A} (proj : St -> F) (upd : F -> St -> St)
    (m : M F A) : M St A :=
  fun s => match m (proj s) with
           | (r, f') => (r, upd f' s)
           end.

(** Lift a computation that cannot mutate. *)
Definition lift_result {St A} (r : result A) : M St A := fun s => (r, s).

Declare Scope py_scope.
Delimit Scope py_scope with py.
Notation "'let!' x ':=' m 'in' k" := (bind m (fun x => k))
  (at level 10, x name, m at level 100, k at level 200, only parsing) : py_scope.
Local Open Scope py_scope.


(** ** Character classes *)

(** The four class names every constructor checks for. *)
Inductive Character_class : Type := Warrior | Thief | Priest | Mage.

Definition Character_class_eqb (a b : Character_class) : bool :=
  match a, b with
  | Warrior, Warrior | Thief, Thief | Priest, Priest | Mage, Mage => true
  | _, _ => false
  end.

Definition Character_class_str (c : Character_class) : string :=
  match c with
  | Warrior => "Warrior"
  | Thief => "Thief"
  | Priest => "Priest"
  | Mage => "Mage"
  end.

(** ** class Item and its subclasses *)

Module Item.

(** The class of an item object; [subclassing_factory] only ever builds
    the eight leaf classes. *)
Inductive cls : Type :=
| Armor | Coin | Potion | Key | Oddment | Shield | Wand | Weapon.

Record t : Type := mk {
  internal_name : string;
  title : string;
  description : string;
  damage : option string;
  attack_bonus : option Z;
  armor_bonus : option Z;
  item_class : cls;
  warrior_can_use : bool;
  thief_can_use : bool;
  priest_can_use : bool;
  mage_can_use : bool
}.

Definition cls_eqb (a b : cls) : bool :=
  match a, b with
  | Armor, Armor | Coin, Coin | Potion, Potion | Key, Key | Oddment, Oddment
  | Shield, Shield | Wand, Wand | Weapon, Weapon => true
  | _, _ => false
  end.

(** [isinstance(item, c)] for one of the eight leaf classes [c]. *)
Definition isinstance (item : t) (c : cls) : bool := cls_eqb (item_class item) c.

End Item.

(** ** class Items_Multi_State *)

Module Items_Multi_State.

(** [self._contents]: internal name -> (quantity, item). *)
Abbreviation t := (gmap string (Z * Item.t)).

(** [Items_Multi_State()] with no sections. *)
Definition empty : t := ∅.

(** [any(contained_item.internal_name == item_internal_name
         for _, contained_item in self._contents.values())] *)
Definition contains (item_internal_name : string) : M t bool :=
  let! s := get_self in
  ret (existsb (fun kv : string * (Z * Item.t) =>
                  String.eqb (Item.internal_name (snd (snd kv))) item_internal_name)
               (map_to_list s)).

(** [State.get]: [self._contents[item_internal_name]]. *)
Definition get (item_internal_name : string) : M t (Z * Item.t) :=
  let! s := get_self in
  match s !! item_internal_name with
  | Some v => ret v
  | None => raise (KeyError (KStr item_internal_name))
  end.

Definition set (item_internal_name : string) (item_qty : Z) (item : Item.t)
    : M t unit :=
  modify_self (fun s : t => <[item_internal_name := (item_qty, item)]> s).

(** [State.delete]: [del self._contents[item_internal_name]]. *)
Definition delete (item_internal_name : string) : M t unit :=
  let! s := get_self in
  match s !! item_internal_name with
  | Some _ => put_self (base.delete item_internal_name s)
  | None => raise (KeyError (KStr item_internal_name))
  end.

(** [State.items]. *)
Definition items (s : t) : list (string * (Z * Item.t)) := map_to_list s.

Definition add_one (item_internal_name : string) (item : Item.t) : M t unit :=
  let! present := contains item_internal_name in
  if present then
    let! old := get item_internal_name in
    let! old' := get item_internal_name in
    modify_self (fun s : t =>
      <[item_internal_name := (fst old + 1, snd old')]> s)
  else
    modify_self (fun s : t => <[item_internal_name := (1, item)]> s).

Definition remove_one (item_internal_name : string) : M t unit :=
  let! s := get_self in
  match s !! item_internal_name with
  | None => raise (KeyError (KStr item_internal_name))
  | Some (qty, it) =>
      if qty =? 1 then put_self (base.delete item_internal_name s)
      else put_self (<[item_internal_name := (qty - 1, it)]> s)
  end.

End Items_Multi_State.

(** The representation invariant of a multi-quantity store: every entry is
    filed under the internal name of the item it holds.  Every call site of
    the module ([Container.__init__], [Room.__init__], [pick_up_item],
    [convert_to_corpse]) files items that way. *)
Definition keyed_by_internal_name (s : gmap string (Z * Item.t)) : bool :=
  forallb (fun kv : string * (Z * Item.t) =>
             String.eqb (Item.internal_name (snd (snd kv))) (fst kv))
          (map_to_list s).

(** ** class Ability_Scores *)

Module Ability_Scores.

Record t : Type := mk {
  strength : Z;
  dexterity : Z;
  constitution : Z;
  intelligence : Z;
  wisdom : Z;
  charisma : Z;
  character_class : Character_class
}.

(** [getattr(self, ability_score)] for the six score attributes. *)
Definition score (self : t) (ability_score : string) : option Z :=
  if String.eqb ability_score "strength" then Some (strength self)
  else if String.eqb ability_score "dexterity" then Some (dexterity self)
  else if String.eqb ability_score "constitution" then Some (constitution self)
  else if String.eqb ability_score "intelligence" then Some (intelligence self)
  else if String.eqb ability_score "wisdom" then Some (wisdom self)
  else if String.eqb ability_score "charisma" then Some (charisma self)
  else None.

(** [math.floor((getattr(self, ability_score) - 10) / 2)]: the true
    quotient rounded down, which is [Z.div] by the positive divisor 2 (the
    float division is exact for scores below 2^53 in absolute value). *)
Definition _stat_mod (self : t) (ability_score : string) : result Z :=
  match score self ability_score with
  | None => Raise (Internal_Exception ("unrecognized ability " ++ ability_score))
  | Some v => Ok ((v - 10) / 2)
  end.

Definition strength_mod (self : t) : result Z := _stat_mod self "strength".
Definition dexterity_mod (self : t) : result Z := _stat_mod self "dexterity".
Definition constitution_mod (self : t) : result Z := _stat_mod self "constitution".
Definition intelligence_mod (self : t) : result Z := _stat_mod self "intelligence".
Definition wisdom_mod (self : t) : result Z := _stat_mod self "wisdom".
Definition charisma_mod (self : t) : result Z := _stat_mod self "charisma".

(** [getattr(self, name)] for a name of the form [<ability>_mod]: the six
    properties above, an [AttributeError] for any other name. *)
Definition getattr_mod (self : t) (name : string) : result Z :=
  if String.eqb name "strength_mod" then strength_mod self
  else if String.eqb name "dexterity_mod" then dexterity_mod self
  else if String.eqb name "constitution_mod" then constitution_mod self
  else if String.eqb name "intelligence_mod" then intelligence_mod self
  else if String.eqb name "wisdom_mod" then wisdom_mod self
  else if String.eqb name "charisma_mod" then charisma_mod self
  else Raise (AttributeError name).

(** The class-level table of priorities. *)
Definition weightings (c : Character_class) : list string :=
  match c with
  | Warrior =>
      ["strength"; "constitution"; "dexterity"; "intelligence"; "charisma"; "wisdom"]
  | Thief =>
      ["dexterity"; "constitution"; "charisma"; "strength"; "wisdom"; "intelligence"]
  | Priest =>
      ["wisdom"; "strength"; "constitution"; "charisma"; "intelligence"; "dexterity"]
  | Mage =>
      ["intelligence"; "dexterity"; "constitution"; "strength"; "wisdom"; "charisma"]
  end.

(** [Ability_Scores(character_class_str)] for one of the four class names.
    The six score slots stay unset until [roll_stats] or the character's
    constructor fills all of them; the record holds 0 in an unset slot. *)
Definition init (character_class : Character_class) : t :=
  mk 0 0 0 0 0 0 character_class.

(** [setattr(self, name, v)] for the six score slots. *)
Definition setattr_score (name : string) (v : Z) (self : t) : t :=
  if String.eqb name "strength" then
    mk v (dexterity self) (constitution self) (intelligence self) (wisdom self)
       (charisma self) (character_class self)
  else if String.eqb name "dexterity" then
    mk (strength self) v (constitution self) (intelligence self) (wisdom self)
       (charisma self) (character_class self)
  else if String.eqb name "constitution" then
    mk (strength self) (dexterity self) v (intelligence self) (wisdom self)
       (charisma self) (character_class self)
  else if String.eqb name "intelligence" then
    mk (strength self) (dexterity self) (constitution self) v (wisdom self)
       (charisma self) (character_class self)
  else if String.eqb name "wisdom" then
    mk (strength self) (dexterity self) (constitution self) (intelligence self) v
       (charisma self) (character_class self)
  else if String.eqb name "charisma" then
    mk (strength self) (dexterity self) (constitution self) (intelligence self)
       (wisdom self) v (character_class self)
  else self.

(** [sorted(l)] and [l.sort()] on a list of [int]: the list in ascending
    order. *)
Definition sorted (l : list Z) : list Z := merge_sort Z.le l.

(** One turn of the outer loop of [roll_stats]: four calls of
    [random.randint(1, 6)], the values the generator yields at positions
    [pos] to [pos + 3]; sorted; the lowest dropped; the rest summed. *)
Definition four_d6_drop_lowest (rng : nat -> Z) (pos : nat) : Z :=
  let four_rolls := sorted (map (fun i => rng (pos + i)%nat) (seq 0 4)) in
  let three_rolls := firstn 3 (skipn 1 four_rolls) in
  fold_left Z.add three_rolls 0.

(** [roll_stats]: the new scores and the position of the generator after
    its 24 calls. *)
Definition roll_stats (rng : nat -> Z) (pos : nat) (self : t) : t * nat :=
  let results_list :=
    map (fun k => four_d6_drop_lowest rng (pos + 4 * k)%nat) (seq 0 6) in
  let results_list := rev (sorted results_list) in
  (fold_left
     (fun s index =>
        setattr_score (nth index (weightings (character_class s)) "")
                      (nth index results_list 0) s)
     (seq 0 6) self,
   (pos + 24)%nat).

End Ability_Scores.

(** ** class Equipment *)

Module Equipment.

Record t : Type := mk {
  character_class : Character_class;
  armor : option Item.t;
  shield : option Item.t;
  weapon : option Item.t;
  wand : option Item.t
}.

(** [Equipment(character_class)]: all four slots default to [None]. *)
Definition init (character_class : Character_class) : t :=
  mk character_class None None None None.

Definition armor_equipped (self : t) : option Item.t := armor self.
Definition shield_equipped (self : t) : option Item.t := shield self.
Definition weapon_equipped (self : t) : option Item.t := weapon self.
Definition wand_equipped (self : t) : option Item.t := wand self.

(** The equipment-level property: wand first, then weapon, else [None]. *)
Definition attack_bonus (self : t) : option Z :=
  match wand_equipped self with
  | Some w => Item.attack_bonus w
  | None =>
      match weapon_equipped self with
      | Some w => Item.attack_bonus w
      | None => None
      end
  end.

Definition set_armor (v : option Item.t) (self : t) : t :=
  mk (character_class self) v (shield self) (weapon self) (wand self).

Definition set_shield (v : option Item.t) (self : t) : t :=
  mk (character_class self) (armor self) v (weapon self) (wand self).

Definition set_weapon (v : option Item.t) (self : t) : t :=
  mk (character_class self) (armor self) (shield self) v (wand self).

Definition set_wand (v : option Item.t) (self : t) : t :=
  mk (character_class self) (armor self) (shield self) (weapon self) v.

Definition _equip (equipment_slot : string) (item : Item.t) : M t unit :=
  if negb (String.eqb equipment_slot "armor" || String.eqb equipment_slot "shield"
           || String.eqb equipment_slot "weapon" || String.eqb equipment_slot "wand")
  then raise (Internal_Exception
                ("equipment slot " ++ equipment_slot ++ " not recognized"))
  else if String.eqb equipment_slot "armor" then modify_self (set_armor (Some item))
  else if String.eqb equipment_slot "shield" then modify_self (set_shield (Some item))
  else if String.eqb equipment_slot "weapon" then modify_self (set_weapon (Some item))
  else if String.eqb equipment_slot "wand" then modify_self (set_wand (Some item))
  else ret tt.

Definition _unequip (equipment_slot : string) : M t unit :=
  if negb (String.eqb equipment_slot "armor" || String.eqb equipment_slot "shield"
           || String.eqb equipment_slot "weapon" || String.eqb equipment_slot "wand")
  then raise (Internal_Exception
                ("equipment slot " ++ equipment_slot ++ " not recognized"))
  else if String.eqb equipment_slot "armor" then modify_self (set_armor None)
  else if String.eqb equipment_slot "shield" then modify_self (set_shield None)
  else if String.eqb equipment_slot "weapon" then modify_self (set_weapon None)
  else if String.eqb equipment_slot "wand" then modify_self (set_wand None)
  else ret tt.

Definition equip_armor (item : Item.t) : M t unit :=
  if negb (Item.isinstance item Item.Armor) then
    raise (Internal_Exception
      "the method `equip_armor()` only accepts `armor` objects for its argument")
  else _equip "armor" item.

Definition equip_shield (item : Item.t) : M t unit :=
  if negb (Item.isinstance item Item.Shield) then
    raise (Internal_Exception
      "the method `equip_shield()` only accepts `shield` objects for its argument")
  else _equip "shield" item.

Definition equip_weapon (item : Item.t) : M t unit :=
  if negb (Item.isinstance item Item.Weapon) then
    raise (Internal_Exception
      "the method `equip_weapon()` only accepts `weapon` objects for its argument")
  else _equip "weapon" item.

Definition equip_wand (item : Item.t) : M t unit :=
  if negb (Item.isinstance item Item.Wand) then
    raise (Internal_Exception
      "the method `equip_wand()` only accepts `wand` objects for its argument")
  else _equip "wand" item.

Definition unequip_armor : M t unit := _unequip "armor".
Definition unequip_shield : M t unit := _unequip "shield".
Definition unequip_weapon : M t unit := _unequip "weapon".
Definition unequip_wand : M t unit := _unequip "wand".

(** [ac += slot.armor_bonus] when the slot is filled; a bonus of [None]
    cannot be added to an [int]. *)
Definition add_armor_bonus (ac : Z) (slot : option Item.t) : result Z :=
  match slot with
  | None => Ok ac
  | Some it =>
      match Item.armor_bonus it with
      | Some b => Ok (ac + b)
      | None => Raise TypeError
      end
  end.

Definition armor_class (self : t) : result Z :=
  match add_armor_bonus 10 (armor_equipped self) with
  | Ok ac => add_armor_bonus ac (shield_equipped self)
  | Raise e => Raise e
  end.

(** The damage expression: wand first, then weapon, else [None]. *)
Definition damage (self : t) : option string :=
  match wand_equipped self with
  | Some w => Item.damage w
  | None =>
      match weapon_equipped self with
      | Some w => Item.damage w
      | None => None
      end
  end.

End Equipment.

(** Truth value of an object that is either [None] or an instance of a class
    with neither [__bool__] nor [__len__]. *)
Definition truthy {A} (o : option A) : bool :=
  match o with Some _ => true | None => false end.

(** ** class Character *)

Module Character.

Record t : Type := mk {
  character_name : string;
  character_class : Character_class;
  magic_key_stat : string;
  _hit_point_maximum : Z;
  _current_hit_points : Z;
  _mana_point_maximum : Z;
  _current_mana_points : Z;
  ability_scores : Ability_Scores.t;
  inventory : Items_Multi_State.t;
  _equipment : Equipment.t
}.

Definition set_inventory (inv : Items_Multi_State.t) (c : t) : t :=
  mk (character_name c) (character_class c) (magic_key_stat c)
     (_hit_point_maximum c) (_current_hit_points c)
     (_mana_point_maximum c) (_current_mana_points c)
     (ability_scores c) inv (_equipment c).

Definition set_hit_points (v : Z) (c : t) : t :=
  mk (character_name c) (character_class c) (magic_key_stat c)
     v v
     (_mana_point_maximum c) (_current_mana_points c)
     (ability_scores c) (inventory c) (_equipment c).

Definition set_mana_points (v : Z) (c : t) : t :=
  mk (character_name c) (character_class c) (magic_key_stat c)
     (_hit_point_maximum c) (_current_hit_points c)
     v v
     (ability_scores c) (inventory c) (_equipment c).

Definition set_magic_key_stat (v : string) (c : t) : t :=
  mk (character_name c) (character_class c) v
     (_hit_point_maximum c) (_current_hit_points c)
     (_mana_point_maximum c) (_current_mana_points c)
     (ability_scores c) (inventory c) (_equipment c).

(** A method call on [self.inventory]. *)
Definition on_inventory {A} (m : M Items_Multi_State.t A) : M t A :=
  on_field inventory set_inventory m.

(** The class-level tables. *)
Definition _base_mana_points : list (Character_class * Z) :=
  [(Priest, 16); (Mage, 19)].

Definition _bonus_mana_points : list (Z * Z) :=
  [(-4, 0); (-3, 0); (-2, 0); (-1, 0); (0, 0); (1, 1); (2, 4); (3, 9); (4, 16)].

Definition _hitpoint_base : list (Character_class * Z) :=
  [(Warrior, 40); (Priest, 30); (Thief, 30); (Mage, 20)].

Fixpoint class_lookup (d : list (Character_class * Z)) (k : Character_class)
    : option Z :=
  match d with
  | [] => None
  | (k', v) :: d' => if Character_class_eqb k' k then Some v else class_lookup d' k
  end.

Fixpoint int_lookup (d : list (Z * Z)) (k : Z) : option Z :=
  match d with
  | [] => None
  | (k', v) :: d' => if k' =? k then Some v else int_lookup d' k
  end.

(** [self._bonus_mana_points[magic_key_stat_mod]] *)
Definition bonus_mana_points_item (k : Z) : result Z :=
  match int_lookup _bonus_mana_points k with
  | Some v => Ok v
  | None => Raise (KeyError (KInt k))
  end.

(** The [<ability>_mod] pass-through properties of [Character], reached by
    [getattr(self, self.magic_key_stat + '_mod', None)]; the names the
    method can build all exist, so the default [None] is never returned. *)
Definition getattr_mod (self : t) (name : string) : result Z :=
  Ability_Scores.getattr_mod (ability_scores self) name.

Definition _set_up_hit_points_and_mana_points
    (base_hit_points base_mana_points : Z) (magic_key_stat_arg : option string)
    : M t unit :=
  let! self := get_self in
  let! con_mod := lift_result (Ability_Scores.constitution_mod (ability_scores self)) in
  let! _ :=
    (if negb (base_hit_points =? 0) then
       modify_self (set_hit_points (base_hit_points + con_mod * 3))
     else
       match class_lookup _hitpoint_base (character_class self) with
       | Some base => modify_self (set_hit_points (base + con_mod * 3))
       | None => raise (KeyError (KStr (Character_class_str (character_class self))))
       end) in
  let caster_tail : M t unit :=
    let! self := get_self in
    let! magic_key_stat_mod :=
      lift_result (getattr_mod self (magic_key_stat self ++ "_mod")) in
    if negb (base_mana_points =? 0) then
      let! bonus := lift_result (bonus_mana_points_item magic_key_stat_mod) in
      modify_self (set_mana_points (base_mana_points + bonus))
    else
      match class_lookup _base_mana_points (character_class self) with
      | Some base =>
          let! bonus := lift_result (bonus_mana_points_item magic_key_stat_mod) in
          modify_self (set_mana_points (base + bonus))
      | None => modify_self (set_mana_points 0)
      end in
  match magic_key_stat_arg with
  | Some mks =>
      if negb (String.eqb mks "") then
        if String.eqb mks "intelligence" || String.eqb mks "wisdom"
           || String.eqb mks "charisma" then
          let! _ := modify_self (set_magic_key_stat mks) in caster_tail
        else
          raise (Internal_Exception
                   ("`magic_key_stat` argument '" ++ mks ++ "' not recognized"))
      else
        match character_class self with
        | Priest => let! _ := modify_self (set_magic_key_stat "wisdom") in caster_tail
        | Mage => let! _ := modify_self (set_magic_key_stat "intelligence") in caster_tail
        | _ =>
            let! _ := modify_self (set_magic_key_stat "") in
            modify_self (set_mana_points 0)
        end
  | None =>
      match character_class self with
      | Priest => let! _ := modify_self (set_magic_key_stat "wisdom") in caster_tail
      | Mage => let! _ := modify_self (set_magic_key_stat "intelligence") in caster_tail
      | _ =>
          let! _ := modify_self (set_magic_key_stat "") in
          modify_self (set_mana_points 0)
      end
  end.

Definition _attack_or_damage_stat_dependency (self : t) : string :=
  match character_class self with
  | Warrior | Priest => "strength"
  | Mage =>
      if truthy (Equipment.weapon_equipped (_equipment self)) then "strength"
      else "intelligence"
  | Thief => "dexterity"
  end.

Definition item_have_qty (item : Item.t) : M t Z :=
  let! held := on_inventory (Items_Multi_State.contains (Item.internal_name item)) in
  if negb held then ret 0
  else
    let! entry := on_inventory (Items_Multi_State.get (Item.internal_name item)) in
    ret (fst entry).

Definition pick_up_item (item : Item.t) (qty : Z) : M t unit :=
  let! have_qty := item_have_qty item in
  if qty =? 1 then
    on_inventory (Items_Multi_State.add_one (Item.internal_name item) item)
  else
    on_inventory (Items_Multi_State.set (Item.internal_name item) (qty + have_qty) item).

(** [pick_up_item(item)] with the default [qty=1]. *)
Definition pick_up_item_default (item : Item.t) : M t unit := pick_up_item item 1.

Definition drop_item (item : Item.t) (qty : Z) : M t unit :=
  let! have_qty := item_have_qty item in
  if have_qty =? 0 then raise (KeyError (KStr (Item.internal_name item)))
  else if have_qty =? qty then
    on_inventory (Items_Multi_State.delete (Item.internal_name item))
  else
    on_inventory (Items_Multi_State.set (Item.internal_name item) (have_qty - qty) item).

(** [item.attack_bonus] on a slot that may hold [None]. *)
Definition slot_attack_bonus (slot : option Item.t) : result (option Z) :=
  match slot with
  | Some it => Ok (Item.attack_bonus it)
  | None => Raise (AttributeError "attack_bonus")
  end.

(** The character-level [attack_bonus] property; it does not mutate, so it
    is a plain [result]. Adding [None] to an [int] is a [TypeError]. *)
Definition attack_bonus (self : t) : result Z :=
  let equipment := _equipment self in
  if negb (truthy (Equipment.weapon_equipped equipment)
           || (Character_class_eqb (character_class self) Mage
               && truthy (Equipment.wand_equipped equipment))) then
    Raise (Internal_Exception
      "The character does not have a weapon equipped; no valid value for `attack_bonus` can be computed.")
  else
    let stat_dependency := _attack_or_damage_stat_dependency self in
    let base :=
      if Character_class_eqb (character_class self) Mage then
        if truthy (Equipment.wand_equipped equipment)
        then slot_attack_bonus (Equipment.wand equipment)
        else slot_attack_bonus (Equipment.weapon equipment)
      else slot_attack_bonus (Equipment.weapon equipment) in
    match base with
    | Raise e => Raise e
    | Ok base_attack_bonus =>
        match Ability_Scores.getattr_mod (ability_scores self)
                (stat_dependency ++ "_mod") with
        | Raise e => Raise e
        | Ok stat_mod =>
            match base_attack_bonus with
            | Some b => Ok (b + stat_mod)
            | None => Raise TypeError
            end
        end
    end.

Definition set_current_hit_points (v : Z) (c : t) : t :=
  mk (character_name c) (character_class c) (magic_key_stat c)
     (_hit_point_maximum c) v
     (_mana_point_maximum c) (_current_mana_points c)
     (ability_scores c) (inventory c) (_equipment c).

Definition set_current_mana_points (v : Z) (c : t) : t :=
  mk (character_name c) (character_class c) (magic_key_stat c)
     (_hit_point_maximum c) (_current_hit_points c)
     (_mana_point_maximum c) v
     (ability_scores c) (inventory c) (_equipment c).

Definition set_equipment (v : Equipment.t) (c : t) : t :=
  mk (character_name c) (character_class c) (magic_key_stat c)
     (_hit_point_maximum c) (_current_hit_points c)
     (_mana_point_maximum c) (_current_mana_points c)
     (ability_scores c) (inventory c) v.

(** A method call on [self._equipment]. *)
Definition on_equipment {A} (m : M Equipment.t A) : M t A :=
  on_field _equipment set_equipment m.

Definition take_damage (damage_value : Z) : M t Z :=
  let! self := get_self in
  if _current_hit_points self - damage_value <? 0 then
    let taken_amount := _current_hit_points self in
    let! _ := modify_self (set_current_hit_points 0) in
    ret taken_amount
  else
    let! _ := modify_self
                (set_current_hit_points (_current_hit_points self - damage_value)) in
    ret damage_value.

Definition heal_damage (healing_value : Z) : M t Z :=
  let! self := get_self in
  if _hit_point_maximum self <? _current_hit_points self + healing_value then
    let amount_healed := _hit_point_maximum self - _current_hit_points self in
    let! _ := modify_self (set_current_hit_points (_hit_point_maximum self)) in
    ret amount_healed
  else
    let! _ := modify_self
                (set_current_hit_points (_current_hit_points self + healing_value)) in
    ret healing_value.

Definition spend_mana (spent_amount : Z) : M t Z :=
  let! self := get_self in
  if _current_mana_points self <? spent_amount then ret 0
  else
    let! _ := modify_self
                (set_current_mana_points (_current_mana_points self - spent_amount)) in
    ret spent_amount.

Definition regain_mana (regaining_value : Z) : M t Z :=
  let! self := get_self in
  if _mana_point_maximum self <? _current_mana_points self + regaining_value then
    let amount_regained := _mana_point_maximum self - _current_mana_points self in
    let! _ := modify_self (set_current_mana_points (_mana_point_maximum self)) in
    ret amount_regained
  else
    let! _ := modify_self
                (set_current_mana_points (_current_mana_points self + regaining_value)) in
    ret regaining_value.

Definition is_alive (self : t) : bool := 0 <? _current_hit_points self.

Definition is_dead (self : t) : bool := _current_hit_points self =? 0.




Definition have_item (item : Item.t) : M t bool :=
  on_inventory (Items_Multi_State.contains (Item.internal_name item)).

(** The four [equip_*] methods of the character: the check for the item in
    the inventory, then the method of [Equipment]. *)
Definition not_in_inventory : exn :=
  Internal_Exception
    "equipping an `item` object that is not in the character's `inventory` object is not allowed".

Definition equip_armor (item : Item.t) : M t unit :=
  let! held := on_inventory (Items_Multi_State.contains (Item.internal_name item)) in
  if negb held then raise not_in_inventory
  else on_equipment (Equipment.equip_armor item).

Definition equip_shield (item : Item.t) : M t unit :=
  let! held := on_inventory (Items_Multi_State.contains (Item.internal_name item)) in
  if negb held then raise not_in_inventory
  else on_equipment (Equipment.equip_shield item).

Definition equip_weapon (item : Item.t) : M t unit :=
  let! held := on_inventory (Items_Multi_State.contains (Item.internal_name item)) in
  if negb held then raise not_in_inventory
  else on_equipment (Equipment.equip_weapon item).

Definition equip_wand (item : Item.t) : M t unit :=
  let! held := on_inventory (Items_Multi_State.contains (Item.internal_name item)) in
  if negb held then raise not_in_inventory
  else on_equipment (Equipment.equip_wand item).

Definition unequip_armor : M t unit := on_equipment Equipment.unequip_armor.
Definition unequip_shield : M t unit := on_equipment Equipment.unequip_shield.
Definition unequip_weapon : M t unit := on_equipment Equipment.unequip_weapon.
Definition unequip_wand : M t unit := on_equipment Equipment.unequip_wand.

(** The character-level [armor_class]: that of the equipment plus the
    dexterity modifier. *)
Definition armor_class (self : t) : result Z :=
  match Equipment.armor_class (_equipment self) with
  | Raise e => Raise e
  | Ok armor_class =>
      match Ability_Scores.dexterity_mod (ability_scores self) with
      | Raise e => Raise e
      | Ok dexterity_mod => Ok (armor_class + dexterity_mod)
      end
  end.

Definition class_of_str (character_class_str : string) : option Character_class :=
  if String.eqb character_class_str "Warrior" then Some Warrior
  else if String.eqb character_class_str "Thief" then Some Thief
  else if String.eqb character_class_str "Priest" then Some Priest
  else if String.eqb character_class_str "Mage" then Some Mage
  else None.

(** [_set_up_ability_scores]: all six given, or none (then they are
    rolled), on the [Ability_Scores] object; with the generator's position. *)
Definition _set_up_ability_scores (rng : nat -> Z) (pos : nat)
    (strength dexterity constitution intelligence wisdom charisma : Z)
    (scores : Ability_Scores.t) : result Ability_Scores.t * nat :=
  let given := [strength; dexterity; constitution; intelligence; wisdom; charisma] in
  if forallb (fun v => negb (v =? 0)) given then
    (Ok (Ability_Scores.mk strength dexterity constitution intelligence wisdom
           charisma (Ability_Scores.character_class scores)), pos)
  else if existsb (fun v => negb (v =? 0)) given then
    (Raise (Internal_Exception
       "The constructor for `character` must be supplied with either all of the arguments `strength`, `dexterity`, `constitution`, `intelligence`, `wisdom`, and `charisma` or none of them."),
     pos)
  else
    let rolled := Ability_Scores.roll_stats rng pos scores in
    (Ok (fst rolled), snd rolled).

(** [Character.__init__]: the object built (or the exception) and the
    position of the generator afterwards.  The hit point and mana point slots
    are unset until the last step fills them; the record holds 0 there
    meanwhile. *)
Definition init (rng : nat -> Z) (pos : nat)
    (character_name_str character_class_str : string)
    (base_hit_points base_mana_points : Z) (magic_key_stat_arg : option string)
    (strength dexterity constitution intelligence wisdom charisma : Z)
    : result t * nat :=
  match class_of_str character_class_str with
  | None =>
      (Raise (Internal_Exception
         ("character class argument " ++ character_class_str
          ++ " not one of Warrior, Thief, Priest or Mage")), pos)
  | Some class =>
      match _set_up_ability_scores rng pos strength dexterity constitution
              intelligence wisdom charisma (Ability_Scores.init class) with
      | (Raise e, pos') => (Raise e, pos')
      | (Ok scores, pos') =>
          let self := mk character_name_str class "" 0 0 0 0 scores
                        Items_Multi_State.empty (Equipment.init class) in
          match _set_up_hit_points_and_mana_points base_hit_points
                  base_mana_points magic_key_stat_arg self with
          | (Ok _, self') => (Ok self', pos')
          | (Raise e, _) => (Raise e, pos')
          end
      end
  end.

(** [Character(name, class)]: every other argument at its default. *)
Definition init_default (rng : nat -> Z) (pos : nat)
    (character_name_str character_class_str : string) : result t * nat :=
  init rng pos character_name_str character_class_str 0 0 None 0 0 0 0 0 0.

End Character.

(** ** Python string methods used by the doors and rooms *)

(** [s.split(sep)] for a non-empty separator: scan left to right, cutting
    at every non-overlapping occurrence.  [skip] counts the characters of a
    matched separator still to be passed over; [cur] is the part read so
    far. *)
Fixpoint split_go (sep s : string) (skip : nat) (cur : string) : list string :=
  match s with
  | EmptyString => [cur]
  | String c s' =>
      match skip with
      | S k => split_go sep s' k cur
      | O =>
          if String.prefix sep s
          then cur :: split_go sep s' (Nat.pred (String.length sep)) ""
          else split_go sep s' O (cur ++ String c "")
      end
  end.

Definition split (s sep : string) : list string := split_go sep s O "".

(** [c.lower()] on the ASCII range; bytes outside it are left alone (no
    non-ASCII character lowers to a letter of [exit]). *)
Definition lower_ascii (c : ascii) : ascii :=
  let n := nat_of_ascii c in
  if (65 <=? n)%nat && (n <=? 90)%nat then ascii_of_nat (n + 32) else c.

Fixpoint lower (s : string) : string :=
  match s with
  | EmptyString => EmptyString
  | String c s' => String (lower_ascii c) (lower s')
  end.

(** [s.replace(old, new)] for single characters. *)
Fixpoint replace_char (old new : ascii) (s : string) : string :=
  match s with
  | EmptyString => EmptyString
  | String c s' =>
      String (if Ascii.eqb c old then new else c) (replace_char old new s')
  end.

(** [tuple(sorted((a, b)))]: the sort is stable and compares with [<], which
    on [str] is the lexicographic order of the code points. *)
Definition sorted_pair (a b : string) : string * string :=
  if String.ltb b a then (b, a) else (a, b).

(** Truth value of an attribute holding [None], [False] or [True]. *)
Definition flag (o : option bool) : bool :=
  match o with Some true => true | _ => false end.

(** ** class Door and its subclasses *)

Module Door.

Inductive cls : Type := Doorway | Wooden_Door | Iron_Door.

(** [_linked_rooms_internal_names] is a [set]; it is kept as the list of
    its elements without repetition.  Its iteration order matters only to
    [other_room_internal_name] on a set of three or more names, which
    [Doors_State.__init__] cannot load (it unpacks exactly two parts). *)
Record t : Type := mk {
  internal_name : string;
  title : option string;
  description : option string;
  door_type : option string;
  is_locked : option bool;
  is_closed : option bool;
  closable : option bool;
  _linked_rooms_internal_names : list string;
  is_exit : option bool;
  door_class : cls
}.

(** The keyword arguments of one section of doors.ini, after the value
    sniffing of [Ini_Entry.__init__]; [None] is a key that is not there. *)
Record argd : Type := mk_argd {
  arg_title : option string;
  arg_description : option string;
  arg_door_type : option string;
  arg_is_locked : option bool;
  arg_is_closed : option bool;
  arg_closable : option bool;
  arg_is_exit : option bool
}.

(** [Door.__init__] called on class [c]. *)
Definition init (c : cls) (internal_name : string) (a : argd) : t :=
  mk internal_name (arg_title a) (arg_description a) (arg_door_type a)
     (arg_is_locked a) (arg_is_closed a) (arg_closable a)
     (remove_dups (split internal_name "_x_"))
     (arg_is_exit a) c.

Definition subclassing_factory (internal_name : string) (door_dict : argd)
    : result t :=
  match arg_door_type door_dict with
  | None => Raise (KeyError (KStr "door_type"))
  | Some ty =>
      if String.eqb ty "doorway" then Ok (init Doorway internal_name door_dict)
      else if String.eqb ty "wooden_door" then Ok (init Wooden_Door internal_name door_dict)
      else if String.eqb ty "iron_door" then Ok (init Iron_Door internal_name door_dict)
      else Raise (Internal_Exception ("unrecognized door type: " ++ ty))
  end.

(** The loop of [other_room_internal_name]: the first name that differs
    from the argument, or Python's implicit [None]. *)
Fixpoint first_other (names : list string) (room_internal_name : string)
    : option string :=
  match names with
  | [] => None
  | found_internal_name :: rest =>
      if String.eqb found_internal_name room_internal_name
      then first_other rest room_internal_name
      else Some found_internal_name
  end.

Definition other_room_internal_name (self : t) (room_internal_name : string)
    : result (option string) :=
  if negb (existsb (String.eqb room_internal_name)
                   (_linked_rooms_internal_names self)) then
    Raise (Internal_Exception
             ("room internal name " ++ room_internal_name
              ++ " not one of the two rooms linked by this door object"))
  else Ok (first_other (_linked_rooms_internal_names self) room_internal_name).

(** [copy]: the constructor is run again on the object's own attributes,
    which recomputes the linked names from the same internal name. *)
Definition copy (self : t) : t :=
  mk (internal_name self) (title self) (description self) (door_type self)
     (is_locked self) (is_closed self) (closable self)
     (remove_dups (split (internal_name self) "_x_"))
     (is_exit self) (door_class self).

Definition set_title (v : string) (self : t) : t :=
  mk (internal_name self) (Some v) (description self) (door_type self)
     (is_locked self) (is_closed self) (closable self)
     (_linked_rooms_internal_names self)
     (is_exit self) (door_class self).

End Door.

(** ** class Doors_State *)

Module Doors_State.

(** [self._contents], a [defaultdict(dict)]: first room name -> second
    room name -> door. *)
Abbreviation t := (gmap string (gmap string Door.t)).

(** [self._contents[first]]: a missing key is inserted with an empty
    [dict] and that [dict] is returned. *)
Definition inner (first_room_internal_name : string) : M t (gmap string Door.t) :=
  let! s := get_self in
  match s !! first_room_internal_name with
  | Some d => ret d
  | None =>
      let! _ := put_self (<[first_room_internal_name := ∅]> s) in
      ret ∅
  end.

(** One turn of the loop of [__init__]. The right-hand side of the
    assignment (the factory call) is evaluated before the store is
    touched. *)
Definition load_one (entry : string * Door.argd) : M t unit :=
  let door_internal_name := fst entry in
  match split door_internal_name "_x_" with
  | [first_room_internal_name; second_room_internal_name] =>
      let! door := lift_result (Door.subclassing_factory door_internal_name (snd entry)) in
      let! d := inner first_room_internal_name in
      modify_self (fun s : t =>
        <[first_room_internal_name := <[second_room_internal_name := door]> d]> s)
  | _ => raise ValueError
  end.

Fixpoint load (dict_of_dicts : list (string * Door.argd)) : M t unit :=
  match dict_of_dicts with
  | [] => ret tt
  | entry :: rest => let! _ := load_one entry in load rest
  end.

(** The constructor run on the sections of doors.ini, in file order: the
    result and the store built. *)
Definition init (dict_of_dicts : list (string * Door.argd)) : result unit * t :=
  load dict_of_dicts ∅.

Definition get (first_room_internal_name second_room_internal_name : string)
    : M t Door.t :=
  let! d := inner first_room_internal_name in
  match d !! second_room_internal_name with
  | Some door => ret door
  | None => raise (KeyError (KStr second_room_internal_name))
  end.

Definition contains (first_room_internal_name second_room_internal_name : string)
    (s : t) : bool :=
  match s !! first_room_internal_name with
  | Some d => truthy (d !! second_room_internal_name)
  | None => false
  end.

Definition set (first_room_internal_name second_room_internal_name : string)
    (door : Door.t) : M t unit :=
  let! d := inner first_room_internal_name in
  modify_self (fun s : t =>
    <[first_room_internal_name := <[second_room_internal_name := door]> d]> s).

(** [del self._contents[first][second]]: the inner [dict] is fetched (and
    made, when missing) before the deletion is tried. *)
Definition delete (first_room_internal_name second_room_internal_name : string)
    : M t unit :=
  let! d := inner first_room_internal_name in
  match d !! second_room_internal_name with
  | Some _ =>
      modify_self (fun s : t =>
        <[first_room_internal_name := base.delete second_room_internal_name d]> s)
  | None => raise (KeyError (KStr second_room_internal_name))
  end.

(** The pairs of names under which a door is filed. *)
Definition keys (s : t) : list (string * string) :=
  flat_map (fun outer : string * gmap string Door.t =>
              map (fun inner : string * Door.t => (fst outer, fst inner))
                  (map_to_list (snd outer)))
           (map_to_list s).

Definition values (s : t) : list Door.t :=
  flat_map (fun outer : string * gmap string Door.t =>
              map snd (map_to_list (snd outer)))
           (map_to_list s).

Definition size (s : t) : nat := List.length (keys s).

End Doors_State.

(** ** class Room *)

Module Room.

(** The attributes the modelled methods read.  After [__init__] a door
    attribute holds a [Door] or a false value ([None]). *)
Record t : Type := mk {
  internal_name : string;
  title : option string;
  description : option string;
  north_door : option Door.t;
  west_door : option Door.t;
  south_door : option Door.t;
  east_door : option Door.t;
  is_entrance : option bool;
  is_exit : option bool
}.

(** [getattr(self, exit_name)] for the four door attributes. *)
Definition getattr_door (self : t) (exit_name : string) : result (option Door.t) :=
  if String.eqb exit_name "north_door" then Ok (north_door self)
  else if String.eqb exit_name "west_door" then Ok (west_door self)
  else if String.eqb exit_name "south_door" then Ok (south_door self)
  else if String.eqb exit_name "east_door" then Ok (east_door self)
  else Raise (AttributeError exit_name).

(** The pair of keys [__init__] looks a door up with: the two names
    sorted, and turned around when the first one is the exit marker. *)
Definition canonical_pair (internal_name other : string) : string * string :=
  let sp := sorted_pair internal_name other in
  if String.eqb (lower (fst sp)) "exit" then (snd sp, fst sp) else sp.

(** The body of the loop over the compass directions in [__init__], for a
    door attribute that names the room [other]: look the door up, copy it,
    retitle the copy. *)
Definition resolve_door (internal_name compass_dir other : string)
    : M Doors_State.t Door.t :=
  let sp := canonical_pair internal_name other in
  let! found := Doors_State.get (fst sp) (snd sp) in
  let door := Door.copy found in
  ret (Door.set_title
         (if match Door.title door with
             | Some ti => String.eqb ti "doorway"
             | None => false
             end
          then compass_dir ++ " doorway" else compass_dir ++ " door")
         door).

End Room.

(** ** class Rooms_State *)

Module Rooms_State.

(** [_room_cursor] is [None] while the slot is unset (no room of rooms.ini
    had [is_entrance]); the four store references are read by no modelled
    method. *)
Record t : Type := mk {
  _rooms_objs : gmap string Room.t;
  _room_cursor : option string
}.

Definition set_room_cursor (v : string) (self : t) : t :=
  mk (_rooms_objs self) (Some v).

(** The [cursor] property. *)
Definition cursor : M t Room.t :=
  let! self := get_self in
  match _room_cursor self with
  | None => raise (AttributeError "_room_cursor")
  | Some name =>
      match _rooms_objs self !! name with
      | Some room => ret room
      | None => raise (KeyError (KStr name))
      end
  end.

(** [self._rooms_objs[key]] where the key may be [None]. *)
Definition rooms_objs_item (key : option string) : M t Room.t :=
  let! self := get_self in
  match key with
  | None => raise (KeyError KNone)
  | Some name =>
      match _rooms_objs self !! name with
      | Some room => ret room
      | None => raise (KeyError (KStr name))
      end
  end.

(** [exit_name] and [exit_key] as the [if]/[elif] chain binds them; [None]
    when no branch is taken and both stay unbound. *)
Definition exit_binding (north west south east : bool) : option (string * string) :=
  if north then Some ("north_door", "NORTH")
  else if west then Some ("west_door", "WEST")
  else if south then Some ("south_door", "SOUTH")
  else if east then Some ("east_door", "EAST")
  else None.

(** The condition of the first [if] of [move]. *)
Definition more_than_one_direction (north west south east : bool) : bool :=
  (north && west) || (north && south) || (north && east) || (west && south)
  || (west && east) || (south && east).

Definition move (north west south east : bool) : M t unit :=
  if more_than_one_direction north west south east then
    raise (Internal_Exception
      "move() must receive only *one* True argument of the four keys `north`, `south`, `east` and `west`")
  else
    let binding := exit_binding north west south east in
    (* [getattr(self.cursor, exit_name)]: the arguments are evaluated
       left to right, [self.cursor] before the local [exit_name]. *)
    let! room := cursor in
    match binding with
    | None => raise (UnboundLocalError "exit_name")
    | Some (exit_name, exit_key) =>
        let! attr := lift_result (Room.getattr_door room exit_name) in
        if negb (truthy attr) then
          raise (Bad_Command_Exception "MOVE"
                   ("This room has no <" ++ exit_key ++ "> exit."))
        else
          let! room := cursor in
          let! attr := lift_result (Room.getattr_door room exit_name) in
          match attr with
          | None => raise (AttributeError "is_locked")
          | Some door =>
              if flag (Door.is_locked door) then
                let! room := cursor in
                raise (Internal_Exception
                  ("exiting " ++ Room.internal_name room ++ " via the "
                   ++ replace_char "_" " " exit_name ++ ": door is locked"))
              else
                let! room := cursor in
                let! other_room_internal_name :=
                  lift_result (Door.other_room_internal_name door (Room.internal_name room)) in
                let! new_room_dest := rooms_objs_item other_room_internal_name in
                modify_self (set_room_cursor (Room.internal_name new_room_dest))
          end
    end.

End Rooms_State.

(** A [for] loop over a list whose body is a method call. *)
Fixpoint for_each {St A} (l : list A) (body : A -> M St unit) : M St unit :=
  match l with
  | [] => ret tt
  | x :: rest => let! _ := body x in for_each rest body
  end.

(** ** class Container and its subclasses *)

Module Container.

Inductive cls : Type := Chest | Corpse.

(** A container is an [Ini_Entry] and an [Items_Multi_State] at once: the
    six slots, the class, and the inherited [_contents]. *)
Record t : Type := mk {
  internal_name : string;
  title : option string;
  description : option string;
  is_locked : option bool;
  is_closed : option bool;
  container_type : option string;
  container_class : cls;
  _contents : Items_Multi_State.t
}.

(** The keyword arguments other than [contents], after value sniffing. *)
Record argd : Type := mk_argd {
  arg_title : option string;
  arg_description : option string;
  arg_is_locked : option bool;
  arg_is_closed : option bool;
  arg_container_type : option string
}.

Definition set_contents (v : Items_Multi_State.t) (self : t) : t :=
  mk (internal_name self) (title self) (description self) (is_locked self)
     (is_closed self) (container_type self) (container_class self) v.

(** A method of [Items_Multi_State] called on the container. *)
Definition as_items_state {A} (m : M Items_Multi_State.t A) : M t A :=
  on_field _contents set_contents m.

Definition set (item_internal_name : string) (item_qty : Z) (item : Item.t)
    : M t unit :=
  as_items_state (Items_Multi_State.set item_internal_name item_qty item).

(** [items_state.get(name)] for each pair of the unpacked contents. *)
Fixpoint lookup_items (items_state : gmap string Item.t)
    (pairs : list (Z * string)) : result (list (Z * Item.t)) :=
  match pairs with
  | [] => Ok []
  | (item_qty, item_internal_name) :: rest =>
      match items_state !! item_internal_name with
      | None => Raise (KeyError (KStr item_internal_name))
      | Some item =>
          match lookup_items items_state rest with
          | Ok l => Ok ((item_qty, item) :: l)
          | Raise e => Raise e
          end
      end
  end.

(** [Container.__init__] run on class [c].  [contents] is the value of the
    [contents] key as [_process_list_value] unpacks it, [None] when the key
    is missing or empty. *)
Definition init (c : cls) (items_state : gmap string Item.t)
    (internal_name : string) (contents : option (list (Z * string)))
    (a : argd) : result t :=
  let entry :=
    mk internal_name (arg_title a) (arg_description a) (arg_is_locked a)
       (arg_is_closed a) (arg_container_type a) c Items_Multi_State.empty in
  match contents with
  | None => Ok entry
  | Some contents_qtys_names =>
      match lookup_items items_state contents_qtys_names with
      | Raise e => Raise e
      | Ok contents_qtys_item_objs =>
          match for_each contents_qtys_item_objs
                  (fun qi : Z * Item.t =>
                     set (Item.internal_name (snd qi)) (fst qi) (snd qi)) entry with
          | (Ok _, built) => Ok built
          | (Raise e, _) => Raise e
          end
      end
  end.

End Container.

(** ** class Creature *)

Module Creature.

(** A creature is an [Ini_Entry] and a [Character] at once; the character
    half is the field [character].  [title] and [description_dead] are not
    in [__slots__], so they exist only when creatures.ini gives them:
    [None] here is a missing attribute. *)
Record t : Type := mk {
  internal_name : string;
  title : option string;
  description : option string;
  description_dead : option string;
  species : option string;
  _items_state : gmap string Item.t;
  character : Character.t
}.

Definition convert_to_corpse (self : t) : result Container.t :=
  let internal_name := internal_name self in
  match description_dead self with
  | None => Raise (AttributeError "description_dead")
  | Some description =>
      match title self with
      | None => Raise (AttributeError "title")
      | Some creature_title =>
          let title := creature_title ++ " corpse" in
          match Container.init Container.Corpse (_items_state self) internal_name None
                  (Container.mk_argd (Some title) (Some description) None None
                                     (Some "corpse")) with
          | Raise e => Raise e
          | Ok corpse =>
              match for_each
                      (Items_Multi_State.items (Character.inventory (character self)))
                      (fun entry : string * (Z * Item.t) =>
                         Container.set (fst entry) (fst (snd entry)) (snd (snd entry)))
                      corpse with
              | (Ok _, corpse') => Ok corpse'
              | (Raise e, _) => Raise e
              end
          end
      end
  end.

End Creature.

(** ** class Ini_Entry: equality *)

Module Ini_Entry.

(** The classes derived from [Ini_Entry]; each of them declares or
    inherits [__slots__].  ([Ini_Entry] itself declares none and is never
    instantiated.) *)
Inductive cls : Type :=
| Item | Equippable_Item | Armor | Coin | Potion | Key | Oddment
| Shield | Wand | Weapon
| Door | Doorway | Wooden_Door | Iron_Door
| Container | Chest | Corpse
| Creature
| Room.

(** The base class named in the [class] statement, among the classes
    above. *)
Definition base (c : cls) : option cls :=
  match c with
  | Item | Door | Container | Creature | Room => None
  | Equippable_Item | Coin | Potion | Key | Oddment => Some Item
  | Armor | Shield | Wand | Weapon => Some Equippable_Item
  | Doorway | Wooden_Door | Iron_Door => Some Door
  | Chest | Corpse => Some Container
  end.

Definition cls_eqb (c d : cls) : bool :=
  match c, d with
  | Item, Item | Equippable_Item, Equippable_Item | Armor, Armor
  | Coin, Coin | Potion, Potion | Key, Key | Oddment, Oddment
  | Shield, Shield | Wand, Wand | Weapon, Weapon
  | Door, Door | Doorway, Doorway | Wooden_Door, Wooden_Door
  | Iron_Door, Iron_Door
  | Container, Container | Chest, Chest | Corpse, Corpse
  | Creature, Creature | Room, Room => true
  | _, _ => false
  end.

(** [issubclass(c, d)]: [d] is [c] or is reached from [c] by following
    bases; the hierarchy is three classes deep. *)
Fixpoint issubclass_fuel (fuel : nat) (c d : cls) : bool :=
  cls_eqb c d ||
  match fuel with
  | O => false
  | S n => match base c with
           | Some b => issubclass_fuel n b d
           | None => false
           end
  end.

Definition issubclass (c d : cls) : bool := issubclass_fuel 3 c d.

(** [self.__slots__], found on the class or on the nearest base. *)
Definition slots (c : cls) : list string :=
  match c with
  | Item | Equippable_Item | Armor | Coin | Potion | Key | Oddment
  | Shield | Wand | Weapon =>
      ["internal_name"; "title"; "description"; "weight"; "value"; "damage";
       "attack_bonus"; "armor_bonus"; "item_type"; "warrior_can_use";
       "thief_can_use"; "priest_can_use"; "mage_can_use";
       "hit_points_recovered"; "mana_points_recovered"]
  | Door | Doorway | Wooden_Door | Iron_Door =>
      ["internal_name"; "title"; "description"; "door_type"; "is_locked";
       "is_closed"; "closable"; "_linked_rooms_internal_names"; "is_exit"]
  | Container | Chest | Corpse =>
      ["internal_name"; "title"; "description"; "is_locked"; "is_closed";
       "container_type"]
  | Creature =>
      ["internal_name"; "character_name"; "description"; "character_class";
       "species"; "_strength"; "_dexterity"; "_constitution"; "_intelligence";
       "_wisdom"; "_charisma"; "_items_state"; "_base_hit_points";
       "_weapon_equipped"; "_armor_equipped"; "_shield_equipped"]
  | Room =>
      ["internal_name"; "title"; "description"; "north_door"; "west_door";
       "south_door"; "east_door"; "occupant"; "item"; "is_entrance"; "is_exit";
       "_containers_state"; "_creatures_state"; "_doors_state"; "_items_state";
       "creature_here"; "container_here"; "items_here"]
  end.

Section Equality.

(** Attribute values are whatever Python values the entries hold
    (booleans, integers, floats, texts, [None], other objects);
    [value_eq x y] is the truth value of [x == y] on them. *)
Variable value : Type.
Variable none : value.
Variable value_eq : value -> value -> bool.

(** An entry object: its class and the attributes set on it. *)
Record obj : Type := mk_obj {
  type : cls;
  attrs : gmap string value
}.

(** [getattr(o, attr, None)] *)
Definition getattr (o : obj) (attr : string) : value :=
  match attrs o !! attr with
  | Some v => v
  | None => none
  end.

Definition isinstance (o : obj) (c : cls) : bool := issubclass (type o) c.

(** The method [Ini_Entry.__eq__]. *)
Definition __eq__ (self other : obj) : bool :=
  if negb (isinstance other (type self)) then false
  else forallb (fun attr => value_eq (getattr self attr) (getattr other attr))
               (slots (type self)).

(** The expression [a == b]: when the operands differ in type and the
    type of [b] is a subclass of the type of [a], Python calls the method
    of [b] first; otherwise the method of [a].  [__eq__] never returns
    [NotImplemented], so the first call decides. *)
Definition py_eq (a b : obj) : bool :=
  if negb (cls_eqb (type a) (type b)) && issubclass (type b) (type a)
  then __eq__ b a
  else __eq__ a b.

End Equality.

Arguments mk_obj {value} type attrs.
Arguments type {value} o.
Arguments attrs {value} o.
Arguments getattr {value} none o attr.
Arguments isinstance {value} o c.
Arguments __eq__ {value} none value_eq self other.
Arguments py_eq {value} none value_eq a b.

End Ini_Entry.

(** ** class Game_State *)

Module Game_State.

(** The attributes the two setters read and write; the five stores are
    read by no modelled method.  [None] is Python's [None]. *)
Record t : Type := mk {
  _character_name : option string;
  _character_class : option string;
  character : option Character.t;
  game_has_begun : bool;
  game_has_ended : bool
}.

(** [Game_State(...)] as [__init__] leaves it. *)
Definition init : t := mk None None None false false.

Definition set_name (v : string) (self : t) : t :=
  mk (Some v) (_character_class self) (character self) (game_has_begun self)
     (game_has_ended self).

Definition set_class (v : string) (self : t) : t :=
  mk (_character_name self) (Some v) (character self) (game_has_begun self)
     (game_has_ended self).

Definition set_character (v : Character.t) (self : t) : t :=
  mk (_character_name self) (_character_class self) (Some v) (game_has_begun self)
     (game_has_ended self).

(** Truth value of an attribute holding [None] or a text. *)
Definition nonempty (o : option string) : bool :=
  match o with
  | Some (String _ _) => true
  | _ => false
  end.

(** The methods run in a world made of the object and the position of the
    process-wide random generator [rng]. *)
Definition _incept_character_obj_if_possible (rng : nat -> Z)
    : M (t * nat) unit :=
  let! world := get_self in
  let self := fst world in
  if negb (truthy (character self)) && nonempty (_character_name self)
     && nonempty (_character_class self) then
    match _character_name self, _character_class self with
    | Some name, Some class =>
        match Character.init_default rng (snd world) name class with
        | (Ok c, pos') => put_self (set_character c self, pos')
        | (Raise e, pos') => let! _ := put_self (self, pos') in raise e
        end
    | _, _ => ret tt
    end
  else ret tt.

(** The setter of the [character_name] property. *)
Definition set_character_name (rng : nat -> Z) (name_str : string)
    : M (t * nat) unit :=
  let! _ := modify_self (fun w : t * nat => (set_name name_str (fst w), snd w)) in
  _incept_character_obj_if_possible rng.

(** The setter of the [character_class] property. *)
Definition set_character_class (rng : nat -> Z) (class_str : string)
    : M (t * nat) unit :=
  let! _ := modify_self (fun w : t * nat => (set_class class_str (fst w), snd w)) in
  _incept_character_obj_if_possible rng.

End Game_State.

(** ** Sample data

    Items of the test fixture [Items_Ini_Config_Text], as
    [Item.subclassing_factory] builds them. *)

Module Sample.

Definition Gold_Coin : Item.t :=
  Item.mk "Gold_Coin" "gold coin"
    "A small shiny gold coin imprinted with an indistinct bust on one side and a worn state seal on the other."
    None None None Item.Coin false false false false.

Definition Short_Sword : Item.t :=
  Item.mk "Short_Sword" "short sword"
    "A smaller sword with a short blade and a narrower grip."
    (Some "1d8") (Some 0) None Item.Weapon true true false false.

Definition Magic_Sword : Item.t :=
  Item.mk "Magic_Sword" "magic sword"
    "A magic sword with a palpable magic aura and an unnaturally sharp blade."
    (Some "1d12+3") (Some 3) None Item.Weapon true false false false.

Definition Magic_Wand : Item.t :=
  Item.mk "Magic_Wand" "magic wand"
    "A palpably magical tapered length of polished ash wood tipped with a glowing red carnelian gem."
    (Some "2d12+3") (Some 3) None Item.Wand false false false true.

Definition Staff : Item.t :=
  Item.mk "Staff" "staff"
    "A balanced pole 6 feet in length with metal-shod ends."
    (Some "1d6") (Some 0) None Item.Weapon true false false true.

(** A purse of two gold coins. *)
Definition two_coins : gmap string (Z * Item.t) :=
  {[ "Gold_Coin" := (2, Gold_Coin) ]}.

(** The ability scores of the fixture creature [Kobold_Trysk]. *)
Definition Trysk_scores (c : Character_class) : Ability_Scores.t :=
  Ability_Scores.mk 9 13 10 10 9 8 c.

(** A spellcaster of class [c] with intelligence 16 and wisdom 12, before
    its hit points and mana points are set up. *)
Definition caster (c : Character_class) : Character.t :=
  Character.mk "Ardren" c "" 0 0 0 0 (Ability_Scores.mk 8 16 15 16 12 18 c)
    Items_Multi_State.empty (Equipment.init c).

(** The fixture creature [Kobold_Trysk]: a Thief carrying its short sword
    and thirty gold coins. *)
Definition Kobold_Trysk : Creature.t :=
  Creature.mk "Kobold_Trysk" (Some "kobold")
    (Some "This diminuitive draconic humanoid is dressed in leather armor and has a short sword at its hip. It eyes you warily.")
    (Some "This diminuitive draconic humanoid is recently slain.")
    (Some "Kobold")
    {[ "Short_Sword" := Short_Sword; "Gold_Coin" := Gold_Coin ]}
    (Character.mk "Trysk" Thief "" 20 20 0 0 (Trysk_scores Thief)
       {[ "Short_Sword" := (1, Short_Sword); "Gold_Coin" := (30, Gold_Coin) ]}
       (Equipment.mk Thief None None (Some Short_Sword) None)).

(** Doors of the fixture [Doors_Ini_Config_Text], as a room holds them
    after [Room.__init__] has copied and retitled them. *)
Definition east_door_of_Room_1_1 : Door.t :=
  Door.set_title "east door"
    (Door.init Door.Wooden_Door "Room_1,1_x_Room_1,2"
       (Door.mk_argd (Some "wooden door")
          (Some "This door is made of wooden planks secured together with iron divots.")
          (Some "wooden_door") (Some false) (Some true) (Some true) None)).

Definition north_door_of_Room_1_1 : Door.t :=
  Door.set_title "north door"
    (Door.init Door.Iron_Door "Room_1,1_x_Room_2,1"
       (Door.mk_argd (Some "iron door")
          (Some "This door is bound in iron plates with a small barred window set up high.")
          (Some "iron_door") (Some true) (Some true) (Some true) None)).

Definition Room_1_1 : Room.t :=
  Room.mk "Room_1,1" (Some "Southwest dungeon room") (Some "Entrance room")
    (Some north_door_of_Room_1_1) None None (Some east_door_of_Room_1_1)
    (Some true) None.

Definition Room_1_2 : Room.t :=
  Room.mk "Room_1,2" (Some "Southeast dungeon room") (Some "Nondescript room")
    None None None None None None.

Definition Room_2_1 : Room.t :=
  Room.mk "Room_2,1" (Some "Northwest dungeon room") (Some "Nondescript room")
    None None None None None None.

(** The room graph with the player in the entrance room. *)
Definition dungeon : Rooms_State.t :=
  Rooms_State.mk
    {[ "Room_1,1" := Room_1_1; "Room_1,2" := Room_1_2; "Room_2,1" := Room_2_1 ]}
    (Some "Room_1,1").

(** The wooden door of the fixture. *)
Definition wooden_door_argd : Door.argd :=
  Door.mk_argd (Some "wooden door")
    (Some "This door is made of wooden planks secured together with iron divots.")
    (Some "wooden_door") (Some false) (Some true) (Some true) None.

(** A doors.ini whose one section names its two rooms with the later name
    first. *)
Definition doors_ini_later_room_first : list (string * Door.argd) :=
  [("Room_2,1_x_Room_1,1", wooden_door_argd)].

(** A doors.ini whose one section is an exit door with the exit marker in
    the first slot. *)
Definition doors_ini_exit_first : list (string * Door.argd) :=
  [("Exit_x_Room_1,1", wooden_door_argd)].

(** Two rooms joined by the wooden door of the fixture, which each room
    holds under its own direction; the player is in the western room. *)
Definition west_door_of_Room_1_2 : Door.t :=
  Door.set_title "west door"
    (Door.init Door.Wooden_Door "Room_1,1_x_Room_1,2" wooden_door_argd).

Definition two_rooms : Rooms_State.t :=
  Rooms_State.mk
    {[ "Room_1,1" := Room_1_1;
       "Room_1,2" :=
         Room.mk "Room_1,2" (Some "Southeast dungeon room") (Some "Nondescript room")
           None (Some west_door_of_Room_1_2) None None None None ]}
    (Some "Room_1,1").

(** The last room of the fixture with a way out of the dungeon: an open
    doorway to the north whose section of doors.ini is [Room_2,2_x_Exit], as
    [Room.__init__] leaves it in the room; the player stands in that room. *)
Definition north_door_of_Room_2_2 : Door.t :=
  Door.set_title "north doorway"
    (Door.init Door.Doorway "Room_2,2_x_Exit"
       (Door.mk_argd (Some "doorway")
          (Some "This open doorway leads out of the dungeon.")
          (Some "doorway") (Some false) (Some false) (Some false) (Some true))).

Definition Room_2_2 : Room.t :=
  Room.mk "Room_2,2" (Some "Northeast dungeon room") (Some "Exit room")
    (Some north_door_of_Room_2_2) None None None None (Some true).

Definition dungeon_at_exit : Rooms_State.t :=
  Rooms_State.mk
    {[ "Room_1,1" := Room_1_1; "Room_1,2" := Room_1_2; "Room_2,1" := Room_2_1;
       "Room_2,2" := Room_2_2 ]}
    (Some "Room_2,2").

(** A Thief who carries a short sword and has nothing equipped. *)
Definition unarmed_thief : Character.t :=
  Character.mk "Trysk" Thief "" 20 20 0 0 (Trysk_scores Thief)
    {[ "Short_Sword" := (1, Short_Sword) ]} (Equipment.init Thief).

(** A character of class [c] carrying two gold coins, with the given
    weapon and wand slots. *)
Definition hero (c : Character_class) (weapon wand : option Item.t)
    : Character.t :=
  Character.mk "Trysk" c "" 20 20 0 0 (Trysk_scores c) two_coins
    (Equipment.mk c None None weapon wand).

End Sample.

(** ** Vocabulary of the statements *)

(** The quantity of a name held in a store: the stored quantity, 0 for a
    name that is not a key. *)
Definition held_qty (s : gmap string (Z * Item.t)) (name : string) : Z :=
  match s !! name with
  | Some (q, _) => q
  | None => 0
  end.

(** The ability-score modifier that goes into a character's attack: strength
    for a Warrior, a Priest and a Mage with a weapon equipped, dexterity for a
    Thief, intelligence for a Mage with no weapon equipped. *)
Definition attack_stat_mod (c : Character.t) : Z :=
  let a := Character.ability_scores c in
  match Character.character_class c with
  | Warrior | Priest => (Ability_Scores.strength a - 10) / 2
  | Thief => (Ability_Scores.dexterity a - 10) / 2
  | Mage =>
      match Equipment.weapon (Character._equipment c) with
      | Some _ => (Ability_Scores.strength a - 10) / 2
      | None => (Ability_Scores.intelligence a - 10) / 2
      end
  end.

(** The arguments [_set_up_hit_points_and_mana_points] accepts for
    [magic_key_stat]: none, an empty text, or one of the three names it
    checks for. *)
Definition valid_magic_key_stat (arg : option string) : bool :=
  match arg with
  | None => true
  | Some s =>
      String.eqb s "" || String.eqb s "intelligence" || String.eqb s "wisdom"
      || String.eqb s "charisma"
  end.

(** The magic key stat in effect: the explicit one, else wisdom for a Priest
    and intelligence for a Mage. *)
Definition magic_key_stat_in_effect (class : Character_class)
    (arg : option string) : string :=
  match arg with
  | Some (String a s) => String a s
  | _ =>
      match class with
      | Priest => "wisdom"
      | Mage => "intelligence"
      | _ => ""
      end
  end.

(** The base mana: the explicit argument if one is supplied (a value other
    than the default 0), else 16 for a Priest and 19 for a Mage. *)
Definition base_mana_in_effect (class : Character_class) (base_mana_points : Z)
    : Z :=
  if base_mana_points =? 0 then
    match class with
    | Priest => 16
    | Mage => 19
    | _ => 0
    end
  else base_mana_points.

(** The bonus table in the words of the specification: modifiers -4 to 0
    give 0, 1 gives 1, 2 gives 4, 3 gives 9, 4 gives 16. *)
Definition mana_bonus_table (modifier : Z) : option Z :=
  if (-4 <=? modifier) && (modifier <=? 0) then Some 0
  else if modifier =? 1 then Some 1
  else if modifier =? 2 then Some 4
  else if modifier =? 3 then Some 9
  else if modifier =? 4 then Some 16
  else None.

(** The four compass directions of [move], in the order of its [if]/[elif]
    chain. *)
Inductive compass : Type := North | West | South | East.

(** The keyword arguments of [move] with exactly the flag of [d] true. *)
Definition flags_of (d : compass) : bool * bool * bool * bool :=
  match d with
  | North => (true, false, false, false)
  | West => (false, true, false, false)
  | South => (false, false, true, false)
  | East => (false, false, false, true)
  end.

Definition move_toward (d : compass) : M Rooms_State.t unit :=
  let '(north, west, south, east) := flags_of d in
  Rooms_State.move north west south east.

Definition door_toward (d : compass) (room : Room.t) : option Door.t :=
  match d with
  | North => Room.north_door room
  | West => Room.west_door room
  | South => Room.south_door room
  | East => Room.east_door room
  end.

Definition direction_name (d : compass) : string :=
  match d with
  | North => "NORTH"
  | West => "WEST"
  | South => "SOUTH"
  | East => "EAST"
  end.

(** [exit_name.replace("_", " ")], the words of the locked-door message. *)
Definition door_phrase (d : compass) : string :=
  match d with
  | North => "north door"
  | West => "west door"
  | South => "south door"
  | East => "east door"
  end.

(** How many of the four flags are true. *)
Definition flags_set (north west south east : bool) : nat :=
  (Nat.b2n north + Nat.b2n west + Nat.b2n south + Nat.b2n east)%nat.

(** The base hit points: the explicit argument if one other than 0 is
    supplied, else the default of the class. *)
Definition hit_point_base_in_effect (class : Character_class)
    (base_hit_points : Z) : Z :=
  if base_hit_points =? 0 then
    match class with
    | Warrior => 40
    | Priest => 30
    | Thief => 30
    | Mage => 20
    end
  else base_hit_points.

(** The armor bonus an equipment slot contributes: nothing when empty. *)
Definition slot_armor_bonus (slot : option Item.t) : option Z :=
  match slot with
  | None => Some 0
  | Some it => Item.armor_bonus it
  end.

(** The door filed under a pair of names in a doors store, if any. *)
Definition door_at (s : gmap string (gmap string Door.t)) (a b : string)
    : option Door.t :=
  match s !! a with
  | Some d => d !! b
  | None => None
  end.

(** The title a room gives its copy of a door. *)
Definition directional_title (compass_dir : string) (door : Door.t) : string :=
  match Door.title door with
  | Some "doorway" => compass_dir ++ " doorway"
  | _ => compass_dir ++ " door"
  end.

(** The last section of a doors.ini whose name splits into the two names
    [a] and [b], in that order. *)
Fixpoint last_section (l : list (string * Door.argd)) (a b : string)
    : option (string * Door.argd) :=
  match l with
  | [] => None
  | e :: rest =>
      match last_section rest a b with
      | Some e' => Some e'
      | None => if decide (split (fst e) "_x_" = [a; b]) then Some e else None
      end
  end.

(** A section [__init__] can load: two parts in the name, a known door
    type. *)
Definition loadable (e : string * Door.argd) : Prop :=
  (exists a b, split (fst e) "_x_" = [a; b])
  /\ exists door, Door.subclassing_factory (fst e) (snd e) = Ok door.

(** Every room of the store is filed under its own internal name, as
    [Rooms_State.__init__] files it. *)
Definition rooms_filed_by_name (st : Rooms_State.t) : bool :=
  forallb (fun kv : string * Room.t => String.eqb (Room.internal_name (snd kv)) (fst kv))
          (map_to_list (Rooms_State._rooms_objs st)).

(** The cursor is set and designates a room of the store. *)
Definition cursor_designates_room (st : Rooms_State.t) : bool :=
  match Rooms_State._room_cursor st with
  | Some name => truthy (Rooms_State._rooms_objs st !! name)
  | None => false
  end.

(** The last pair of an unpacked contents list whose item, looked up in the
    items store, has the internal name [n]: its quantity and that item. *)
Fixpoint last_listed (items_state : gmap string Item.t)
    (pairs : list (Z * string)) (n : string) : option (Z * Item.t) :=
  match pairs with
  | [] => None
  | (q, listed) :: rest =>
      match last_listed items_state rest n with
      | Some v => Some v
      | None =>
          match items_state !! listed with
          | Some it => if String.eqb (Item.internal_name it) n then Some (q, it) else None
          | None => None
          end
      end
  end.

(** The die rolls the generator yields at the [n] positions from [pos] on
    are all between 1 and 6, as [random.randint(1, 6)] promises. *)
Definition dice_in_range (rng : nat -> Z) (pos n : nat) : Prop :=
  forall i, (i < n)%nat -> 1 <= rng (pos + i)%nat <= 6.

(** The six sums [roll_stats] generates, in the order of generation. *)
Definition six_sums (rng : nat -> Z) (pos : nat) : list Z :=
  map (fun k => Ability_Scores.four_d6_drop_lowest rng (pos + 4 * k)%nat) (seq 0 6).

(** The six scores in the order of the fields. *)
Definition scores_of (a : Ability_Scores.t) : list Z :=
  [Ability_Scores.strength a; Ability_Scores.dexterity a;
   Ability_Scores.constitution a; Ability_Scores.intelligence a;
   Ability_Scores.wisdom a; Ability_Scores.charisma a].

(** * Properties *)

(** Unfold the monad. *)
Ltac run :=
  unfold bind, ret, raise, get_self, put_self, modify_self, lift_result,
         on_field in *; cbn in *.

(** ** The embedding on the fixture data *)

Example split_door_name :
  split "Room_1,1_x_Room_1,2" "_x_" = ["Room_1,1"; "Room_1,2"].
Proof. reflexivity. Qed.

Example split_three_parts : split "a_x__x_b" "_x_" = ["a"; ""; "b"].
Proof. reflexivity. Qed.

Example split_does_not_overlap : split "_x_x_" "_x_" = [""; "x_"].
Proof. reflexivity. Qed.

Example split_without_separator : split "Exit" "_x_" = ["Exit"].
Proof. reflexivity. Qed.

Example sorted_pair_exit : sorted_pair "Room_1,1" "Exit" = ("Exit", "Room_1,1").
Proof. reflexivity. Qed.

Example canonical_pair_exit_either_order :
  Room.canonical_pair "Room_1,1" "Exit" = ("Room_1,1", "Exit")
  /\ Room.canonical_pair "Exit" "Room_1,1" = ("Room_1,1", "Exit")
  /\ Room.canonical_pair "Room_1,1" "exit" = ("Room_1,1", "exit").
Proof. repeat split. Qed.

(** Scores 10 and 11 give modifier 0, 18 gives 4, 8 gives -1, 3 gives -4. *)
Example stat_mod_values :
  let a := Ability_Scores.mk 10 11 18 8 3 13 Warrior in
  Ability_Scores.strength_mod a = Ok 0
  /\ Ability_Scores.dexterity_mod a = Ok 0
  /\ Ability_Scores.constitution_mod a = Ok 4
  /\ Ability_Scores.intelligence_mod a = Ok (-1)
  /\ Ability_Scores.wisdom_mod a = Ok (-4)
  /\ Ability_Scores.charisma_mod a = Ok 1.
Proof. repeat split. Qed.

(** [add_one] twice, then [remove_one] three times, on an empty store. *)
Example inventory_round_trip :
  let coin := Sample.Gold_Coin in
  let s1 := snd (Items_Multi_State.add_one "Gold_Coin" coin Items_Multi_State.empty) in
  let s2 := snd (Items_Multi_State.add_one "Gold_Coin" coin s1) in
  let s3 := snd (Items_Multi_State.remove_one "Gold_Coin" s2) in
  let s4 := snd (Items_Multi_State.remove_one "Gold_Coin" s3) in
  s1 !! "Gold_Coin" = Some (1, coin)
  /\ s2 !! "Gold_Coin" = Some (2, coin)
  /\ s3 !! "Gold_Coin" = Some (1, coin)
  /\ s4 !! "Gold_Coin" = None
  /\ Items_Multi_State.remove_one "Gold_Coin" s4
     = (Raise (KeyError (KStr "Gold_Coin")), s4).
Proof. cbv zeta. repeat split; vm_compute; reflexivity. Qed.

(** A store that files an item under another name than its own: [contains]
    follows the items, [remove_one] the keys. *)
Example contains_reads_the_items :
  let s : gmap string (Z * Item.t) := {[ "Purse" := (1, Sample.Gold_Coin) ]} in
  keyed_by_internal_name s = false
  /\ fst (Items_Multi_State.contains "Purse" s) = Ok false
  /\ fst (Items_Multi_State.contains "Gold_Coin" s) = Ok true
  /\ fst (Items_Multi_State.add_one "Gold_Coin" Sample.Gold_Coin s)
     = Raise (KeyError (KStr "Gold_Coin")).
Proof. cbv zeta. repeat split; vm_compute; reflexivity. Qed.

(** A Mage attacks with the wand when one is equipped; the modifier is that
    of strength as soon as a weapon is equipped too. *)
Example attack_bonus_of_mages :
  Character.attack_bonus (Sample.hero Mage None (Some Sample.Magic_Wand)) = Ok (3 + 0)
  /\ Character.attack_bonus
       (Sample.hero Mage (Some Sample.Staff) (Some Sample.Magic_Wand)) = Ok (3 + -1)
  /\ Character.attack_bonus (Sample.hero Mage (Some Sample.Staff) None) = Ok (0 + -1)
  /\ Character.attack_bonus (Sample.hero Warrior (Some Sample.Magic_Sword) None)
     = Ok (3 + -1)
  /\ Character.attack_bonus (Sample.hero Thief (Some Sample.Short_Sword) None)
     = Ok (0 + 1).
Proof. repeat split. Qed.

(** Through the locked iron door to the north the move is refused. *)
Example move_north_is_locked :
  fst (Rooms_State.move true false false false Sample.dungeon)
  = Raise (Internal_Exception "exiting Room_1,1 via the north door: door is locked").
Proof. vm_compute. reflexivity. Qed.

Example move_west_has_no_door :
  fst (Rooms_State.move false true false false Sample.dungeon)
  = Raise (Bad_Command_Exception "MOVE" "This room has no <WEST> exit.").
Proof. vm_compute. reflexivity. Qed.

(** ** The multi-quantity store *)

Section Items_Multi_State_facts.

Implicit Types (s : gmap string (Z * Item.t)) (name : string).

Lemma keyed_lookup s k q it :
  keyed_by_internal_name s = true ->
  s !! k = Some (q, it) -> Item.internal_name it = k.
Proof.
  unfold keyed_by_internal_name. rewrite forallb_forall. intros H Hk.
  apply String.eqb_eq.
  apply (H (k, (q, it))). apply list_elem_of_In.
  by apply elem_of_map_to_list.
Qed.

Lemma keyed_intro s :
  (forall k q it, s !! k = Some (q, it) -> Item.internal_name it = k) ->
  keyed_by_internal_name s = true.
Proof.
  intros H. unfold keyed_by_internal_name. apply forallb_forall.
  intros [k [q it]] Hin. apply list_elem_of_In, elem_of_map_to_list in Hin.
  cbn. apply String.eqb_eq. eauto.
Qed.

(** Under the invariant, [contains] is the key test. *)
Lemma contains_keyed s name :
  keyed_by_internal_name s = true ->
  Items_Multi_State.contains name s = (Ok (truthy (s !! name)), s).
Proof.
  intros H. unfold Items_Multi_State.contains. run. f_equal. f_equal.
  destruct (s !! name) as [[q it]|] eqn:E; cbn.
  - apply existsb_exists. exists (name, (q, it)). split.
    + apply list_elem_of_In. by apply elem_of_map_to_list.
    + cbn. apply String.eqb_eq. eapply keyed_lookup; eauto.
  - apply not_true_is_false. intros Hex.
    apply existsb_exists in Hex as [[k [q it]] [Hin Heq]].
    apply list_elem_of_In, elem_of_map_to_list in Hin.
    cbn in Heq. apply String.eqb_eq in Heq.
    pose proof (keyed_lookup _ _ _ _ H Hin) as Hk. congruence.
Qed.

(** On any store, [contains] tells whether some stored item carries the
    name as its internal name, under whatever key it is filed. *)
Lemma contains_carried s name :
  exists b,
    Items_Multi_State.contains name s = (Ok b, s)
    /\ (b = true
        <-> exists k q it, s !! k = Some (q, it) /\ Item.internal_name it = name).
Proof.
  unfold Items_Multi_State.contains. run. eexists. split; [reflexivity |].
  rewrite existsb_exists. split.
  - intros ([k [q it]] & Hin & Heq). cbn in Heq. apply String.eqb_eq in Heq.
    apply list_elem_of_In, elem_of_map_to_list in Hin. eauto.
  - intros (k & q & it & Hk & Hn). exists (k, (q, it)). split.
    + apply list_elem_of_In. by apply elem_of_map_to_list.
    + cbn. by apply String.eqb_eq.
Qed.

Lemma add_one_absent s name item :
  keyed_by_internal_name s = true -> s !! name = None ->
  Items_Multi_State.add_one name item s = (Ok tt, <[name := (1, item)]> s).
Proof.
  intros H E. unfold Items_Multi_State.add_one, bind.
  rewrite contains_keyed by done. rewrite E. reflexivity.
Qed.

Lemma add_one_present s name item q it :
  keyed_by_internal_name s = true -> s !! name = Some (q, it) ->
  Items_Multi_State.add_one name item s = (Ok tt, <[name := (q + 1, it)]> s).
Proof.
  intros H E. unfold Items_Multi_State.add_one, bind.
  rewrite contains_keyed by done. rewrite E. cbn.
  unfold Items_Multi_State.get. run. rewrite !E. reflexivity.
Qed.

Lemma remove_one_absent s name :
  s !! name = None ->
  Items_Multi_State.remove_one name s = (Raise (KeyError (KStr name)), s).
Proof. intros E. unfold Items_Multi_State.remove_one. run. by rewrite E. Qed.

Lemma remove_one_last s name it :
  s !! name = Some (1, it) ->
  Items_Multi_State.remove_one name s = (Ok tt, delete name s).
Proof. intros E. unfold Items_Multi_State.remove_one. run. by rewrite E. Qed.

Lemma remove_one_more s name q it :
  s !! name = Some (q, it) -> q <> 1 ->
  Items_Multi_State.remove_one name s = (Ok tt, <[name := (q - 1, it)]> s).
Proof.
  intros E Hq. unfold Items_Multi_State.remove_one. run. rewrite E.
  destruct (Z.eqb_spec q 1); [lia | reflexivity].
Qed.

End Items_Multi_State_facts.

(** ** The inventory of a character *)

Section Character_inventory_facts.

Implicit Types (c : Character.t) (item : Item.t).

Lemma set_inventory_same c : Character.set_inventory (Character.inventory c) c = c.
Proof. by destruct c. Qed.

Lemma item_have_qty_keyed c item :
  keyed_by_internal_name (Character.inventory c) = true ->
  Character.item_have_qty item c
  = (Ok (held_qty (Character.inventory c) (Item.internal_name item)), c).
Proof.
  intros H. unfold Character.item_have_qty, Character.on_inventory, on_field, bind.
  rewrite contains_keyed by done. rewrite set_inventory_same.
  unfold held_qty, Items_Multi_State.get. run.
  destruct (Character.inventory c !! Item.internal_name item) as [[q it]|] eqn:E;
    cbn; [| reflexivity].
  rewrite E. cbn. by rewrite set_inventory_same.
Qed.

Lemma drop_item_keyed c item qty :
  keyed_by_internal_name (Character.inventory c) = true ->
  let name := Item.internal_name item in
  let inv := Character.inventory c in
  Character.drop_item item qty c =
    match inv !! name with
    | None => (Raise (KeyError (KStr name)), c)
    | Some (h, _) =>
        if h =? 0 then (Raise (KeyError (KStr name)), c)
        else if h =? qty then (Ok tt, Character.set_inventory (delete name inv) c)
        else (Ok tt, Character.set_inventory (<[name := (h - qty, item)]> inv) c)
    end.
Proof.
  intros H name inv. unfold Character.drop_item, bind.
  rewrite item_have_qty_keyed by done. unfold held_qty. fold name inv.
  destruct (inv !! name) as [[h it]|] eqn:E; [| reflexivity].
  destruct (h =? 0); [reflexivity |].
  destruct (h =? qty); [| reflexivity].
  unfold Character.on_inventory, on_field, Items_Multi_State.delete. run.
  fold inv name. by rewrite E.
Qed.

Lemma pick_up_item_keyed c item qty :
  keyed_by_internal_name (Character.inventory c) = true ->
  let name := Item.internal_name item in
  let inv := Character.inventory c in
  Character.pick_up_item item qty c =
    if qty =? 1 then
      match inv !! name with
      | None => (Ok tt, Character.set_inventory (<[name := (1, item)]> inv) c)
      | Some (h, it) => (Ok tt, Character.set_inventory (<[name := (h + 1, it)]> inv) c)
      end
    else (Ok tt, Character.set_inventory (<[name := (qty + held_qty inv name, item)]> inv) c).
Proof.
  intros H name inv. unfold Character.pick_up_item, bind.
  rewrite item_have_qty_keyed by done. fold name inv.
  destruct (qty =? 1); [| reflexivity].
  unfold Character.on_inventory, on_field. fold inv name.
  destruct (inv !! name) as [[h it]|] eqn:E.
  - by rewrite (add_one_present _ _ _ h it).
  - by rewrite add_one_absent.
Qed.

(** The invariant holds of the empty inventory a character starts with and
    is kept by both inventory methods, so it holds of every inventory they
    build. *)
Lemma keyed_empty : keyed_by_internal_name Items_Multi_State.empty = true.
Proof. reflexivity. Qed.

Lemma keyed_insert (s : gmap string (Z * Item.t)) item q :
  keyed_by_internal_name s = true ->
  keyed_by_internal_name (<[Item.internal_name item := (q, item)]> s) = true.
Proof.
  intros H. apply keyed_intro. intros k q' it Hk.
  destruct (decide (Item.internal_name item = k)) as [<- | Hne].
  - rewrite lookup_insert_eq in Hk. by injection Hk as _ <-.
  - rewrite lookup_insert_ne in Hk by done. by eapply keyed_lookup.
Qed.

Lemma keyed_requantify (s : gmap string (Z * Item.t)) name q q' it :
  keyed_by_internal_name s = true -> s !! name = Some (q, it) ->
  keyed_by_internal_name (<[name := (q', it)]> s) = true.
Proof.
  intros H E. rewrite <- (keyed_lookup s name q it H E). by apply keyed_insert.
Qed.

Lemma keyed_delete (s : gmap string (Z * Item.t)) name :
  keyed_by_internal_name s = true ->
  keyed_by_internal_name (delete name s) = true.
Proof.
  intros H. apply keyed_intro. intros k q it Hk.
  apply lookup_delete_Some in Hk as [_ Hk]. by eapply keyed_lookup.
Qed.

Lemma pick_up_item_keeps_keyed c item qty :
  keyed_by_internal_name (Character.inventory c) = true ->
  keyed_by_internal_name
    (Character.inventory (snd (Character.pick_up_item item qty c))) = true.
Proof.
  intros H. rewrite pick_up_item_keyed by done.
  destruct (qty =? 1).
  - destruct (Character.inventory c !! Item.internal_name item) as [[h it]|] eqn:E;
      cbn.
    + by eapply keyed_requantify.
    + by apply keyed_insert.
  - cbn. by apply keyed_insert.
Qed.

Lemma drop_item_keeps_keyed c item qty :
  keyed_by_internal_name (Character.inventory c) = true ->
  keyed_by_internal_name
    (Character.inventory (snd (Character.drop_item item qty c))) = true.
Proof.
  intros H. rewrite drop_item_keyed by done.
  destruct (Character.inventory c !! Item.internal_name item) as [[h it]|];
    [| done].
  destruct (h =? 0); [done |]. destruct (h =? qty); cbn.
  - by apply keyed_delete.
  - by apply keyed_insert.
Qed.

End Character_inventory_facts.

(** C3, as the claim states it, fails on a store that [add_one] itself
    builds.  [add_one("Purse", gold coin)] on the empty store files the coin
    under ["Purse"] with quantity 1; the same call again finds the name
    present and yet leaves the quantity at 1, because [contains] compares the
    name with the stored items' internal names.  And [add_one] on the absent
    name ["Gold_Coin"] stores nothing: it raises [KeyError]. *)
Lemma C3_present_name_is_not_incremented :
  let s1 := snd (Items_Multi_State.add_one "Purse" Sample.Gold_Coin
                   Items_Multi_State.empty) in
  s1 !! "Purse" = Some (1, Sample.Gold_Coin)
  /\ fst (Items_Multi_State.add_one "Purse" Sample.Gold_Coin s1) = Ok tt
  /\ snd (Items_Multi_State.add_one "Purse" Sample.Gold_Coin s1) !! "Purse"
     = Some (1, Sample.Gold_Coin)
  /\ snd (Items_Multi_State.add_one "Purse" Sample.Gold_Coin s1) !! "Purse"
     <> Some (2, Sample.Gold_Coin)
  /\ s1 !! "Gold_Coin" = None
  /\ fst (Items_Multi_State.add_one "Gold_Coin" Sample.Gold_Coin s1)
     = Raise (KeyError (KStr "Gold_Coin"))
  /\ snd (Items_Multi_State.add_one "Gold_Coin" Sample.Gold_Coin s1) !! "Gold_Coin"
     = None.
Proof.
  cbv zeta.
  assert (E : snd (Items_Multi_State.add_one "Purse" Sample.Gold_Coin
                     (snd (Items_Multi_State.add_one "Purse" Sample.Gold_Coin
                             Items_Multi_State.empty))) !! "Purse"
              = Some (1, Sample.Gold_Coin)) by (vm_compute; reflexivity).
  split; [vm_compute; reflexivity |]. split; [vm_compute; reflexivity |].
  split; [exact E |]. split; [rewrite E; intros H; inversion H |].
  repeat split; vm_compute; reflexivity.
Qed.

(** C3 (amended). In the multi-quantity store, for every store, internal
    name and item.  [add_one] asks whether some stored item carries the name
    as its internal name: if none does, it files the item under the name with
    quantity 1; if one does, it adds 1 to the quantity filed under the name
    and keeps the item filed there, and raises [KeyError] when nothing is
    filed under the name.  In a store that files every item under its own
    internal name, a name is carried exactly when it is present, so there
    [add_one] stores at 1 on an absent name and adds 1 on a present one; such
    a store stays one when the item added carries the name given.
    [remove_one] goes by the keys on every store: on a present name with
    quantity 1 it deletes the entry (the name is absent afterwards), with
    another quantity it takes 1 off, and on an absent name it raises
    [KeyError] and leaves the store as it was; it keeps the filing too. *)
Theorem C3_add_one_remove_one
    (s : gmap string (Z * Item.t)) (name : string) (item : Item.t) :
  let carried :=
    exists k q it, s !! k = Some (q, it) /\ Item.internal_name it = name in
  (~ carried ->
     Items_Multi_State.add_one name item s = (Ok tt, <[name := (1, item)]> s))
  /\ (carried -> forall q it, s !! name = Some (q, it) ->
        Items_Multi_State.add_one name item s = (Ok tt, <[name := (q + 1, it)]> s))
  /\ (carried -> s !! name = None ->
        Items_Multi_State.add_one name item s = (Raise (KeyError (KStr name)), s))
  /\ (keyed_by_internal_name s = true ->
        (carried <-> is_Some (s !! name))
        /\ (s !! name = None ->
              Items_Multi_State.add_one name item s
              = (Ok tt, <[name := (1, item)]> s))
        /\ (forall q it, s !! name = Some (q, it) ->
              Items_Multi_State.add_one name item s
              = (Ok tt, <[name := (q + 1, it)]> s))
        /\ (Item.internal_name item = name ->
              keyed_by_internal_name (snd (Items_Multi_State.add_one name item s))
              = true)
        /\ keyed_by_internal_name (snd (Items_Multi_State.remove_one name s))
           = true)
  /\ (forall it, s !! name = Some (1, it) ->
        Items_Multi_State.remove_one name s = (Ok tt, delete name s)
        /\ delete name s !! name = None)
  /\ (forall q it, s !! name = Some (q, it) -> q <> 1 ->
        Items_Multi_State.remove_one name s = (Ok tt, <[name := (q - 1, it)]> s))
  /\ (s !! name = None ->
        Items_Multi_State.remove_one name s = (Raise (KeyError (KStr name)), s)).
Proof.
  cbv zeta.
  destruct (contains_carried s name) as (b & Hb & Hiff).
  split; [| split; [| split; [| split; [| split; [| split]]]]].
  - intros Hno. unfold Items_Multi_State.add_one, bind. rewrite Hb.
    destruct b; [| reflexivity]. exfalso. by apply Hno, Hiff.
  - intros Hyes q it E. apply Hiff in Hyes. subst b.
    unfold Items_Multi_State.add_one, bind. rewrite Hb.
    unfold Items_Multi_State.get. run. by rewrite !E.
  - intros Hyes E. apply Hiff in Hyes. subst b.
    unfold Items_Multi_State.add_one, bind. rewrite Hb.
    unfold Items_Multi_State.get. run. by rewrite !E.
  - intros Hkeyed.
    split; [| split; [| split; [| split]]].
    + split.
      * intros (k & q & it & Hk & Hn).
        rewrite (keyed_lookup s k q it Hkeyed Hk) in Hn. subst k. eauto.
      * intros [[q it] E]. exists name, q, it. split; [exact E |].
        by eapply keyed_lookup.
    + intros E. by apply add_one_absent.
    + intros q it E. by apply add_one_present.
    + intros Hname.
      destruct (s !! name) as [[q it] |] eqn:E.
      * rewrite (add_one_present s name item q it Hkeyed E). cbn [snd].
        by eapply keyed_requantify.
      * rewrite (add_one_absent s name item Hkeyed E). cbn [snd].
        rewrite <- Hname. by apply keyed_insert.
    + destruct (s !! name) as [[q it] |] eqn:E.
      * destruct (decide (q = 1)) as [-> | Hq].
        -- rewrite (remove_one_last s name it E). by apply keyed_delete.
        -- rewrite (remove_one_more s name q it E Hq). cbn [snd].
           by eapply keyed_requantify.
      * by rewrite (remove_one_absent s name E).
  - intros it E. split; [by eapply remove_one_last | apply lookup_delete_eq].
  - intros q it E Hq. by apply remove_one_more.
  - apply remove_one_absent.
Qed.

Lemma C3_add_one_remove_one_witness :
  (exists k q it,
      Sample.two_coins !! k = Some (q, it) /\ Item.internal_name it = "Gold_Coin")
  /\ Sample.two_coins !! "Gold_Coin" = Some (2, Sample.Gold_Coin)
  /\ Items_Multi_State.add_one "Gold_Coin" Sample.Gold_Coin Sample.two_coins
     = (Ok tt, <["Gold_Coin" := (2 + 1, Sample.Gold_Coin)]> Sample.two_coins).
Proof.
  assert (Hc : exists k q it,
             Sample.two_coins !! k = Some (q, it)
             /\ Item.internal_name it = "Gold_Coin").
  { exists "Gold_Coin", 2, Sample.Gold_Coin. split; reflexivity. }
  split; [exact Hc |]. split; [reflexivity |].
  apply (proj1 (proj2 (C3_add_one_remove_one Sample.two_coins "Gold_Coin"
                         Sample.Gold_Coin)) Hc 2 Sample.Gold_Coin).
  reflexivity.
Defined.

(** C4. For a character whose inventory files every entry under its item's
    internal name: [drop_item(item, qty)] raises [KeyError] exactly when the
    item is not held in any quantity (its name is not a key, or is stored with
    quantity 0), and then the character is unchanged; when the item is held in
    a quantity [h] other than 0 and [qty] equals [h] the entry is deleted;
    when [qty] differs from [h] the stored quantity becomes [h - qty] without
    any check against [h], so that a request for more than is held leaves a
    negative stored quantity. *)
Theorem C4_drop_item (c : Character.t) (item : Item.t) (qty : Z)
    (Hkeyed : keyed_by_internal_name (Character.inventory c) = true) :
  let name := Item.internal_name item in
  let inv := Character.inventory c in
  ((exists e, fst (Character.drop_item item qty c) = Raise e)
     <-> held_qty inv name = 0)
  /\ (held_qty inv name = 0 ->
        Character.drop_item item qty c = (Raise (KeyError (KStr name)), c))
  /\ (forall h it, inv !! name = Some (h, it) -> h <> 0 -> qty = h ->
        Character.drop_item item qty c
        = (Ok tt, Character.set_inventory (delete name inv) c))
  /\ (forall h it, inv !! name = Some (h, it) -> h <> 0 -> qty <> h ->
        Character.drop_item item qty c
        = (Ok tt, Character.set_inventory (<[name := (h - qty, item)]> inv) c))
  /\ (forall h it, inv !! name = Some (h, it) -> 0 < h -> h < qty ->
        exists q, Character.inventory (snd (Character.drop_item item qty c)) !! name
                  = Some (q, item) /\ q < 0).
Proof.
  intros name inv. pose proof (drop_item_keyed c item qty Hkeyed) as D.
  cbn zeta in D. fold name inv in D. rewrite D. unfold held_qty.
  split; [| split; [| split; [| split]]].
  - destruct (inv !! name) as [[h it]|]; cbn.
    + destruct (Z.eqb_spec h 0); cbn.
      * split; eauto.
      * split; [| lia]. intros [e He]. destruct (h =? qty); discriminate.
    + split; eauto.
  - destruct (inv !! name) as [[h it]|]; [| reflexivity].
    intros ->. reflexivity.
  - intros h it -> Hh ->. destruct (Z.eqb_spec h 0); [lia |].
    by rewrite Z.eqb_refl.
  - intros h it -> Hh Hq. destruct (Z.eqb_spec h 0); [lia |].
    destruct (Z.eqb_spec h qty); [congruence | reflexivity].
  - intros h it -> Hh Hq. destruct (Z.eqb_spec h 0); [lia |].
    destruct (Z.eqb_spec h qty); [lia |]. cbn.
    exists (h - qty). split; [apply lookup_insert_eq | lia].
Qed.

Lemma C4_drop_item_witness :
  keyed_by_internal_name (Character.inventory (Sample.hero Thief None None)) = true
  /\ Character.drop_item Sample.Gold_Coin 5 (Sample.hero Thief None None)
     = (Ok tt,
        Character.set_inventory
          (<["Gold_Coin" := (-3, Sample.Gold_Coin)]> Sample.two_coins)
          (Sample.hero Thief None None)).
Proof.
  split; [reflexivity |].
  apply (proj1 (proj2 (proj2 (proj2
           (C4_drop_item (Sample.hero Thief None None) Sample.Gold_Coin 5 eq_refl))))
           2 Sample.Gold_Coin); [reflexivity | lia | lia].
Defined.

(** C9, as the claim states it, fails: a character holding two gold coins
    who picks up "3" ends with 5 stored, not with the quantity 3 that was
    given. *)
Lemma C9_explicit_quantity_is_added :
  let after := Character.pick_up_item Sample.Gold_Coin 3 (Sample.hero Thief None None) in
  held_qty (Character.inventory (Sample.hero Thief None None)) "Gold_Coin" = 2
  /\ fst after = Ok tt
  /\ Character.inventory (snd after) !! "Gold_Coin" = Some (5, Sample.Gold_Coin)
  /\ Character.inventory (snd after) !! "Gold_Coin" <> Some (3, Sample.Gold_Coin).
Proof.
  cbv zeta. split; [reflexivity |]. split; [reflexivity |].
  assert (E : Character.inventory
                (snd (Character.pick_up_item Sample.Gold_Coin 3
                        (Sample.hero Thief None None))) !! "Gold_Coin"
              = Some (5, Sample.Gold_Coin)) by reflexivity.
  split; [exact E |]. rewrite E. intros H. inversion H.
Qed.

(** C9 (amended). For a character whose inventory files every entry under
    its item's internal name: [pick_up_item(item)] with the default quantity 1
    adds one to the held quantity, inserting the item at 1 when its name is
    absent; with a quantity other than 1 it stores the item with the quantity
    given plus the quantity held before (0 when the name is absent). *)
Theorem C9_pick_up_item (c : Character.t) (item : Item.t) (qty : Z)
    (Hkeyed : keyed_by_internal_name (Character.inventory c) = true) :
  let name := Item.internal_name item in
  let inv := Character.inventory c in
  (inv !! name = None ->
     Character.pick_up_item_default item c
     = (Ok tt, Character.set_inventory (<[name := (1, item)]> inv) c))
  /\ (forall h it, inv !! name = Some (h, it) ->
        Character.pick_up_item_default item c
        = (Ok tt, Character.set_inventory (<[name := (h + 1, it)]> inv) c))
  /\ (qty <> 1 ->
        Character.pick_up_item item qty c
        = (Ok tt,
           Character.set_inventory (<[name := (qty + held_qty inv name, item)]> inv) c)).
Proof.
  intros name inv. unfold Character.pick_up_item_default.
  split; [| split].
  - intros E. rewrite pick_up_item_keyed by done. fold name inv. by rewrite E.
  - intros h it E. rewrite pick_up_item_keyed by done. fold name inv. by rewrite E.
  - intros Hq. rewrite pick_up_item_keyed by done. fold name inv.
    destruct (Z.eqb_spec qty 1); [done | reflexivity].
Qed.

Lemma C9_pick_up_item_witness :
  keyed_by_internal_name (Character.inventory (Sample.hero Thief None None)) = true
  /\ Character.pick_up_item Sample.Gold_Coin 3 (Sample.hero Thief None None)
     = (Ok tt,
        Character.set_inventory
          (<["Gold_Coin" := (5, Sample.Gold_Coin)]> Sample.two_coins)
          (Sample.hero Thief None None)).
Proof.
  split; [reflexivity |].
  apply (proj2 (proj2
           (C9_pick_up_item (Sample.hero Thief None None) Sample.Gold_Coin 3 eq_refl))).
  lia.
Defined.

(** ** Attack bonus *)

Section Attack_bonus_facts.

Implicit Types (c : Character.t).

(** The modifier [attack_bonus] adds: the one of the ability that
    [_attack_or_damage_stat_dependency] names. *)
Lemma dependency_mod c :
  Ability_Scores.getattr_mod (Character.ability_scores c)
    (Character._attack_or_damage_stat_dependency c ++ "_mod")
  = Ok (attack_stat_mod c).
Proof.
  unfold Character._attack_or_damage_stat_dependency, attack_stat_mod.
  unfold Equipment.weapon_equipped.
  destruct (Character.character_class c); try reflexivity.
  destruct (Equipment.weapon (Character._equipment c)); reflexivity.
Qed.

End Attack_bonus_facts.

(** C5, as the claim states it, fails for a class other than Mage.  A
    Warrior whose only equipped item is the magic wand gets the
    internal-consistency error although a wand is equipped; a Warrior with
    the short sword (bonus 0) and the magic wand (bonus 3) gets the sword's
    bonus plus the strength modifier -1, not the wand's. *)
Lemma C5_wand_counts_for_mage_only :
  Equipment.wand_equipped
    (Character._equipment (Sample.hero Warrior None (Some Sample.Magic_Wand)))
  = Some Sample.Magic_Wand
  /\ Character.attack_bonus (Sample.hero Warrior None (Some Sample.Magic_Wand))
     = Raise (Internal_Exception
         "The character does not have a weapon equipped; no valid value for `attack_bonus` can be computed.")
  /\ Character.attack_bonus
       (Sample.hero Warrior (Some Sample.Short_Sword) (Some Sample.Magic_Wand))
     = Ok (0 + -1)
  /\ Character.attack_bonus
       (Sample.hero Warrior (Some Sample.Short_Sword) (Some Sample.Magic_Wand))
     <> Ok (3 + -1).
Proof.
  split; [reflexivity |]. split; [reflexivity |]. split; [reflexivity |].
  intros H. vm_compute in H. inversion H.
Qed.

(** C5 (amended). The character-level [attack_bonus] fails with an
    internal-consistency error exactly when no weapon is equipped and the
    character is not a Mage with a wand equipped.  A Mage gets the equipped
    wand's attack bonus, or else the weapon's; any other class gets the
    equipped weapon's attack bonus, whether or not a wand is equipped; in
    each case the class-dependent ability-score modifier is added. *)
Theorem C5_attack_bonus (c : Character.t) :
  let equipment := Character._equipment c in
  let class := Character.character_class c in
  ((exists message, Character.attack_bonus c = Raise (Internal_Exception message))
     <-> Equipment.weapon equipment = None
         /\ (class <> Mage \/ Equipment.wand equipment = None))
  /\ (forall wand b,
        class = Mage -> Equipment.wand equipment = Some wand ->
        Item.attack_bonus wand = Some b ->
        Character.attack_bonus c = Ok (b + attack_stat_mod c))
  /\ (forall weapon b,
        class = Mage -> Equipment.wand equipment = None ->
        Equipment.weapon equipment = Some weapon ->
        Item.attack_bonus weapon = Some b ->
        Character.attack_bonus c = Ok (b + attack_stat_mod c))
  /\ (forall weapon b,
        class <> Mage -> Equipment.weapon equipment = Some weapon ->
        Item.attack_bonus weapon = Some b ->
        Character.attack_bonus c = Ok (b + attack_stat_mod c)).
Proof.
  intros equipment class.
  unfold Character.attack_bonus. cbv zeta. rewrite dependency_mod.
  unfold Equipment.weapon_equipped, Equipment.wand_equipped.
  fold equipment class.
  split; [| split; [| split]].
  - destruct class eqn:Ec;
      destruct (Equipment.weapon equipment) as [w|] eqn:Ew;
      destruct (Equipment.wand equipment) as [v|] eqn:Ev; cbn;
      try (destruct (Item.attack_bonus w)); try (destruct (Item.attack_bonus v));
      (split; [intros [m Hm] | intros [? [?|?]]]); naive_solver.
  - intros wand b -> Ev Hb. rewrite Ev. cbn. rewrite orb_true_r. cbn.
    by rewrite Hb.
  - intros weapon b -> Ev Ew Hb. rewrite Ev, Ew. cbn. by rewrite Hb.
  - intros weapon b Hc Ew Hb. rewrite Ew. cbn.
    destruct class; try congruence; cbn; by rewrite Hb.
Qed.

(** ** Mana points *)

Section Mana_points_facts.

Local Arguments Character.bonus_mana_points_item : simpl never.

(** The dictionary of the class is the table of the specification. *)
Lemma bonus_mana_points_table (m : Z) :
  Character.int_lookup Character._bonus_mana_points m = mana_bonus_table m.
Proof.
  unfold mana_bonus_table, Character._bonus_mana_points.
  cbn [Character.int_lookup].
  destruct (Z.leb_spec (-4) m); destruct (Z.leb_spec m 0); cbn [andb];
    repeat match goal with
           | |- context [?a =? ?b] =>
               destruct (Z.eqb_spec a b);
               [subst; first [reflexivity | exfalso; lia] |]
           end;
    first [reflexivity | exfalso; lia].
Qed.

Lemma valid_magic_key_stat_cases (arg : option string) :
  valid_magic_key_stat arg = true ->
  arg = None \/ arg = Some "" \/ arg = Some "intelligence"
  \/ arg = Some "wisdom" \/ arg = Some "charisma".
Proof.
  destruct arg as [s|]; [| by left]. cbn.
  rewrite !orb_true_iff, !String.eqb_eq.
  intros [[[-> | ->] | ->] | ->]; auto 10.
Qed.

Lemma getattr_mod_wisdom (a : Ability_Scores.t) :
  Ability_Scores.getattr_mod a ("wisdom" ++ "_mod")
  = Ok ((Ability_Scores.wisdom a - 10) / 2).
Proof. reflexivity. Qed.

Lemma getattr_mod_intelligence (a : Ability_Scores.t) :
  Ability_Scores.getattr_mod a ("intelligence" ++ "_mod")
  = Ok ((Ability_Scores.intelligence a - 10) / 2).
Proof. reflexivity. Qed.

Lemma getattr_mod_charisma (a : Ability_Scores.t) :
  Ability_Scores.getattr_mod a ("charisma" ++ "_mod")
  = Ok ((Ability_Scores.charisma a - 10) / 2).
Proof. reflexivity. Qed.

Lemma stat_mod_inv (a : Ability_Scores.t) (stat : string) (m : Z) :
  Ability_Scores._stat_mod a stat = Ok m ->
  exists v, Ability_Scores.score a stat = Some v /\ m = (v - 10) / 2.
Proof.
  unfold Ability_Scores._stat_mod.
  destruct (Ability_Scores.score a stat) as [v|]; [| discriminate].
  intros [= <-]. eauto.
Qed.

(** C7. Let the magic key stat be given validly (not at all, or as
  intelligence, wisdom or charisma).  For a Priest or a Mage whose magic key
  stat modifier is in the table, the maximum and the current mana points
  both become the base mana (the explicit argument if one other than 0 is
  supplied, else 16 for a Priest and 19 for a Mage) plus the bonus the table
  gives for that modifier; so a Mage with key stat modifier 3 and no
  explicit argument gets 19 + 9 = 28.  A Warrior or a Thief with no explicit
  base mana gets 0 for both. *)
Theorem C7_mana_points (c : Character.t) (base_hit_points base_mana_points : Z)
  (arg : option string) (Hvalid : valid_magic_key_stat arg = true) :
let class := Character.character_class c in
let after :=
  Character._set_up_hit_points_and_mana_points base_hit_points base_mana_points
    arg c in
(forall modifier bonus,
    class = Priest \/ class = Mage ->
    Ability_Scores._stat_mod (Character.ability_scores c)
      (magic_key_stat_in_effect class arg) = Ok modifier ->
    mana_bonus_table modifier = Some bonus ->
    fst after = Ok tt
    /\ Character._mana_point_maximum (snd after)
       = base_mana_in_effect class base_mana_points + bonus
    /\ Character._current_mana_points (snd after)
       = base_mana_in_effect class base_mana_points + bonus)
/\ (class = Mage -> arg = None -> base_mana_points = 0 ->
      Ability_Scores._stat_mod (Character.ability_scores c) "intelligence" = Ok 3 ->
      fst after = Ok tt
      /\ Character._mana_point_maximum (snd after) = 28
      /\ Character._current_mana_points (snd after) = 28)
/\ (class = Warrior \/ class = Thief -> base_mana_points = 0 ->
      fst after = Ok tt
      /\ Character._mana_point_maximum (snd after) = 0
      /\ Character._current_mana_points (snd after) = 0).
Proof.
intros class after.
assert (Main : forall modifier bonus,
    class = Priest \/ class = Mage ->
    Ability_Scores._stat_mod (Character.ability_scores c)
      (magic_key_stat_in_effect class arg) = Ok modifier ->
    mana_bonus_table modifier = Some bonus ->
    fst after = Ok tt
    /\ Character._mana_point_maximum (snd after)
       = base_mana_in_effect class base_mana_points + bonus
    /\ Character._current_mana_points (snd after)
       = base_mana_in_effect class base_mana_points + bonus).
{ intros modifier bonus Hclass Hmod Hbonus.
  assert (Hitem : Character.bonus_mana_points_item modifier = Ok bonus).
  { unfold Character.bonus_mana_points_item.
    by rewrite bonus_mana_points_table, Hbonus. }
  clear Hbonus. apply stat_mod_inv in Hmod as [v [Hv Hm]].
  subst after. unfold Character._set_up_hit_points_and_mana_points.
  unfold base_mana_in_effect, bind, get_self, lift_result, modify_self, ret,
    raise. fold class.
  destruct (valid_magic_key_stat_cases arg Hvalid)
    as [-> | [-> | [-> | [-> | ->]]]];
    destruct Hclass as [Ec | Ec]; rewrite Ec in *; cbn in Hv;
    injection Hv as Hv; rewrite <- Hv in Hm; clear Hv;
    unfold class in Ec; rewrite ?Ec;
    unfold Character.getattr_mod, Ability_Scores.constitution_mod;
    cbn; rewrite ?Ec;
    destruct (base_hit_points =? 0); cbn; rewrite ?Ec; cbn;
    rewrite ?getattr_mod_wisdom, ?getattr_mod_intelligence,
      ?getattr_mod_charisma, <- ?Hm;
    destruct (base_mana_points =? 0); cbn; rewrite ?Hitem; cbn; auto. }
split; [exact Main |]. split.
- intros Ec -> -> Hint.
  destruct (Main 3 9) as (H1 & H2 & H3); auto.
  + rewrite Ec. exact Hint.
  + rewrite H2, H3, Ec. auto.
- intros Hclass ->.
  subst after. unfold Character._set_up_hit_points_and_mana_points.
  destruct (valid_magic_key_stat_cases arg Hvalid)
    as [-> | [-> | [-> | [-> | ->]]]];
    destruct Hclass as [Ec | Ec]; fold class; rewrite ?Ec;
    run; fold class; rewrite ?Ec;
    destruct (base_hit_points =? 0); cbn; fold class; rewrite ?Ec; cbn; auto.
Qed.

End Mana_points_facts.

Lemma C7_mana_points_witness :
  valid_magic_key_stat None = true
  /\ Character._mana_point_maximum
       (snd (Character._set_up_hit_points_and_mana_points 0 0 None
               (Sample.caster Mage))) = 28.
Proof.
  split; [reflexivity |].
  apply (proj1 (proj2 (C7_mana_points (Sample.caster Mage) 0 0 None eq_refl)));
    reflexivity.
Defined.

(** ** From creature to corpse *)

Section Corpse_facts.

Implicit Types (corpse : Container.t) (l : list (string * (Z * Item.t))).

Lemma set_contents_same corpse :
  Container.set_contents (Container._contents corpse) corpse = corpse.
Proof. by destruct corpse. Qed.

(** The loop of [convert_to_corpse] never raises; it inserts the entries one
    after the other. *)
Lemma for_each_set l corpse :
  for_each l
    (fun entry : string * (Z * Item.t) =>
       Container.set (fst entry) (fst (snd entry)) (snd (snd entry))) corpse
  = (Ok tt,
     Container.set_contents
       (fold_left (fun acc entry => <[fst entry := snd entry]> acc) l
          (Container._contents corpse))
       corpse).
Proof.
  revert corpse. induction l as [| [k [q it]] l IH]; intros corpse; cbn.
  - by rewrite set_contents_same.
  - unfold bind, Container.set, Container.as_items_state, on_field,
      Items_Multi_State.set, modify_self. cbn.
    rewrite IH. by destruct corpse.
Qed.

(** Inserting a duplicate-free list of entries one by one. *)
Lemma fold_left_insert_lookup l (acc : gmap string (Z * Item.t)) (k : string) :
  NoDup (l.*1) ->
  fold_left (fun acc entry => <[fst entry := snd entry]> acc) l acc !! k
  = match (list_to_map l : gmap string (Z * Item.t)) !! k with
    | Some v => Some v
    | None => acc !! k
    end.
Proof.
  revert acc. induction l as [| [k0 v0] l IH]; intros acc Hnd; cbn.
  - by rewrite lookup_empty.
  - apply NoDup_cons in Hnd as [Hk0 Hnd]. rewrite IH by done.
    destruct (decide (k0 = k)) as [-> | Hne].
    + rewrite lookup_insert_eq.
      rewrite (not_elem_of_list_to_map_1 _ k) by done.
      by rewrite lookup_insert_eq.
    + rewrite (lookup_insert_ne (list_to_map l)) by done.
      destruct (list_to_map l !! k); [done |]. by rewrite lookup_insert_ne.
Qed.

Lemma fold_left_insert_items (m : gmap string (Z * Item.t)) :
  fold_left (fun acc entry => <[fst entry := snd entry]> acc)
    (Items_Multi_State.items m) ∅ = m.
Proof.
  apply map_eq. intros k. unfold Items_Multi_State.items.
  rewrite fold_left_insert_lookup by apply NoDup_fst_map_to_list.
  rewrite list_to_map_to_list, lookup_empty. by destruct (m !! k).
Qed.

End Corpse_facts.

(** C8. For every creature that has a title and a dead description,
    [convert_to_corpse()] returns a container of class Corpse whose internal
    name is the creature's, whose title is the creature's title followed by
    " corpse", whose description is the creature's dead description, and whose
    contents are the creature's inventory: the same internal names with the
    same quantities and the same items. *)
Theorem C8_convert_to_corpse (creature : Creature.t) (title description_dead : string)
    (Htitle : Creature.title creature = Some title)
    (Hdead : Creature.description_dead creature = Some description_dead) :
  exists corpse,
    Creature.convert_to_corpse creature = Ok corpse
    /\ Container.container_class corpse = Container.Corpse
    /\ Container.internal_name corpse = Creature.internal_name creature
    /\ Container.title corpse = Some (title ++ " corpse")
    /\ Container.description corpse = Some description_dead
    /\ Container._contents corpse
       = Character.inventory (Creature.character creature)
    /\ (forall name, held_qty (Container._contents corpse) name
                     = held_qty (Character.inventory (Creature.character creature)) name).
Proof.
  unfold Creature.convert_to_corpse. rewrite Htitle, Hdead. cbn.
  rewrite for_each_set. cbn. rewrite fold_left_insert_items.
  eexists. split; [reflexivity |]. cbn. repeat split; reflexivity.
Qed.

Lemma C8_convert_to_corpse_witness :
  Creature.title Sample.Kobold_Trysk = Some "kobold"
  /\ Creature.description_dead Sample.Kobold_Trysk
     = Some "This diminuitive draconic humanoid is recently slain."
  /\ exists corpse,
       Creature.convert_to_corpse Sample.Kobold_Trysk = Ok corpse
       /\ Container.title corpse = Some "kobold corpse"
       /\ held_qty (Container._contents corpse) "Gold_Coin" = 30.
Proof.
  split; [reflexivity |]. split; [reflexivity |].
  destruct (C8_convert_to_corpse Sample.Kobold_Trysk "kobold"
              "This diminuitive draconic humanoid is recently slain."
              eq_refl eq_refl)
    as (corpse & Hc & _ & _ & Ht & _ & _ & Hq).
  exists corpse. split; [exact Hc |]. split; [exact Ht |].
  rewrite Hq. reflexivity.
Defined.

(** ** Movement in the room graph *)

Section Move_facts.

Ltac move_step :=
  cbn -[String.append Door.other_room_internal_name
        Rooms_State.rooms_objs_item Rooms_State.cursor].

Implicit Types (st : Rooms_State.t) (room : Room.t) (d : compass).

Lemma cursor_found st name room :
  Rooms_State._room_cursor st = Some name ->
  Rooms_State._rooms_objs st !! name = Some room ->
  Rooms_State.cursor st = (Ok room, st).
Proof. intros Hc Hr. unfold Rooms_State.cursor. run. by rewrite Hc, Hr. Qed.

(** [move] with the flag of [d] only, once the cursor room is found. *)
Lemma move_toward_unfold st name room d :
  Rooms_State._room_cursor st = Some name ->
  Rooms_State._rooms_objs st !! name = Some room ->
  move_toward d st =
    match door_toward d room with
    | None =>
        (Raise (Bad_Command_Exception "MOVE"
                  ("This room has no <" ++ direction_name d ++ "> exit.")), st)
    | Some door =>
        if flag (Door.is_locked door) then
          (Raise (Internal_Exception
                    ("exiting " ++ Room.internal_name room ++ " via the "
                     ++ door_phrase d ++ ": door is locked")), st)
        else
          match Door.other_room_internal_name door (Room.internal_name room) with
          | Raise e => (Raise e, st)
          | Ok other =>
              match Rooms_State.rooms_objs_item other st with
              | (Ok dest, _) =>
                  (Ok tt, Rooms_State.set_room_cursor (Room.internal_name dest) st)
              | (Raise e, _) => (Raise e, st)
              end
          end
    end.
Proof.
  intros Hc Hr. pose proof (cursor_found st name room Hc Hr) as Hcur.
  unfold move_toward.
  destruct d; cbn [flags_of]; unfold Rooms_State.move;
    cbn [Rooms_State.more_than_one_direction Rooms_State.exit_binding andb orb];
    unfold bind, lift_result, raise; rewrite Hcur;
    cbn [door_toward direction_name door_phrase]; move_step.
  all: match goal with
       | |- context [match ?o with Some _ => _ | None => _ end] =>
           destruct o as [door |] eqn:Ed
       end; move_step; try reflexivity.
  all: rewrite Hcur; move_step; rewrite Ed; move_step;
       destruct (flag (Door.is_locked door)); rewrite Hcur; move_step;
       try reflexivity.
  all: destruct (Door.other_room_internal_name door (Room.internal_name room))
         as [other | e]; [| reflexivity].
  all: unfold Rooms_State.rooms_objs_item, bind, get_self, raise, ret, modify_self;
       destruct other as [other |]; [| reflexivity];
       destruct (Rooms_State._rooms_objs st !! other); reflexivity.
Qed.

(** A door that links two different rooms leads from each to the other. *)
Lemma other_room_of_two (door : Door.t) (a b : string) :
  Door._linked_rooms_internal_names door = [a; b] -> a <> b ->
  Door.other_room_internal_name door a = Ok (Some b)
  /\ Door.other_room_internal_name door b = Ok (Some a).
Proof.
  intros Hl Hab. unfold Door.other_room_internal_name. rewrite Hl. cbn.
  rewrite !String.eqb_refl.
  assert (String.eqb a b = false) as Eab by by apply String.eqb_neq.
  assert (String.eqb b a = false) as Eba by by apply String.eqb_neq.
  rewrite ?Eab, ?Eba. cbn. rewrite ?orb_true_r. by cbn.
Qed.

Lemma more_than_one_direction_spec (north west south east : bool) :
  Rooms_State.more_than_one_direction north west south east = true
  <-> (2 <= flags_set north west south east)%nat.
Proof.
  destruct north, west, south, east; cbn; split; intros H;
    first [reflexivity | discriminate | lia].
Qed.

Lemma exactly_one_flag (north west south east : bool) :
  flags_set north west south east = 1%nat ->
  exists d, flags_of d = (north, west, south, east).
Proof.
  destruct north, west, south, east; cbn; intros H; try discriminate.
  - by exists North.
  - by exists West.
  - by exists South.
  - by exists East.
Qed.

End Move_facts.

(** C1, as the claim states it, fails on an exit door.  The player stands
    in a room whose open, unlocked north doorway leads out of the dungeon: the
    room on the other side is the exit marker, which is no room of the store.
    The move north is none of the two failures of the claim, and it does not
    update the cursor: it raises [KeyError] for the exit marker and the cursor
    stays on the room. *)
Lemma C1_unlocked_exit_door_raises :
  let moved := Rooms_State.move true false false false Sample.dungeon_at_exit in
  Rooms_State._room_cursor Sample.dungeon_at_exit = Some "Room_2,2"
  /\ Rooms_State._rooms_objs Sample.dungeon_at_exit !! "Room_2,2"
     = Some Sample.Room_2_2
  /\ door_toward North Sample.Room_2_2 = Some Sample.north_door_of_Room_2_2
  /\ flag (Door.is_locked Sample.north_door_of_Room_2_2) = false
  /\ Door.other_room_internal_name Sample.north_door_of_Room_2_2 "Room_2,2"
     = Ok (Some "Exit")
  /\ fst moved = Raise (KeyError (KStr "Exit"))
  /\ Rooms_State._room_cursor (snd moved) = Some "Room_2,2"
  /\ Rooms_State._room_cursor (snd moved) <> Some "Exit".
Proof.
  cbv zeta.
  assert (E : Rooms_State._room_cursor
                (snd (Rooms_State.move true false false false
                        Sample.dungeon_at_exit)) = Some "Room_2,2")
    by (vm_compute; reflexivity).
  do 6 (split; [vm_compute; reflexivity |]).
  split; [exact E |]. rewrite E. intros H. inversion H.
Qed.

(** C1 (amended). Let the cursor of the room-graph store designate a room of
    the store.  Whenever exactly one direction flag is true, [move] is the
    move toward that direction, and: if the cursor room has no door in that
    direction it raises the command failure [MOVE] whose message names the
    direction; if the door in that direction has its locked flag set it
    raises an internal-consistency error; otherwise it asks the door for the
    room on the other side.  When that is a room [dest] of the store, the call
    returns and the cursor is the internal name of [dest], the rooms being
    as they were; when it names no room of the store, as the exit marker of
    an exit door does, the call raises [KeyError] for that name; when the door
    links the cursor room with nothing else it raises [KeyError] for [None];
    when the door does not link the cursor room it raises an
    internal-consistency error.  Every failure leaves the store, and so the
    cursor, as it was.  With two or more flags true it raises an
    internal-consistency error on any state, before the cursor is even
    read. *)
Theorem C1_move (st : Rooms_State.t) (name : string) (room : Room.t)
    (Hcursor : Rooms_State._room_cursor st = Some name)
    (Hroom : Rooms_State._rooms_objs st !! name = Some room) :
  (forall north west south east,
      flags_set north west south east = 1%nat ->
      exists d, flags_of d = (north, west, south, east)
                /\ Rooms_State.move north west south east = move_toward d)
  /\ (forall d,
        door_toward d room = None ->
        move_toward d st
        = (Raise (Bad_Command_Exception "MOVE"
                    ("This room has no <" ++ direction_name d ++ "> exit.")), st))
  /\ (forall d door,
        door_toward d room = Some door ->
        flag (Door.is_locked door) = true ->
        move_toward d st
        = (Raise (Internal_Exception
                    ("exiting " ++ Room.internal_name room ++ " via the "
                     ++ door_phrase d ++ ": door is locked")), st))
  /\ (forall d door other dest,
        door_toward d room = Some door ->
        flag (Door.is_locked door) = false ->
        Door.other_room_internal_name door (Room.internal_name room)
        = Ok (Some other) ->
        Rooms_State._rooms_objs st !! other = Some dest ->
        move_toward d st
        = (Ok tt,
           Rooms_State.mk (Rooms_State._rooms_objs st)
             (Some (Room.internal_name dest)))
        /\ Rooms_State._room_cursor (snd (move_toward d st))
           = Some (Room.internal_name dest))
  /\ (forall d door other,
        door_toward d room = Some door ->
        flag (Door.is_locked door) = false ->
        Door.other_room_internal_name door (Room.internal_name room)
        = Ok (Some other) ->
        Rooms_State._rooms_objs st !! other = None ->
        move_toward d st = (Raise (KeyError (KStr other)), st))
  /\ (forall d door,
        door_toward d room = Some door ->
        flag (Door.is_locked door) = false ->
        Door.other_room_internal_name door (Room.internal_name room) = Ok None ->
        move_toward d st = (Raise (KeyError KNone), st))
  /\ (forall d door,
        door_toward d room = Some door ->
        flag (Door.is_locked door) = false ->
        existsb (String.eqb (Room.internal_name room))
          (Door._linked_rooms_internal_names door) = false ->
        move_toward d st
        = (Raise (Internal_Exception
                    ("room internal name " ++ Room.internal_name room
                     ++ " not one of the two rooms linked by this door object")),
           st))
  /\ (forall north west south east any,
        (2 <= flags_set north west south east)%nat ->
        Rooms_State.move north west south east any
        = (Raise (Internal_Exception
             "move() must receive only *one* True argument of the four keys `north`, `south`, `east` and `west`"),
           any)).
Proof.
  split; [| split; [| split; [| split; [| split; [| split; [| split]]]]]].
  - intros north west south east H1.
    destruct (exactly_one_flag _ _ _ _ H1) as [d Hd]. exists d.
    split; [exact Hd |]. unfold move_toward. by rewrite Hd.
  - intros d Hd. rewrite (move_toward_unfold st name room) by done. by rewrite Hd.
  - intros d door Hd Hl. rewrite (move_toward_unfold st name room) by done.
    by rewrite Hd, Hl.
  - intros d door other dest Hd Hl Ho Hdest.
    rewrite (move_toward_unfold st name room) by done.
    rewrite Hd, Hl, Ho. unfold Rooms_State.rooms_objs_item. run.
    rewrite Hdest. split; reflexivity.
  - intros d door other Hd Hl Ho Hnone.
    rewrite (move_toward_unfold st name room) by done.
    rewrite Hd, Hl, Ho. unfold Rooms_State.rooms_objs_item. run.
    by rewrite Hnone.
  - intros d door Hd Hl Ho.
    rewrite (move_toward_unfold st name room) by done.
    by rewrite Hd, Hl, Ho.
  - intros d door Hd Hl Hlinks.
    rewrite (move_toward_unfold st name room) by done.
    rewrite Hd, Hl. unfold Door.other_room_internal_name. by rewrite Hlinks.
  - intros north west south east any H2.
    apply more_than_one_direction_spec in H2.
    unfold Rooms_State.move. by rewrite H2.
Qed.

Lemma C1_move_witness :
  Rooms_State._room_cursor Sample.dungeon = Some "Room_1,1"
  /\ Rooms_State._rooms_objs Sample.dungeon !! "Room_1,1" = Some Sample.Room_1_1
  /\ Rooms_State.move false false false true Sample.dungeon
     = (Ok tt,
        Rooms_State.mk (Rooms_State._rooms_objs Sample.dungeon) (Some "Room_1,2"))
  /\ Rooms_State._room_cursor
       (snd (Rooms_State.move false false false true Sample.dungeon))
     = Some "Room_1,2".
Proof.
  split; [reflexivity |]. split; [reflexivity |].
  apply (proj1 (proj2 (proj2 (proj2
           (C1_move Sample.dungeon "Room_1,1" Sample.Room_1_1 eq_refl eq_refl))))
           East Sample.east_door_of_Room_1_1 "Room_1,2" Sample.Room_1_2);
    reflexivity.
Defined.

(** C10. With all four direction flags false, and the cursor designating a
    room of the store, [move] raises the name-binding error for [exit_name]:
    no branch of the [if]/[elif] chain binds it before it is read.  On no
    state at all does the call return, raise a command failure or raise an
    internal-consistency error.  The guard at the head of [move] fires exactly
    when two or more flags are true, so it lets this call through. *)
Theorem C10_move_without_direction (st : Rooms_State.t) (name : string)
    (room : Room.t)
    (Hcursor : Rooms_State._room_cursor st = Some name)
    (Hroom : Rooms_State._rooms_objs st !! name = Some room) :
  Rooms_State.move false false false false st
  = (Raise (UnboundLocalError "exit_name"), st)
  /\ Rooms_State.exit_binding false false false false = None
  /\ (forall any,
        match fst (Rooms_State.move false false false false any) with
        | Ok _ => False
        | Raise (Internal_Exception _) => False
        | Raise (Bad_Command_Exception _ _) => False
        | Raise _ => True
        end)
  /\ (forall north west south east,
        Rooms_State.more_than_one_direction north west south east = true
        <-> (2 <= flags_set north west south east)%nat).
Proof.
  split; [| split; [reflexivity | split]].
  - unfold Rooms_State.move. cbn. unfold bind, raise.
    by rewrite (cursor_found st name room).
  - intros any. unfold Rooms_State.move. cbn.
    unfold Rooms_State.cursor. run.
    destruct (Rooms_State._room_cursor any) as [n |]; [| exact I].
    destruct (Rooms_State._rooms_objs any !! n); exact I.
  - apply more_than_one_direction_spec.
Qed.

Lemma C10_move_without_direction_witness :
  Rooms_State._room_cursor Sample.dungeon = Some "Room_1,1"
  /\ Rooms_State._rooms_objs Sample.dungeon !! "Room_1,1" = Some Sample.Room_1_1
  /\ Rooms_State.move false false false false Sample.dungeon
     = (Raise (UnboundLocalError "exit_name"), Sample.dungeon).
Proof.
  split; [reflexivity |]. split; [reflexivity |].
  apply (C10_move_without_direction Sample.dungeon "Room_1,1" Sample.Room_1_1
           eq_refl eq_refl).
Defined.

(** ** The doors store *)

Section Doors_State_facts.

(** [__init__] files a door under the two parts of its section name in the
    order in which they are written. *)
Lemma load_one_files_as_written (door_internal_name a b : string)
    (door_argd : Door.argd) (door : Door.t) (s : gmap string (gmap string Door.t)) :
  split door_internal_name "_x_" = [a; b] ->
  Door.subclassing_factory door_internal_name door_argd = Ok door ->
  exists s',
    Doors_State.load_one (door_internal_name, door_argd) s = (Ok tt, s')
    /\ Doors_State.contains a b s' = true
    /\ fst (Doors_State.get a b s') = Ok door.
Proof.
  intros Hsplit Hfactory. unfold Doors_State.load_one. cbn [fst snd].
  rewrite Hsplit, Hfactory. unfold Doors_State.inner, Doors_State.get,
    Doors_State.contains. run.
  destruct (s !! a) as [d |] eqn:Ea; cbn.
  - eexists. split; [reflexivity |].
    rewrite !lookup_insert_eq. cbn. rewrite !lookup_insert_eq. done.
  - eexists. split; [reflexivity |].
    rewrite insert_insert_eq. rewrite !lookup_insert_eq. cbn.
    rewrite !lookup_insert_eq. done.
Qed.

End Doors_State_facts.

(** C2 does not hold of the code.  [Doors_State.__init__] does not sort the
    two room names: a door whose section name has the later name first, or the
    exit marker first, is filed under the names as written, while a room looks
    it up under the sorted pair (exit marker last) and gets a [KeyError]. *)
Theorem C2_doors_are_filed_as_written :
  let loaded := Doors_State.init Sample.doors_ini_later_room_first in
  let loaded_exit := Doors_State.init Sample.doors_ini_exit_first in
  (fst loaded = Ok tt
   /\ Room.canonical_pair "Room_2,1" "Room_1,1" = ("Room_1,1", "Room_2,1")
   /\ Room.canonical_pair "Room_1,1" "Room_2,1" = ("Room_1,1", "Room_2,1")
   /\ Doors_State.contains "Room_2,1" "Room_1,1" (snd loaded) = true
   /\ Doors_State.contains "Room_1,1" "Room_2,1" (snd loaded) = false
   /\ fst (Room.resolve_door "Room_1,1" "north" "Room_2,1" (snd loaded))
      = Raise (KeyError (KStr "Room_2,1"))
   /\ fst (Room.resolve_door "Room_2,1" "south" "Room_1,1" (snd loaded))
      = Raise (KeyError (KStr "Room_2,1")))
  /\ (fst loaded_exit = Ok tt
      /\ Room.canonical_pair "Room_1,1" "Exit" = ("Room_1,1", "Exit")
      /\ Doors_State.contains "Exit" "Room_1,1" (snd loaded_exit) = true
      /\ Doors_State.contains "Room_1,1" "Exit" (snd loaded_exit) = false
      /\ fst (Room.resolve_door "Room_1,1" "east" "Exit" (snd loaded_exit))
         = Raise (KeyError (KStr "Exit"))).
Proof. cbv zeta. repeat split; vm_compute; reflexivity. Qed.

(** ** Equality of configuration entries *)

Section Equality_facts.

Context {value : Type} (none : value) (value_eq : value -> value -> bool).

Implicit Types (a b : Ini_Entry.obj value) (c d : Ini_Entry.cls).

Lemma cls_eqb_eq c d : Ini_Entry.cls_eqb c d = true <-> c = d.
Proof. destruct c, d; cbn; split; intros H; congruence. Qed.

Lemma issubclass_refl c : Ini_Entry.issubclass c c = true.
Proof. by destruct c. Qed.

(** No two different classes are subclasses of each other. *)
Lemma issubclass_one_way c d :
  c <> d -> Ini_Entry.issubclass d c = true -> Ini_Entry.issubclass c d = false.
Proof. destruct c, d; cbn; intros Hne H; congruence. Qed.

Lemma forallb_Forall_true {A} (f : A -> bool) (l : list A) :
  forallb f l = true <-> Forall (fun x => f x = true) l.
Proof.
  induction l as [| x l IH]; cbn.
  - split; [constructor | reflexivity].
  - rewrite andb_true_iff, IH. split.
    + intros [? ?]. by constructor.
    + intros H. by inversion H.
Qed.

(** [getattr(o, attr, None)] reads the value set under the name, or
    [None]. *)
Lemma getattr_default a attr :
  Ini_Entry.getattr none a attr = default none (Ini_Entry.attrs a !! attr).
Proof. unfold Ini_Entry.getattr. by destruct (Ini_Entry.attrs a !! attr). Qed.

(** The method itself accepts an instance of a subclass as [other]; the
    [==] operator does not reach it in that case. *)
Lemma eq_method_accepts_subclass_instance a b :
  Ini_Entry.type a = Ini_Entry.Item -> Ini_Entry.type b = Ini_Entry.Armor ->
  Ini_Entry.__eq__ none value_eq b a = false
  /\ (Ini_Entry.__eq__ none value_eq a b
       = forallb (fun attr => value_eq (Ini_Entry.getattr none a attr)
                                       (Ini_Entry.getattr none b attr))
           (Ini_Entry.slots Ini_Entry.Item)).
Proof.
  intros Ha Hb. unfold Ini_Entry.__eq__, Ini_Entry.isinstance.
  rewrite Ha, Hb. split; reflexivity.
Qed.

(** C6. For every pair of configuration-entry objects [a] and [b]: [a == b]
    is true if and only if [a] and [b] are of the same class and every
    attribute named in the class's [__slots__] compares equal between them,
    the attribute being the value set on the object under that name, or
    [None] when none is set; in particular it is false in both orders for two
    objects of different classes. *)
Theorem C6_entry_equality a b :
  (Ini_Entry.py_eq none value_eq a b = true
   <-> Ini_Entry.type a = Ini_Entry.type b
       /\ Forall (fun attr =>
                    value_eq (default none (Ini_Entry.attrs a !! attr))
                             (default none (Ini_Entry.attrs b !! attr)) = true)
                 (Ini_Entry.slots (Ini_Entry.type a)))
  /\ (Ini_Entry.type a <> Ini_Entry.type b ->
      Ini_Entry.py_eq none value_eq a b = false
      /\ Ini_Entry.py_eq none value_eq b a = false).
Proof.
  assert (Hne : forall x y : Ini_Entry.obj value,
             Ini_Entry.type x <> Ini_Entry.type y ->
             Ini_Entry.py_eq none value_eq x y = false).
  { intros x y Hxy. unfold Ini_Entry.py_eq.
    destruct (Ini_Entry.cls_eqb (Ini_Entry.type x) (Ini_Entry.type y)) eqn:E.
    - apply cls_eqb_eq in E. contradiction.
    - cbn [negb andb].
      destruct (Ini_Entry.issubclass (Ini_Entry.type y) (Ini_Entry.type x)) eqn:S;
        unfold Ini_Entry.__eq__, Ini_Entry.isinstance.
      + by rewrite (issubclass_one_way _ _ Hxy S).
      + by rewrite S. }
  split.
  - split.
    + intros H.
      destruct (Ini_Entry.cls_eqb (Ini_Entry.type a) (Ini_Entry.type b)) eqn:E.
      * apply cls_eqb_eq in E. split; [exact E |].
        unfold Ini_Entry.py_eq, Ini_Entry.__eq__, Ini_Entry.isinstance in H.
        rewrite <- E in H. rewrite (proj2 (cls_eqb_eq _ _) eq_refl) in H.
        rewrite issubclass_refl in H. cbn [negb andb] in H.
        apply forallb_Forall_true in H.
        eapply Forall_impl; [exact H |]. cbn beta. intros attr Hattr.
        by rewrite <- !getattr_default.
      * assert (Ini_Entry.type a <> Ini_Entry.type b) as Hab.
        { intros Hab. apply cls_eqb_eq in Hab. congruence. }
        rewrite (Hne a b Hab) in H. discriminate.
    + intros [E HF].
      unfold Ini_Entry.py_eq, Ini_Entry.__eq__, Ini_Entry.isinstance.
      rewrite <- E. rewrite (proj2 (cls_eqb_eq _ _) eq_refl).
      rewrite issubclass_refl. cbn [negb andb]. apply forallb_Forall_true.
      eapply Forall_impl; [exact HF |]. cbn beta. intros attr Hattr.
      by rewrite !getattr_default.
  - intros Hab. split; apply Hne; congruence.
Qed.

End Equality_facts.

(** ** Hit points and mana points in play *)

Section Vitals_facts.

Implicit Types (c : Character.t).

Lemma set_current_hit_points_same c :
  Character.set_current_hit_points (Character._current_hit_points c) c = c.
Proof. by destruct c. Qed.

Lemma set_current_mana_points_same c :
  Character.set_current_mana_points (Character._current_mana_points c) c = c.
Proof. by destruct c. Qed.

Lemma take_damage_run c d :
  Character.take_damage d c =
    if Character._current_hit_points c - d <? 0
    then (Ok (Character._current_hit_points c), Character.set_current_hit_points 0 c)
    else (Ok d, Character.set_current_hit_points (Character._current_hit_points c - d) c).
Proof.
  unfold Character.take_damage. run.
  by destruct (Character._current_hit_points c - d <? 0).
Qed.

Lemma heal_damage_run c h :
  Character.heal_damage h c =
    if Character._hit_point_maximum c <? Character._current_hit_points c + h
    then (Ok (Character._hit_point_maximum c - Character._current_hit_points c),
          Character.set_current_hit_points (Character._hit_point_maximum c) c)
    else (Ok h, Character.set_current_hit_points (Character._current_hit_points c + h) c).
Proof.
  unfold Character.heal_damage. run.
  by destruct (Character._hit_point_maximum c <? Character._current_hit_points c + h).
Qed.

Lemma spend_mana_run c a :
  Character.spend_mana a c =
    if Character._current_mana_points c <? a then (Ok 0, c)
    else (Ok a, Character.set_current_mana_points (Character._current_mana_points c - a) c).
Proof.
  unfold Character.spend_mana. run.
  by destruct (Character._current_mana_points c <? a).
Qed.

Lemma regain_mana_run c a :
  Character.regain_mana a c =
    if Character._mana_point_maximum c <? Character._current_mana_points c + a
    then (Ok (Character._mana_point_maximum c - Character._current_mana_points c),
          Character.set_current_mana_points (Character._mana_point_maximum c) c)
    else (Ok a, Character.set_current_mana_points (Character._current_mana_points c + a) c).
Proof.
  unfold Character.regain_mana. run.
  by destruct (Character._mana_point_maximum c <? Character._current_mana_points c + a).
Qed.

End Vitals_facts.

(** X1. [take_damage] always returns; it leaves [max(0, hp - damage)] hit
    points, returns exactly the number of hit points lost, and changes nothing
    else of the character. *)
Theorem X1_take_damage_clamps_at_zero (c : Character.t) (damage_value : Z) :
  let hp := Character._current_hit_points c in
  let hp' := Z.max 0 (hp - damage_value) in
  Character.take_damage damage_value c
  = (Ok (hp - hp'),
     Character.mk (Character.character_name c) (Character.character_class c)
       (Character.magic_key_stat c) (Character._hit_point_maximum c) hp'
       (Character._mana_point_maximum c) (Character._current_mana_points c)
       (Character.ability_scores c) (Character.inventory c)
       (Character._equipment c))
  /\ Character._current_hit_points (snd (Character.take_damage damage_value c))
     = hp'.
Proof.
  cbv zeta. rewrite take_damage_run.
  destruct (Z.ltb_spec (Character._current_hit_points c - damage_value) 0).
  - rewrite Z.max_l by lia. split; [| reflexivity].
    unfold Character.set_current_hit_points. do 2 f_equal. lia.
  - rewrite Z.max_r by lia. split; [| reflexivity].
    unfold Character.set_current_hit_points. do 2 f_equal. lia.
Qed.

(** X2. [heal_damage] always returns; it leaves [min(maximum, hp + healing)]
    hit points, returns exactly the number of hit points gained, and changes
    nothing else of the character. *)
Theorem X2_heal_damage_clamps_at_maximum (c : Character.t) (healing_value : Z) :
  let hp := Character._current_hit_points c in
  let hp' := Z.min (Character._hit_point_maximum c) (hp + healing_value) in
  Character.heal_damage healing_value c
  = (Ok (hp' - hp),
     Character.mk (Character.character_name c) (Character.character_class c)
       (Character.magic_key_stat c) (Character._hit_point_maximum c) hp'
       (Character._mana_point_maximum c) (Character._current_mana_points c)
       (Character.ability_scores c) (Character.inventory c)
       (Character._equipment c))
  /\ Character._current_hit_points (snd (Character.heal_damage healing_value c))
     = hp'.
Proof.
  cbv zeta. rewrite heal_damage_run.
  destruct (Z.ltb_spec (Character._hit_point_maximum c)
              (Character._current_hit_points c + healing_value)).
  - rewrite Z.min_l by lia. split; reflexivity.
  - rewrite Z.min_r by lia. split; [| reflexivity].
    unfold Character.set_current_hit_points. do 2 f_equal. lia.
Qed.

(** X3. A character whose hit points lie between 0 and the maximum keeps
    them there through any damage and any healing that is not negative. *)
Theorem X3_hit_points_stay_in_range (c : Character.t) (amount : Z)
    (Hamount : 0 <= amount)
    (Hrange : 0 <= Character._current_hit_points c <= Character._hit_point_maximum c) :
  let in_range (c' : Character.t) :=
    0 <= Character._current_hit_points c' <= Character._hit_point_maximum c'
    /\ Character._hit_point_maximum c' = Character._hit_point_maximum c in
  in_range (snd (Character.take_damage amount c))
  /\ in_range (snd (Character.heal_damage amount c)).
Proof.
  cbv zeta. rewrite take_damage_run, heal_damage_run.
  destruct (Z.ltb_spec (Character._current_hit_points c - amount) 0);
    destruct (Z.ltb_spec (Character._hit_point_maximum c)
                (Character._current_hit_points c + amount));
    cbn; lia.
Qed.

Lemma X3_hit_points_stay_in_range_witness :
  0 <= 5
  /\ 0 <= Character._current_hit_points (Sample.hero Thief None None)
       <= Character._hit_point_maximum (Sample.hero Thief None None)
  /\ 0 <= Character._current_hit_points
            (snd (Character.take_damage 5 (Sample.hero Thief None None)))
       <= Character._hit_point_maximum
            (snd (Character.take_damage 5 (Sample.hero Thief None None))).
Proof.
  split; [lia |]. split; [cbn; lia |].
  apply (X3_hit_points_stay_in_range (Sample.hero Thief None None) 5);
    cbn; lia.
Defined.

(** X4. Damage that the character survives or that just kills it, healed by
    the same amount, gives back the character as it was: for
    [0 <= amount <= hp <= maximum], [take_damage(amount)] returns [amount] and
    [heal_damage(amount)] after it returns [amount] and restores the state. *)
Theorem X4_damage_then_heal_restores (c : Character.t) (amount : Z)
    (Hamount : 0 <= amount <= Character._current_hit_points c)
    (Hmax : Character._current_hit_points c <= Character._hit_point_maximum c) :
  fst (Character.take_damage amount c) = Ok amount
  /\ Character.heal_damage amount (snd (Character.take_damage amount c))
     = (Ok amount, c).
Proof.
  rewrite take_damage_run.
  destruct (Z.ltb_spec (Character._current_hit_points c - amount) 0); [lia |].
  split; [reflexivity |]. cbn [snd]. rewrite heal_damage_run.
  destruct c as [n cl mk hm hp mm mp a inv eq]. cbn in *.
  destruct (Z.ltb_spec hm (hp - amount + amount)); [lia |].
  unfold Character.set_current_hit_points. cbn. do 3 f_equal. lia.
Qed.

Lemma X4_damage_then_heal_restores_witness :
  0 <= 7 <= Character._current_hit_points (Sample.hero Thief None None)
  /\ Character._current_hit_points (Sample.hero Thief None None)
     <= Character._hit_point_maximum (Sample.hero Thief None None)
  /\ Character.heal_damage 7
       (snd (Character.take_damage 7 (Sample.hero Thief None None)))
     = (Ok 7, Sample.hero Thief None None).
Proof.
  split; [cbn; lia |]. split; [cbn; lia |].
  apply (X4_damage_then_heal_restores (Sample.hero Thief None None) 7);
    cbn; lia.
Defined.

(** X5. [spend_mana] fails silently: when the amount exceeds the current
    mana points it returns 0 and changes nothing; otherwise it returns the
    amount and takes it off the current mana points, changing nothing else.
    Mana points that are not negative never become negative, whatever the
    amount. *)
Theorem X5_spend_mana (c : Character.t) (spent_amount : Z) :
  let mana := Character._current_mana_points c in
  (mana < spent_amount -> Character.spend_mana spent_amount c = (Ok 0, c))
  /\ (spent_amount <= mana ->
        Character.spend_mana spent_amount c
        = (Ok spent_amount,
           Character.mk (Character.character_name c)
             (Character.character_class c) (Character.magic_key_stat c)
             (Character._hit_point_maximum c) (Character._current_hit_points c)
             (Character._mana_point_maximum c) (mana - spent_amount)
             (Character.ability_scores c) (Character.inventory c)
             (Character._equipment c))
        /\ Character._current_mana_points
             (snd (Character.spend_mana spent_amount c))
           = mana - spent_amount)
  /\ (0 <= mana ->
        0 <= Character._current_mana_points (snd (Character.spend_mana spent_amount c))).
Proof.
  cbv zeta. rewrite spend_mana_run.
  destruct (Z.ltb_spec (Character._current_mana_points c) spent_amount);
    repeat split; intros; cbn; try reflexivity; lia.
Qed.

(** X6. [regain_mana] leaves [min(maximum, mana + amount)] mana points and
    returns the number gained; mana spent successfully and regained in the
    same amount gives back the character as it was, for
    [0 <= amount <= mana <= maximum]. *)
Theorem X6_spend_then_regain_restores (c : Character.t) (amount : Z)
    (Hamount : 0 <= amount <= Character._current_mana_points c)
    (Hmax : Character._current_mana_points c <= Character._mana_point_maximum c) :
  (forall regaining_value,
      let mana' := Z.min (Character._mana_point_maximum c)
                         (Character._current_mana_points c + regaining_value) in
      Character.regain_mana regaining_value c
      = (Ok (mana' - Character._current_mana_points c),
         Character.set_current_mana_points mana' c))
  /\ fst (Character.spend_mana amount c) = Ok amount
  /\ Character.regain_mana amount (snd (Character.spend_mana amount c))
     = (Ok amount, c).
Proof.
  split; [| split].
  - intros v. cbv zeta. rewrite regain_mana_run.
    destruct (Z.ltb_spec (Character._mana_point_maximum c)
                (Character._current_mana_points c + v)).
    + rewrite Z.min_l by lia. reflexivity.
    + rewrite Z.min_r by lia. do 2 f_equal. lia.
  - rewrite spend_mana_run.
    destruct (Z.ltb_spec (Character._current_mana_points c) amount); [lia | done].
  - rewrite spend_mana_run.
    destruct (Z.ltb_spec (Character._current_mana_points c) amount); [lia |].
    cbn [snd]. rewrite regain_mana_run.
    destruct c as [n cl mk hm hp mm mp a inv eq]. cbn in *.
    destruct (Z.ltb_spec mm (mp - amount + amount)); [lia |].
    unfold Character.set_current_mana_points. cbn. do 3 f_equal. lia.
Qed.

Lemma X6_spend_then_regain_restores_witness :
  let sage := Character.set_mana_points 28 (Sample.caster Mage) in
  0 <= 5 <= Character._current_mana_points sage
  /\ Character._current_mana_points sage <= Character._mana_point_maximum sage
  /\ Character.regain_mana 5 (snd (Character.spend_mana 5 sage)) = (Ok 5, sage).
Proof.
  cbv zeta. split; [cbn; lia |]. split; [cbn; lia |].
  apply (X6_spend_then_regain_restores
           (Character.set_mana_points 28 (Sample.caster Mage)) 5); cbn; lia.
Defined.

(** X7. [is_alive] and [is_dead] never hold together; one of them holds
    exactly when the hit points are not negative.  Damage of at least the
    current hit points leaves a character with non-negative hit points dead,
    less damage than that leaves it alive. *)
Theorem X7_alive_or_dead (c : Character.t) (damage_value : Z) :
  let hp := Character._current_hit_points c in
  (Character.is_alive c && Character.is_dead c = false)
  /\ (Character.is_alive c || Character.is_dead c = true <-> 0 <= hp)
  /\ (0 <= hp -> hp <= damage_value ->
        Character.is_dead (snd (Character.take_damage damage_value c)) = true)
  /\ (damage_value < hp ->
        Character.is_alive (snd (Character.take_damage damage_value c)) = true).
Proof.
  cbv zeta. unfold Character.is_alive, Character.is_dead.
  rewrite take_damage_run.
  destruct (Z.ltb_spec 0 (Character._current_hit_points c));
    destruct (Z.eqb_spec (Character._current_hit_points c) 0);
    destruct (Z.ltb_spec (Character._current_hit_points c - damage_value) 0);
    cbn; repeat split; intros; try reflexivity; try lia; try discriminate;
    try (apply Z.eqb_eq; lia); try (apply Z.ltb_lt; lia).
Qed.

(** X8. Whatever the arguments, and whether or not the mana set-up after it
    raises, [_set_up_hit_points_and_mana_points] leaves the maximum and the
    current hit points both at the base (the explicit argument if not 0, else
    40 for a Warrior, 30 for a Priest or a Thief, 20 for a Mage) plus three
    times the constitution modifier; a low constitution can make them zero or
    negative. *)
Theorem X8_hit_points_set_up (c : Character.t)
    (base_hit_points base_mana_points : Z) (arg : option string) :
  let after :=
    snd (Character._set_up_hit_points_and_mana_points base_hit_points
           base_mana_points arg c) in
  let expected :=
    hit_point_base_in_effect (Character.character_class c) base_hit_points
    + (Ability_Scores.constitution (Character.ability_scores c) - 10) / 2 * 3 in
  Character._hit_point_maximum after = expected
  /\ Character._current_hit_points after = expected.
Proof.
  cbv zeta. unfold Character._set_up_hit_points_and_mana_points,
    hit_point_base_in_effect, bind, get_self, lift_result, modify_self, ret, raise,
    Character.getattr_mod, Ability_Scores.constitution_mod.
  cbn [Ability_Scores._stat_mod Ability_Scores.score String.eqb Ascii.eqb
       fst snd Bool.eqb].
  destruct (Character.character_class c) eqn:Ec;
    destruct (base_hit_points =? 0); cbn [negb Character.class_lookup
      Character._hitpoint_base Character_class_eqb fst snd];
    destruct arg as [mks |];
    repeat match goal with
           | |- context [String.eqb mks ?x] =>
               destruct (String.eqb_spec mks x); [subst mks |]
           end;
    cbn [negb orb fst snd];
    rewrite ?getattr_mod_wisdom, ?getattr_mod_intelligence, ?getattr_mod_charisma;
    cbn [Character.ability_scores Character.set_magic_key_stat
         Character.set_hit_points Character.magic_key_stat fst snd];
    rewrite ?getattr_mod_wisdom, ?getattr_mod_intelligence, ?getattr_mod_charisma;
    try rewrite Ec;
    repeat match goal with
           | |- context [if negb ?b then _ else _] => destruct b; cbn [negb]
           | |- context [match Character.bonus_mana_points_item ?m with _ => _ end] =>
               destruct (Character.bonus_mana_points_item m)
           end;
    cbn; try rewrite Ec; cbn;
    repeat match goal with
           | |- context [match Character.bonus_mana_points_item ?m with _ => _ end] =>
               destruct (Character.bonus_mana_points_item m)
           end;
    cbn; split; reflexivity.
Qed.

(** ** Equipment *)

Section Equipment_facts.

Implicit Types (c : Character.t) (item : Item.t).

Lemma set_equipment_same c :
  Character.set_equipment (Character._equipment c) c = c.
Proof. by destruct c. Qed.

(** A character-level [equip_*] method, given the slot's class test and
    setter and the message of the equipment-level method. *)
Lemma equip_run c item (m : M Equipment.t unit) :
  keyed_by_internal_name (Character.inventory c) = true ->
  (let! held := Character.on_inventory
                  (Items_Multi_State.contains (Item.internal_name item)) in
   if negb held then raise Character.not_in_inventory
   else Character.on_equipment m) c
  = if truthy (Character.inventory c !! Item.internal_name item)
    then (fst (m (Character._equipment c)),
          Character.set_equipment (snd (m (Character._equipment c))) c)
    else (Raise Character.not_in_inventory, c).
Proof.
  intros H. unfold bind, Character.on_inventory, Character.on_equipment, on_field.
  rewrite contains_keyed by done. rewrite set_inventory_same.
  destruct (Character.inventory c !! Item.internal_name item); cbn; [| reflexivity].
  by destruct (m (Character._equipment c)).
Qed.

End Equipment_facts.

(** X9. For a character whose inventory files every entry under its item's
    internal name, each of the four [equip_*] methods succeeds exactly when
    the item's name is held in the inventory and the item is of the class of
    the slot; the slot then holds the item, whatever it held before, and the
    other three slots and the rest of the character are as they were.
    Otherwise it raises an internal-consistency error (the inventory is
    checked first) and the character is unchanged. *)
Theorem X9_equip_needs_a_held_item_of_the_slot_class (c : Character.t)
    (item : Item.t)
    (Hkeyed : keyed_by_internal_name (Character.inventory c) = true) :
  let held := truthy (Character.inventory c !! Item.internal_name item) in
  let eq := Character._equipment c in
  let outcome (class : Item.cls) (message : string) (filled : Equipment.t) :=
    if held then
      if Item.isinstance item class
      then (Ok tt,
            Character.mk (Character.character_name c)
              (Character.character_class c) (Character.magic_key_stat c)
              (Character._hit_point_maximum c) (Character._current_hit_points c)
              (Character._mana_point_maximum c) (Character._current_mana_points c)
              (Character.ability_scores c) (Character.inventory c) filled)
      else (Raise (Internal_Exception message), c)
    else (Raise Character.not_in_inventory, c) in
  Character.equip_armor item c
  = outcome Item.Armor
      "the method `equip_armor()` only accepts `armor` objects for its argument"
      (Equipment.mk (Equipment.character_class eq) (Some item)
         (Equipment.shield eq) (Equipment.weapon eq) (Equipment.wand eq))
  /\ Character.equip_shield item c
     = outcome Item.Shield
         "the method `equip_shield()` only accepts `shield` objects for its argument"
         (Equipment.mk (Equipment.character_class eq) (Equipment.armor eq)
            (Some item) (Equipment.weapon eq) (Equipment.wand eq))
  /\ Character.equip_weapon item c
     = outcome Item.Weapon
         "the method `equip_weapon()` only accepts `weapon` objects for its argument"
         (Equipment.mk (Equipment.character_class eq) (Equipment.armor eq)
            (Equipment.shield eq) (Some item) (Equipment.wand eq))
  /\ Character.equip_wand item c
     = outcome Item.Wand
         "the method `equip_wand()` only accepts `wand` objects for its argument"
         (Equipment.mk (Equipment.character_class eq) (Equipment.armor eq)
            (Equipment.shield eq) (Equipment.weapon eq) (Some item)).
Proof.
  cbv zeta.
  unfold Character.equip_armor, Character.equip_shield, Character.equip_weapon,
    Character.equip_wand.
  rewrite !equip_run by done.
  unfold Equipment.equip_armor, Equipment.equip_shield, Equipment.equip_weapon,
    Equipment.equip_wand.
  destruct (Character.inventory c !! Item.internal_name item); cbn [truthy];
    [| repeat split; reflexivity].
  repeat split;
    match goal with
    | |- context [Item.isinstance item ?k] => destruct (Item.isinstance item k)
    end; cbn; rewrite ?set_equipment_same; reflexivity.
Qed.

Lemma X9_equip_needs_a_held_item_of_the_slot_class_witness :
  keyed_by_internal_name (Character.inventory Sample.unarmed_thief) = true
  /\ Equipment.weapon (Character._equipment Sample.unarmed_thief) = None
  /\ Character.equip_weapon Sample.Short_Sword Sample.unarmed_thief
     = (Ok tt,
        Character.mk "Trysk" Thief "" 20 20 0 0 (Sample.Trysk_scores Thief)
          {[ "Short_Sword" := (1, Sample.Short_Sword) ]}
          (Equipment.mk Thief None None (Some Sample.Short_Sword) None))
  /\ Character.equip_armor Sample.Short_Sword Sample.unarmed_thief
     = (Raise (Internal_Exception
          "the method `equip_armor()` only accepts `armor` objects for its argument"),
        Sample.unarmed_thief)
  /\ Character.equip_wand Sample.Magic_Wand Sample.unarmed_thief
     = (Raise Character.not_in_inventory, Sample.unarmed_thief).
Proof.
  split; [reflexivity |]. split; [reflexivity |].
  split; [| split].
  - apply (proj1 (proj2 (proj2
             (X9_equip_needs_a_held_item_of_the_slot_class
                Sample.unarmed_thief Sample.Short_Sword eq_refl)))).
  - apply (proj1 (X9_equip_needs_a_held_item_of_the_slot_class
                    Sample.unarmed_thief Sample.Short_Sword eq_refl)).
  - apply (proj2 (proj2 (proj2
             (X9_equip_needs_a_held_item_of_the_slot_class
                Sample.unarmed_thief Sample.Magic_Wand eq_refl)))).
Defined.

(** X10. [drop_item] never touches the equipment.  So when a character
    drops all it holds of an item, an equipped copy of the item stays
    equipped although [have_item] is now false, and equipping it again is
    refused. *)
Theorem X10_drop_item_does_not_unequip (c : Character.t) (item : Item.t)
    (h : Z) (it : Item.t)
    (Hkeyed : keyed_by_internal_name (Character.inventory c) = true)
    (Hheld : Character.inventory c !! Item.internal_name item = Some (h, it))
    (Hh : h <> 0) :
  (forall qty,
      Character._equipment (snd (Character.drop_item item qty c))
      = Character._equipment c)
  /\ (let after := snd (Character.drop_item item h c) in
      fst (Character.drop_item item h c) = Ok tt
      /\ fst (Character.have_item item after) = Ok false
      /\ Character.equip_weapon item after = (Raise Character.not_in_inventory, after)).
Proof.
  split.
  - intros qty. rewrite drop_item_keyed by done. rewrite Hheld.
    destruct (h =? 0); [done |]. by destruct (h =? qty).
  - cbv zeta. rewrite drop_item_keyed by done. rewrite Hheld.
    destruct (Z.eqb_spec h 0); [done |]. rewrite Z.eqb_refl. cbn [fst snd].
    assert (Hk : keyed_by_internal_name
                   (Character.inventory
                      (Character.set_inventory
                         (delete (Item.internal_name item) (Character.inventory c)) c))
                 = true) by by apply keyed_delete.
    split; [reflexivity |]. split.
    + unfold Character.have_item, Character.on_inventory, on_field.
      rewrite contains_keyed by done. cbn. by rewrite lookup_delete_eq.
    + unfold Character.equip_weapon. rewrite equip_run by done.
      cbn. by rewrite lookup_delete_eq.
Qed.

Lemma X10_drop_item_does_not_unequip_witness :
  let trysk := Creature.character Sample.Kobold_Trysk in
  keyed_by_internal_name (Character.inventory trysk) = true
  /\ Character.inventory trysk !! "Short_Sword" = Some (1, Sample.Short_Sword)
  /\ 1 <> 0
  /\ Equipment.weapon_equipped
       (Character._equipment (snd (Character.drop_item Sample.Short_Sword 1 trysk)))
     = Some Sample.Short_Sword.
Proof.
  cbv zeta. split; [reflexivity |]. split; [reflexivity |]. split; [lia |].
  rewrite (proj1 (X10_drop_item_does_not_unequip
                    (Creature.character Sample.Kobold_Trysk) Sample.Short_Sword
                    1 Sample.Short_Sword eq_refl eq_refl ltac:(lia)) 1).
  reflexivity.
Defined.

(** X11. The armor class of a character is 10 plus the armor bonus of the
    equipped armor plus that of the equipped shield plus the dexterity
    modifier; weapon and wand play no part.  It raises [TypeError] exactly
    when an equipped armor or shield carries no armor bonus. *)
Theorem X11_armor_class (c : Character.t) :
  let eq := Character._equipment c in
  let dex := (Ability_Scores.dexterity (Character.ability_scores c) - 10) / 2 in
  Character.armor_class c =
    match slot_armor_bonus (Equipment.armor eq),
          slot_armor_bonus (Equipment.shield eq) with
    | Some a, Some s => Ok (10 + a + s + dex)
    | _, _ => Raise TypeError
    end.
Proof.
  cbv zeta. unfold Character.armor_class, Equipment.armor_class,
    Equipment.add_armor_bonus, Equipment.armor_equipped, Equipment.shield_equipped,
    slot_armor_bonus.
  destruct (Equipment.armor (Character._equipment c)) as [a |];
    destruct (Equipment.shield (Character._equipment c)) as [s |];
    try destruct (Item.armor_bonus a); try destruct (Item.armor_bonus s);
    cbn; try reflexivity; f_equal; lia.
Qed.


(** ** The doors store as a two-level dictionary *)

Section Doors_State_dictionary_facts.

Implicit Types (s : gmap string (gmap string Door.t)) (a b : string) (door : Door.t).

Lemma contains_door_at s a b :
  Doors_State.contains a b s = truthy (door_at s a b).
Proof. unfold Doors_State.contains, door_at. by destruct (s !! a). Qed.

Lemma get_run s a b :
  Doors_State.get a b s =
    match s !! a with
    | Some d =>
        match d !! b with
        | Some door => (Ok door, s)
        | None => (Raise (KeyError (KStr b)), s)
        end
    | None => (Raise (KeyError (KStr b)), <[a := ∅]> s)
    end.
Proof.
  unfold Doors_State.get, Doors_State.inner. run.
  destruct (s !! a) as [d |]; cbn.
  - by destruct (d !! b).
  - by rewrite lookup_empty.
Qed.

Lemma set_run s a b door :
  Doors_State.set a b door s =
    (Ok tt, <[a := <[b := door]> (default ∅ (s !! a))]> s).
Proof.
  unfold Doors_State.set, Doors_State.inner. run.
  destruct (s !! a) as [d |]; cbn; [reflexivity |].
  by rewrite insert_insert_eq.
Qed.

Lemma door_at_set s a b door a' b' :
  door_at (<[a := <[b := door]> (default ∅ (s !! a))]> s) a' b' =
    if decide (a = a' /\ b = b') then Some door else door_at s a' b'.
Proof.
  unfold door_at. destruct (decide (a = a')) as [<- | Ha].
  - rewrite lookup_insert_eq. destruct (decide (b = b')) as [<- | Hb].
    + rewrite lookup_insert_eq. by rewrite decide_True.
    + rewrite lookup_insert_ne by done.
      rewrite decide_False by (intros [_ ?]; done).
      destruct (s !! a); [done | apply lookup_empty].
  - rewrite lookup_insert_ne by done.
    by rewrite decide_False by (intros [? _]; done).
Qed.

Lemma door_at_empty_inner s a a' b' :
  s !! a = None -> door_at (<[a := ∅]> s) a' b' = door_at s a' b'.
Proof.
  intros Ha. unfold door_at. destruct (decide (a = a')) as [<- | Hne].
  - by rewrite lookup_insert_eq, Ha, lookup_empty.
  - by rewrite lookup_insert_ne.
Qed.

End Doors_State_dictionary_facts.

(** X13. In the doors store, [set] followed by [get] of the same pair of
    names returns the door set, and the doors under every other pair stay as
    they were; [delete] of a pair that holds a door removes exactly that door
    (a [get] of it then raises [KeyError]), and [delete] of a pair that holds
    none raises [KeyError] for the second name.  The order of the two names
    matters: the pair turned around is another key. *)
Theorem X13_doors_store_set_get_delete
    (s : gmap string (gmap string Door.t)) (a b : string) (door : Door.t) :
  let s1 := snd (Doors_State.set a b door s) in
  fst (Doors_State.set a b door s) = Ok tt
  /\ fst (Doors_State.get a b s1) = Ok door
  /\ (forall a' b', (a', b') <> (a, b) -> door_at s1 a' b' = door_at s a' b')
  /\ (let s2 := snd (Doors_State.delete a b s1) in
      fst (Doors_State.delete a b s1) = Ok tt
      /\ fst (Doors_State.get a b s2) = Raise (KeyError (KStr b))
      /\ (forall a' b', (a', b') <> (a, b) -> door_at s2 a' b' = door_at s a' b'))
  /\ (door_at s a b = None ->
      fst (Doors_State.delete a b s) = Raise (KeyError (KStr b)))
  /\ (a <> b -> door_at s b a = None ->
      fst (Doors_State.get b a s1) = Raise (KeyError (KStr a))).
Proof.
  cbv zeta. rewrite set_run. cbn [fst snd].
  set (s1 := <[a := <[b := door]> (default ∅ (s !! a))]> s).
  assert (H1 : forall a' b', door_at s1 a' b'
               = if decide (a = a' /\ b = b') then Some door else door_at s a' b')
    by (intros; apply door_at_set).
  assert (Hs1a : s1 !! a = Some (<[b := door]> (default ∅ (s !! a))))
    by (unfold s1; apply lookup_insert_eq).
  split; [reflexivity |]. split.
  { rewrite get_run, Hs1a. by rewrite lookup_insert_eq. }
  split.
  { intros a' b' Hne. rewrite H1. rewrite decide_False; [done |].
    intros [-> ->]. done. }
  split.
  { unfold Doors_State.delete, Doors_State.inner. run. rewrite Hs1a. cbn.
    rewrite lookup_insert_eq. cbn. split; [reflexivity |]. split.
    - rewrite get_run. rewrite lookup_insert_eq. by rewrite lookup_delete_eq.
    - intros a' b' Hne. unfold door_at.
      destruct (decide (a = a')) as [<- | Ha].
      + rewrite lookup_insert_eq.
        assert (b <> b') as Hb by (intros ->; done).
        rewrite lookup_delete_ne by done. rewrite lookup_insert_ne by done.
        destruct (s !! a); [done | apply lookup_empty].
      + rewrite lookup_insert_ne by done. unfold s1.
        by rewrite lookup_insert_ne. }
  split.
  { unfold door_at, Doors_State.delete, Doors_State.inner. run.
    destruct (s !! a) as [d |]; cbn.
    - by intros ->.
    - intros _. by rewrite lookup_empty. }
  { intros Hab Hba. rewrite get_run.
    pose proof (H1 b a) as H. rewrite decide_False in H by (intros [? _]; done).
    rewrite Hba in H. unfold door_at in H.
    destruct (s1 !! b) as [d |]; [by rewrite H | reflexivity]. }
Qed.

(** X14. A [get] that fails changes no door of the store: it raises
    [KeyError] for the second name and every pair of names holds afterwards
    what it held before, although an empty inner dictionary may have been
    added for the first name. *)
Theorem X14_failed_get_leaves_the_doors
    (s : gmap string (gmap string Door.t)) (a b : string)
    (Habsent : door_at s a b = None) :
  fst (Doors_State.get a b s) = Raise (KeyError (KStr b))
  /\ (forall a' b',
        door_at (snd (Doors_State.get a b s)) a' b' = door_at s a' b')
  /\ (s !! a = None -> snd (Doors_State.get a b s) !! a = Some ∅)
  /\ Doors_State.size (snd (Doors_State.get a b s)) = Doors_State.size s.
Proof.
  rewrite get_run. unfold door_at in Habsent.
  destruct (s !! a) as [d |] eqn:Ea.
  - rewrite Habsent. cbn. repeat split; try done.
  - cbn. split; [done |]. split; [| split].
    + intros a' b'. by apply door_at_empty_inner.
    + intros _. apply lookup_insert_eq.
    + unfold Doors_State.size, Doors_State.keys.
      rewrite !flat_map_concat_map, !length_concat.
      erewrite (Permutation_map _ (map_to_list_insert s a ∅ Ea)) by done.
      done.
Qed.

Lemma X14_failed_get_leaves_the_doors_witness :
  door_at (snd (Doors_State.init Sample.doors_ini_later_room_first))
    "Room_1,1" "Room_2,1" = None
  /\ door_at (snd (Doors_State.get "Room_1,1" "Room_2,1"
                     (snd (Doors_State.init Sample.doors_ini_later_room_first))))
       "Room_2,1" "Room_1,1"
     = door_at (snd (Doors_State.init Sample.doors_ini_later_room_first))
         "Room_2,1" "Room_1,1".
Proof.
  split; [reflexivity |].
  apply (X14_failed_get_leaves_the_doors
           (snd (Doors_State.init Sample.doors_ini_later_room_first))
           "Room_1,1" "Room_2,1" eq_refl).
Defined.

(** ** Canonical pairs, loading and resolving doors *)

Section Canonical_pair_facts.

Implicit Types (a b : string).

Lemma sorted_pair_sym a b : sorted_pair a b = sorted_pair b a.
Proof.
  unfold sorted_pair, String.ltb.
  pose proof (String.compare_antisym a b) as Hanti.
  destruct (String.compare b a) eqn:E; rewrite Hanti; cbn; try reflexivity.
  apply String.compare_eq_iff in E. by subst.
Qed.

Lemma sorted_pair_cases a b :
  (sorted_pair a b = (a, b) /\ String.leb a b = true)
  \/ (sorted_pair a b = (b, a) /\ String.leb b a = true).
Proof.
  unfold sorted_pair, String.ltb, String.leb.
  pose proof (String.compare_antisym a b) as Hanti.
  destruct (String.compare b a) eqn:E; rewrite Hanti; cbn; auto.
Qed.

Lemma load_one_run (s : gmap string (gmap string Door.t)) (e : string * Door.argd) :
  Doors_State.load_one e s =
    match split (fst e) "_x_" with
    | [a; b] =>
        match Door.subclassing_factory (fst e) (snd e) with
        | Ok door => (Ok tt, <[a := <[b := door]> (default ∅ (s !! a))]> s)
        | Raise x => (Raise x, s)
        end
    | _ => (Raise ValueError, s)
    end.
Proof.
  unfold Doors_State.load_one.
  destruct (split (fst e) "_x_") as [| a [| b [| ? ?]]]; try reflexivity.
  unfold bind, lift_result.
  destruct (Door.subclassing_factory (fst e) (snd e)); [| reflexivity].
  unfold Doors_State.inner. run.
  destruct (s !! a); cbn; [reflexivity |]. by rewrite insert_insert_eq.
Qed.

(** What a run of the loading loop files under a pair of names. *)
Lemma load_door_at (l : list (string * Door.argd))
    (s s' : gmap string (gmap string Door.t)) (a b : string) :
  Doors_State.load l s = (Ok tt, s') ->
  door_at s' a b =
    match last_section l a b with
    | Some e =>
        match Door.subclassing_factory (fst e) (snd e) with
        | Ok door => Some door
        | Raise _ => None
        end
    | None => door_at s a b
    end.
Proof.
  revert s. induction l as [| e l IH]; intros s Hload; cbn in *.
  - unfold ret in Hload. by injection Hload as <-.
  - unfold bind in Hload. rewrite load_one_run in Hload.
    destruct (split (fst e) "_x_") as [| x [| y [| ? ?]]] eqn:Es; try discriminate.
    destruct (Door.subclassing_factory (fst e) (snd e)) as [door |] eqn:Ef;
      [| discriminate].
    rewrite (IH _ Hload).
    destruct (last_section l a b); [reflexivity |].
    rewrite door_at_set.
    destruct (decide ([x; y] = [a; b])) as [Heq | Hne].
    + injection Heq as -> ->. rewrite decide_True by done. by rewrite Ef.
    + rewrite decide_False; [done |]. intros [-> ->]. done.
Qed.

Lemma load_succeeds_iff (l : list (string * Door.argd))
    (s : gmap string (gmap string Door.t)) :
  fst (Doors_State.load l s) = Ok tt <-> Forall loadable l.
Proof.
  revert s. induction l as [| e l IH]; intros s; cbn.
  - split; [constructor | reflexivity].
  - unfold bind. rewrite load_one_run. unfold loadable at 1.
    destruct (split (fst e) "_x_") as [| x [| y [| ? ?]]] eqn:Es; cbn;
      try (split; [discriminate |]; intros H; inversion H as [| ? ? [[? [? Hs]] _] _];
           subst; unfold loadable in *; rewrite Es in Hs; discriminate).
    destruct (Door.subclassing_factory (fst e) (snd e)) as [door |] eqn:Ef; cbn.
    + rewrite IH. split.
      * intros H. constructor; [| exact H]. split; [eauto |]. rewrite Ef. eauto.
      * intros H. by inversion H.
    + split; [discriminate |]. intros H.
      inversion H as [| ? ? [_ [? Hf]] _]. subst. rewrite Ef in Hf. discriminate.
Qed.

Lemma copy_of_factory_door (name : string) (argd : Door.argd) (door : Door.t) :
  Door.subclassing_factory name argd = Ok door -> Door.copy door = door.
Proof.
  unfold Door.subclassing_factory.
  destruct (Door.arg_door_type argd) as [ty |]; [| discriminate].
  repeat match goal with
         | |- context [String.eqb ty ?x] => destruct (String.eqb ty x)
         end; intros [= <-]; reflexivity.
Qed.

Lemma resolve_door_run (internal_name compass_dir other : string)
    (s : gmap string (gmap string Door.t)) (door : Door.t) :
  door_at s (fst (Room.canonical_pair internal_name other))
            (snd (Room.canonical_pair internal_name other)) = Some door ->
  Room.resolve_door internal_name compass_dir other s
  = (Ok (Door.set_title (directional_title compass_dir (Door.copy door))
           (Door.copy door)), s).
Proof.
  intros H. unfold Room.resolve_door, bind. rewrite get_run.
  unfold door_at in H.
  destruct (s !! fst (Room.canonical_pair internal_name other)) as [d |];
    [| discriminate].
  rewrite H. unfold ret. do 2 f_equal. unfold directional_title.
  destruct (Door.title (Door.copy door)) as [ti |]; [| reflexivity].
  destruct (String.eqb_spec ti "doorway") as [-> | Hne]; [reflexivity |].
  f_equal.
  repeat (destruct ti as [| [[] [] [] [] [] [] [] []] ti]; try reflexivity);
    exfalso; apply Hne; reflexivity.
Qed.

End Canonical_pair_facts.

(** X15. The pair of keys a room computes for a door does not depend on
    which of the two rooms computes it: [canonical_pair a b] and
    [canonical_pair b a] are the same pair, made of [a] and [b].  When exactly
    one of the names is the exit marker (in any letter case) the marker is the
    second key; when neither is, the pair is in lexicographic order. *)
Theorem X15_canonical_pair (a b : string) :
  Room.canonical_pair a b = Room.canonical_pair b a
  /\ (Room.canonical_pair a b = (a, b) \/ Room.canonical_pair a b = (b, a))
  /\ (lower a = "exit" -> lower b <> "exit" -> Room.canonical_pair a b = (b, a))
  /\ (lower a <> "exit" -> lower b <> "exit" ->
      Room.canonical_pair a b = sorted_pair a b
      /\ String.leb (fst (Room.canonical_pair a b))
                    (snd (Room.canonical_pair a b)) = true).
Proof.
  unfold Room.canonical_pair. rewrite (sorted_pair_sym b a).
  split; [reflexivity |].
  destruct (sorted_pair_cases a b) as [[-> Hle] | [-> Hle]]; cbn [fst snd].
  - destruct (String.eqb_spec (lower a) "exit") as [Ea | Ea].
    + split; [by right |]. split; [done |]. intros; done.
    + split; [by left |]. split; [intros; done |]. intros _ _. done.
  - destruct (String.eqb_spec (lower b) "exit") as [Eb | Eb].
    + split; [by left |]. split; [intros; done |]. intros; done.
    + split; [by right |]. split; [done |]. intros _ _. done.
Qed.

(** X16. [Doors_State.__init__] succeeds exactly when every section has a
    name of two parts around the separator and a known door type.  The store
    it then builds holds, under a pair of names, the door of the last section
    whose name splits into these two names in this order, and no door under a
    pair that no section names. *)
Theorem X16_doors_store_holds_the_sections (l : list (string * Door.argd)) :
  (fst (Doors_State.init l) = Ok tt <-> Forall loadable l)
  /\ (fst (Doors_State.init l) = Ok tt ->
      forall a b,
        door_at (snd (Doors_State.init l)) a b =
          match last_section l a b with
          | Some e =>
              match Door.subclassing_factory (fst e) (snd e) with
              | Ok door => Some door
              | Raise _ => None
              end
          | None => None
          end).
Proof.
  unfold Doors_State.init. split; [apply load_succeeds_iff |].
  intros Hok a b.
  destruct (Doors_State.load l ∅) as [r s'] eqn:E. cbn in Hok. subst r.
  cbn [snd]. rewrite (load_door_at l ∅ s' a b E).
  destruct (last_section l a b); [reflexivity |].
  unfold door_at. by rewrite lookup_empty.
Qed.

(** X17. After a successful load, a door whose section names its two rooms
    in canonical order (sorted, exit marker last) is found by both rooms it
    joins: each gets its own copy of the door, titled with its compass
    direction followed by "doorway" when the door's title is "doorway" and by
    "door" otherwise, and equal to the stored door in every other attribute;
    the store is unchanged. *)
Theorem X17_rooms_resolve_canonically_named_doors
    (l : list (string * Door.argd)) (room other : string)
    (e : string * Door.argd) (dir dir' : string)
    (Hload : fst (Doors_State.init l) = Ok tt)
    (Hsection :
       last_section l (fst (Room.canonical_pair room other))
                      (snd (Room.canonical_pair room other)) = Some e) :
  exists door,
    Door.subclassing_factory (fst e) (snd e) = Ok door
    /\ Room.resolve_door room dir other (snd (Doors_State.init l))
       = (Ok (Door.set_title (directional_title dir door) door),
          snd (Doors_State.init l))
    /\ Room.resolve_door other dir' room (snd (Doors_State.init l))
       = (Ok (Door.set_title (directional_title dir' door) door),
          snd (Doors_State.init l)).
Proof.
  pose proof (proj1 (load_succeeds_iff l ∅) Hload) as Hall.
  assert (He : exists door, Door.subclassing_factory (fst e) (snd e) = Ok door).
  { clear Hload. revert Hsection.
    generalize (fst (Room.canonical_pair room other)),
               (snd (Room.canonical_pair room other)).
    intros a b. induction Hall as [| e0 l0 He0 Hl0 IH]; cbn; [discriminate |].
    destruct (last_section l0 a b) as [e1 |].
    - intros [= ->]. by apply IH.
    - destruct (decide (split (fst e0) "_x_" = [a; b])); [| discriminate].
      intros [= ->]. apply He0. }
  destruct He as [door Hdoor]. exists door. split; [exact Hdoor |].
  assert (Hat : door_at (snd (Doors_State.init l))
                  (fst (Room.canonical_pair room other))
                  (snd (Room.canonical_pair room other)) = Some door).
  { unfold Doors_State.init in *.
    destruct (Doors_State.load l ∅) as [r s'] eqn:E. cbn in Hload. subst r.
    cbn [snd]. rewrite (load_door_at l ∅ s' _ _ E). by rewrite Hsection, Hdoor. }
  pose proof (copy_of_factory_door _ _ _ Hdoor) as Hcopy.
  split.
  - rewrite (resolve_door_run _ _ _ _ door Hat). by rewrite Hcopy.
  - rewrite (resolve_door_run other dir' room _ door).
    + by rewrite Hcopy.
    + assert (Room.canonical_pair other room = Room.canonical_pair room other) as ->;
        [| exact Hat].
      unfold Room.canonical_pair. by rewrite (sorted_pair_sym other room).
Qed.

Lemma X17_rooms_resolve_canonically_named_doors_witness :
  let l := [("Room_1,1_x_Room_1,2", Sample.wooden_door_argd)] in
  fst (Doors_State.init l) = Ok tt
  /\ last_section l (fst (Room.canonical_pair "Room_1,2" "Room_1,1"))
                    (snd (Room.canonical_pair "Room_1,2" "Room_1,1"))
     = Some ("Room_1,1_x_Room_1,2", Sample.wooden_door_argd)
  /\ exists door,
       fst (Room.resolve_door "Room_1,2" "west" "Room_1,1" (snd (Doors_State.init l)))
       = Ok door
       /\ Door.title door = Some "west door".
Proof.
  cbv zeta. split; [reflexivity |]. split; [reflexivity |].
  destruct (X17_rooms_resolve_canonically_named_doors
              [("Room_1,1_x_Room_1,2", Sample.wooden_door_argd)]
              "Room_1,2" "Room_1,1"
              ("Room_1,1_x_Room_1,2", Sample.wooden_door_argd) "west" "east"
              eq_refl eq_refl) as (door & Hf & Hw & _).
  eexists. rewrite Hw. split; [reflexivity |].
  cbn in Hf. injection Hf as <-. reflexivity.
Defined.

Lemma remove_dups_two (a b : string) : a <> b -> remove_dups [a; b] = [a; b].
Proof.
  intros Hab. cbn.
  destruct (decide_rel elem_of a [b]) as [Hin | _].
  - apply list_elem_of_singleton in Hin. done.
  - destruct (decide_rel elem_of b []) as [Hin | _]; [| done].
    by apply not_elem_of_nil in Hin.
Qed.

Lemma remove_dups_twice (a : string) : remove_dups [a; a] = [a].
Proof.
  cbn.
  destruct (decide_rel elem_of a [a]) as [_ | Hout].
  - destruct (decide_rel elem_of a []) as [Hin | _]; [| done].
    by apply not_elem_of_nil in Hin.
  - exfalso. by apply Hout, list_elem_of_singleton.
Qed.

(** X18. A door built by the factory from a name that splits into two
    different room names leads from each of the two to the other, and refuses
    any other room name with an internal-consistency error; its [copy] is an
    equal door.  When the two parts of the name are the same room, the other
    room of that room is [None]. *)
Theorem X18_other_room_of_a_loaded_door (name a b : string)
    (argd : Door.argd) (door : Door.t)
    (Hsplit : split name "_x_" = [a; b])
    (Hfactory : Door.subclassing_factory name argd = Ok door) :
  Door.internal_name door = name
  /\ Door.copy door = door
  /\ (a <> b ->
      Door.other_room_internal_name door a = Ok (Some b)
      /\ Door.other_room_internal_name door b = Ok (Some a))
  /\ (a = b -> Door.other_room_internal_name door a = Ok None)
  /\ (forall r, r <> a -> r <> b ->
        Door.other_room_internal_name door r
        = Raise (Internal_Exception
                   ("room internal name " ++ r
                    ++ " not one of the two rooms linked by this door object"))).
Proof.
  pose proof (copy_of_factory_door _ _ _ Hfactory) as Hcopy.
  assert (Hdoor : Door.internal_name door = name
                  /\ Door._linked_rooms_internal_names door = remove_dups [a; b]).
  { revert Hfactory. unfold Door.subclassing_factory.
    destruct (Door.arg_door_type argd) as [ty |]; [| discriminate].
    repeat match goal with
           | |- context [String.eqb ty ?x] => destruct (String.eqb ty x)
           end; intros [= <-]; cbn; by rewrite Hsplit. }
  destruct Hdoor as [Hname Hlinked].
  split; [exact Hname |]. split; [exact Hcopy |].
  unfold Door.other_room_internal_name. rewrite Hlinked.
  split; [| split].
  - intros Hab.
    rewrite (remove_dups_two a b Hab).
    cbn. rewrite !String.eqb_refl.
    assert (String.eqb a b = false) as Eab by by apply String.eqb_neq.
    assert (String.eqb b a = false) as Eba by by apply String.eqb_neq.
    rewrite ?Eab, ?Eba. cbn. rewrite ?orb_true_r. by cbn.
  - intros <-.
    rewrite remove_dups_twice.
    cbn. by rewrite String.eqb_refl.
  - intros r Hra Hrb.
    assert (existsb (String.eqb r) (remove_dups [a; b]) = false) as ->; [| done].
    apply not_true_is_false. intros H. apply existsb_exists in H as [x [Hin Hx]].
    apply String.eqb_eq in Hx. subst x.
    apply list_elem_of_In in Hin. rewrite elem_of_remove_dups in Hin.
    apply elem_of_cons in Hin as [-> | Hin]; [done |].
    apply list_elem_of_singleton in Hin. done.
Qed.

Lemma X18_other_room_of_a_loaded_door_witness :
  split "Room_1,1_x_Room_1,2" "_x_" = ["Room_1,1"; "Room_1,2"]
  /\ exists door,
       Door.subclassing_factory "Room_1,1_x_Room_1,2" Sample.wooden_door_argd = Ok door
       /\ Door.other_room_internal_name door "Room_1,2" = Ok (Some "Room_1,1").
Proof.
  split; [reflexivity |]. eexists. split; [reflexivity |].
  refine (proj2 (proj1 (proj2 (proj2
            (X18_other_room_of_a_loaded_door "Room_1,1_x_Room_1,2"
               "Room_1,1" "Room_1,2" Sample.wooden_door_argd _ eq_refl eq_refl))) _)).
  discriminate.
Defined.

(** ** Quantities through [pick_up_item] and [drop_item] *)

(** X19. For a character whose inventory files every entry under its item's
    internal name, [pick_up_item(item, qty)] always succeeds and adds [qty] to
    the quantity held of the item, for every [qty] (1, 0 and negative numbers
    included); the quantities of all other names, the rest of the character
    and the filing invariant are kept. *)
Theorem X19_pick_up_item_adds_the_quantity (c : Character.t) (item : Item.t)
    (qty : Z)
    (Hkeyed : keyed_by_internal_name (Character.inventory c) = true) :
  let name := Item.internal_name item in
  let after := snd (Character.pick_up_item item qty c) in
  fst (Character.pick_up_item item qty c) = Ok tt
  /\ held_qty (Character.inventory after) name
     = held_qty (Character.inventory c) name + qty
  /\ (forall n, n <> name ->
        Character.inventory after !! n = Character.inventory c !! n)
  /\ after = Character.set_inventory (Character.inventory after) c
  /\ keyed_by_internal_name (Character.inventory after) = true.
Proof.
  cbv zeta. split; [| split; [| split; [| split]]].
  - rewrite pick_up_item_keyed by done.
    destruct (qty =? 1); [| done].
    by destruct (Character.inventory c !! Item.internal_name item) as [[h it]|].
  - rewrite pick_up_item_keyed by done. unfold held_qty.
    destruct (Z.eqb_spec qty 1) as [-> | Hq].
    + destruct (Character.inventory c !! Item.internal_name item) as [[h it]|];
        cbn; by rewrite lookup_insert_eq.
    + cbn. rewrite lookup_insert_eq.
      destruct (Character.inventory c !! Item.internal_name item) as [[h it]|]; lia.
  - intros n Hn. rewrite pick_up_item_keyed by done.
    destruct (qty =? 1);
      [destruct (Character.inventory c !! Item.internal_name item) as [[h it]|] |];
      cbn; by rewrite lookup_insert_ne.
  - rewrite pick_up_item_keyed by done.
    destruct (qty =? 1);
      [destruct (Character.inventory c !! Item.internal_name item) as [[h it]|] |];
      by destruct c.
  - by apply pick_up_item_keeps_keyed.
Qed.

Lemma X19_pick_up_item_adds_the_quantity_witness :
  keyed_by_internal_name (Character.inventory (Sample.hero Thief None None)) = true
  /\ held_qty (Character.inventory
                 (snd (Character.pick_up_item Sample.Gold_Coin (-5)
                         (Sample.hero Thief None None)))) "Gold_Coin"
     = 2 + -5.
Proof.
  split; [reflexivity |].
  apply (X19_pick_up_item_adds_the_quantity (Sample.hero Thief None None)
           Sample.Gold_Coin (-5) eq_refl).
Defined.

(** X20. Picking up a quantity of an item and dropping the same quantity
    again, provided the character then holds a quantity other than 0 of it,
    succeeds and gives back the held quantity of every name; when the item was
    not in the inventory before, the character is exactly as it was. *)
Theorem X20_pick_up_then_drop_restores (c : Character.t) (item : Item.t) (qty : Z)
    (Hkeyed : keyed_by_internal_name (Character.inventory c) = true)
    (Hheld : held_qty (Character.inventory c) (Item.internal_name item) + qty <> 0) :
  let picked := snd (Character.pick_up_item item qty c) in
  let dropped := Character.drop_item item qty picked in
  fst dropped = Ok tt
  /\ (forall n, held_qty (Character.inventory (snd dropped)) n
                = held_qty (Character.inventory c) n)
  /\ (Character.inventory c !! Item.internal_name item = None -> snd dropped = c).
Proof.
  cbv zeta.
  pose proof (pick_up_item_keeps_keyed c item qty Hkeyed) as Hk1.
  rewrite (drop_item_keyed _ item qty Hk1). revert Hk1.
  rewrite pick_up_item_keyed by done. cbv zeta.
  set (name := Item.internal_name item) in *.
  set (inv := Character.inventory c) in *.
  unfold held_qty in Hheld.
  assert (Hpicked : exists it',
             (if qty =? 1 then
                match inv !! name with
                | Some (h, it) =>
                    (Ok (), Character.set_inventory (<[name:=(h + 1, it)]> inv) c)
                | None => (Ok (), Character.set_inventory (<[name:=(1, item)]> inv) c)
                end
              else
                (Ok (),
                 Character.set_inventory
                   (<[name:=(qty + held_qty inv name, item)]> inv) c))
             = (Ok tt,
                Character.set_inventory
                  (<[name := (held_qty inv name + qty, it')]> inv) c)).
  { unfold held_qty. destruct (Z.eqb_spec qty 1) as [-> | Hq].
    - destruct (inv !! name) as [[h it]|]; eexists; reflexivity.
    - exists item. by rewrite (Z.add_comm qty). }
  destruct Hpicked as [it' ->]. intros _. cbn [snd Character.inventory
    Character.set_inventory]. rewrite lookup_insert_eq.
  unfold held_qty in *.
  destruct (inv !! name) as [[h it]|] eqn:E.
  - destruct (Z.eqb_spec (h + qty) 0); [lia |].
    destruct (Z.eqb_spec (h + qty) qty) as [Hz | Hz]; cbn.
    + split; [done |]. split; [| done]. intros k.
      destruct (decide (k = name)) as [-> | Hk].
      * rewrite lookup_delete_eq, E. lia.
      * rewrite lookup_delete_ne by done. by rewrite lookup_insert_ne.
    + split; [done |]. split; [| done]. intros k.
      destruct (decide (k = name)) as [-> | Hk].
      * rewrite lookup_insert_eq, E. lia.
      * rewrite lookup_insert_ne by done. by rewrite lookup_insert_ne.
  - destruct (Z.eqb_spec (0 + qty) 0); [lia |].
    destruct (Z.eqb_spec (0 + qty) qty); [| lia]. cbn.
    assert (delete name (<[name:=(0 + qty, it')]> inv) = inv) as ->.
    { rewrite delete_insert_eq. by apply delete_id. }
    split; [done |]. split; [done |]. intros _. by destruct c.
Qed.

Lemma X20_pick_up_then_drop_restores_witness :
  keyed_by_internal_name (Character.inventory (Sample.hero Thief None None)) = true
  /\ held_qty (Character.inventory (Sample.hero Thief None None)) "Short_Sword" + 3
     <> 0
  /\ snd (Character.drop_item Sample.Short_Sword 3
            (snd (Character.pick_up_item Sample.Short_Sword 3
                    (Sample.hero Thief None None))))
     = Sample.hero Thief None None.
Proof.
  split; [reflexivity |]. split; [by vm_compute |].
  apply (X20_pick_up_then_drop_restores (Sample.hero Thief None None)
           Sample.Short_Sword 3 eq_refl); [by vm_compute | reflexivity].
Defined.

(** ** Moving about *)

Section Move_invariant_facts.

Implicit Types (st : Rooms_State.t).

Lemma rooms_filed_lookup st k room :
  rooms_filed_by_name st = true ->
  Rooms_State._rooms_objs st !! k = Some room -> Room.internal_name room = k.
Proof.
  unfold rooms_filed_by_name. rewrite forallb_forall. intros H Hk.
  apply String.eqb_eq. apply (H (k, room)). apply list_elem_of_In.
  by apply elem_of_map_to_list.
Qed.

Lemma set_room_cursor_same st name :
  Rooms_State._room_cursor st = Some name ->
  Rooms_State.set_room_cursor name st = st.
Proof. destruct st as [rooms cur]. cbn. by intros ->. Qed.

(** The three outcomes of a move in one direction, for a valid cursor. *)
Lemma move_toward_outcome st name room d :
  Rooms_State._room_cursor st = Some name ->
  Rooms_State._rooms_objs st !! name = Some room ->
  (exists e, move_toward d st = (Raise e, st))
  \/ (exists other dest,
        Rooms_State._rooms_objs st !! other = Some dest
        /\ move_toward d st
           = (Ok tt, Rooms_State.set_room_cursor (Room.internal_name dest) st)).
Proof.
  intros Hc Hr. rewrite (move_toward_unfold st name room d Hc Hr).
  destruct (door_toward d room) as [door |]; [| eauto].
  destruct (flag (Door.is_locked door)); [eauto |].
  destruct (Door.other_room_internal_name door (Room.internal_name room))
    as [[other |] | e]; [| left | eauto].
  - unfold Rooms_State.rooms_objs_item. run.
    destruct (Rooms_State._rooms_objs st !! other) as [dest |] eqn:Eo; eauto 6.
  - unfold Rooms_State.rooms_objs_item. run. eauto.
Qed.

End Move_invariant_facts.

(** X21. In a room-graph store that files every room under its internal
    name and whose cursor designates a stored room, [move] with any four flags
    leaves the rooms untouched and the cursor designating a stored room; when
    it raises, the whole store is as it was. *)
Theorem X21_move_keeps_the_cursor_valid (st : Rooms_State.t)
    (north west south east : bool)
    (Hfiled : rooms_filed_by_name st = true)
    (Hcursor : cursor_designates_room st = true) :
  let outcome := Rooms_State.move north west south east st in
  Rooms_State._rooms_objs (snd outcome) = Rooms_State._rooms_objs st
  /\ cursor_designates_room (snd outcome) = true
  /\ (forall e, fst outcome = Raise e -> snd outcome = st).
Proof.
  cbv zeta. unfold cursor_designates_room in Hcursor.
  destruct (Rooms_State._room_cursor st) as [name |] eqn:Hc; [| discriminate].
  destruct (Rooms_State._rooms_objs st !! name) as [room |] eqn:Hr; [| discriminate].
  assert (Hkeep : cursor_designates_room st = true).
  { unfold cursor_designates_room. by rewrite Hc, Hr. }
  assert (Hdir : forall d,
    Rooms_State._rooms_objs (snd (move_toward d st)) = Rooms_State._rooms_objs st
    /\ cursor_designates_room (snd (move_toward d st)) = true
    /\ (forall e, fst (move_toward d st) = Raise e -> snd (move_toward d st) = st)).
  { intros d.
    destruct (move_toward_outcome st name room d Hc Hr)
      as [[e ->] | (other & dest & Ho & ->)]; cbn [fst snd].
    - done.
    - split; [reflexivity |]. split; [| discriminate].
      unfold cursor_designates_room. cbn.
      rewrite (rooms_filed_lookup st other dest Hfiled Ho). by rewrite Ho. }
  destruct north, west, south, east;
    first [ exact (Hdir North) | exact (Hdir West) | exact (Hdir South)
          | exact (Hdir East) | idtac ];
    unfold Rooms_State.move; cbn; unfold bind, raise;
    rewrite ?(cursor_found st name room Hc Hr); cbn; done.
Qed.

Lemma X21_move_keeps_the_cursor_valid_witness :
  rooms_filed_by_name Sample.two_rooms = true
  /\ cursor_designates_room Sample.two_rooms = true
  /\ cursor_designates_room
       (snd (Rooms_State.move false false false true Sample.two_rooms)) = true.
Proof.
  split; [reflexivity |]. split; [reflexivity |].
  apply (X21_move_keeps_the_cursor_valid Sample.two_rooms false false false true
           eq_refl eq_refl).
Defined.

(** X22. There and back: when the cursor room [a] has an unlocked door in
    direction [d] leading to the stored room [b], and [b] has an unlocked door
    in direction [d'] leading back to [a], both rooms being filed under their
    internal names, then the move toward [d] puts the cursor on [b] and the
    move toward [d'] after it gives back the store as it was. *)
Theorem X22_move_there_and_back (st : Rooms_State.t) (a b : string)
    (room_a room_b : Room.t) (d d' : compass) (door_a door_b : Door.t)
    (Hcursor : Rooms_State._room_cursor st = Some a)
    (Ha : Rooms_State._rooms_objs st !! a = Some room_a)
    (Hb : Rooms_State._rooms_objs st !! b = Some room_b)
    (Hname_a : Room.internal_name room_a = a)
    (Hname_b : Room.internal_name room_b = b)
    (Hdoor_a : door_toward d room_a = Some door_a)
    (Hdoor_b : door_toward d' room_b = Some door_b)
    (Hopen_a : flag (Door.is_locked door_a) = false)
    (Hopen_b : flag (Door.is_locked door_b) = false)
    (Hleads_a : Door.other_room_internal_name door_a a = Ok (Some b))
    (Hleads_b : Door.other_room_internal_name door_b b = Ok (Some a)) :
  move_toward d st = (Ok tt, Rooms_State.set_room_cursor b st)
  /\ move_toward d' (Rooms_State.set_room_cursor b st) = (Ok tt, st).
Proof.
  split.
  - rewrite (move_toward_unfold st a room_a d Hcursor Ha).
    rewrite Hdoor_a, Hopen_a, Hname_a, Hleads_a.
    unfold Rooms_State.rooms_objs_item. run. by rewrite Hb, Hname_b.
  - rewrite (move_toward_unfold (Rooms_State.set_room_cursor b st) b room_b d');
      [| reflexivity | exact Hb].
    rewrite Hdoor_b, Hopen_b, Hname_b, Hleads_b.
    unfold Rooms_State.rooms_objs_item. run. rewrite Ha, Hname_a.
    f_equal. destruct st as [rooms cur]. cbn in *. by rewrite Hcursor.
Qed.

Lemma X22_move_there_and_back_witness :
  Rooms_State._room_cursor Sample.two_rooms = Some "Room_1,1"
  /\ door_toward East Sample.Room_1_1 = Some Sample.east_door_of_Room_1_1
  /\ Door.other_room_internal_name Sample.west_door_of_Room_1_2 "Room_1,2"
     = Ok (Some "Room_1,1")
  /\ Rooms_State.move false true false false
       (snd (Rooms_State.move false false false true Sample.two_rooms))
     = (Ok tt, Sample.two_rooms).
Proof.
  split; [reflexivity |]. split; [reflexivity |]. split; [reflexivity |].
  destruct (X22_move_there_and_back Sample.two_rooms "Room_1,1" "Room_1,2"
              Sample.Room_1_1
              (Room.mk "Room_1,2" (Some "Southeast dungeon room")
                 (Some "Nondescript room") None (Some Sample.west_door_of_Room_1_2)
                 None None None None)
              East West Sample.east_door_of_Room_1_1 Sample.west_door_of_Room_1_2
              eq_refl eq_refl eq_refl eq_refl eq_refl eq_refl eq_refl eq_refl
              eq_refl eq_refl eq_refl) as [Hthere Hback].
  change (Rooms_State.move false false false true Sample.two_rooms)
    with (move_toward East Sample.two_rooms).
  rewrite Hthere. exact Hback.
Defined.

(** ** Filling a container *)

Section Container_facts.

Implicit Types (k : Container.t) (items : list (Z * Item.t)).

(** The loop of [Container.__init__] never raises; it files each item under
    its own internal name, one after the other. *)
Lemma for_each_fill items k :
  for_each items
    (fun qi : Z * Item.t =>
       Container.set (Item.internal_name (snd qi)) (fst qi) (snd qi)) k
  = (Ok tt,
     Container.set_contents
       (fold_left (fun acc qi => <[Item.internal_name (snd qi) := qi]> acc) items
          (Container._contents k))
       k).
Proof.
  revert k. induction items as [| [q it] items IH]; intros k; cbn.
  - by rewrite set_contents_same.
  - unfold bind, Container.set, Container.as_items_state, on_field,
      Items_Multi_State.set, modify_self. cbn.
    rewrite IH. by destruct k.
Qed.

Lemma fill_keyed items (acc : gmap string (Z * Item.t)) :
  keyed_by_internal_name acc = true ->
  keyed_by_internal_name
    (fold_left (fun acc qi => <[Item.internal_name (snd qi) := qi]> acc) items acc)
  = true.
Proof.
  revert acc. induction items as [| [q it] items IH]; intros acc H; cbn; [done |].
  apply IH. by apply (keyed_insert acc it q).
Qed.

Lemma lookup_items_fill (items_state : gmap string Item.t)
    (pairs : list (Z * string)) items (acc : gmap string (Z * Item.t)) (n : string) :
  Container.lookup_items items_state pairs = Ok items ->
  fold_left (fun acc qi => <[Item.internal_name (snd qi) := qi]> acc) items acc !! n
  = match last_listed items_state pairs n with
    | Some v => Some v
    | None => acc !! n
    end.
Proof.
  revert items acc. induction pairs as [| [q listed] pairs IH]; intros items acc; cbn.
  - by intros [= <-].
  - destruct (items_state !! listed) as [it |] eqn:El; [| discriminate].
    destruct (Container.lookup_items items_state pairs) as [rest |] eqn:Er;
      [| discriminate].
    intros [= <-]. cbn. rewrite (IH rest _ eq_refl).
    destruct (last_listed items_state pairs n); [reflexivity |].
    destruct (String.eqb_spec (Item.internal_name it) n) as [<- | Hne].
    + by rewrite lookup_insert_eq.
    + by rewrite lookup_insert_ne.
Qed.

Lemma lookup_items_raises (items_state : gmap string Item.t)
    (pairs : list (Z * string)) e :
  Container.lookup_items items_state pairs = Raise e ->
  exists q listed,
    In (q, listed) pairs /\ items_state !! listed = None
    /\ e = KeyError (KStr listed).
Proof.
  induction pairs as [| [q listed] pairs IH]; cbn; [discriminate |].
  destruct (items_state !! listed) as [it |] eqn:El.
  - destruct (Container.lookup_items items_state pairs) as [rest |];
      [discriminate |].
    intros [= <-]. destruct (IH eq_refl) as (q' & l' & Hin & Hl & He). eauto 8.
  - intros [= <-]. eauto 8.
Qed.

End Container_facts.

(** X23. [Container.__init__] with a contents list either raises [KeyError]
    for a listed name that the items store does not have, or builds a
    container of the given class and internal name whose contents file every
    item under the item's own internal name and hold, for each name, the
    quantity and item of the last pair listed for it: a name listed twice
    keeps the later quantity, the quantities are not added.  Without a
    contents list the container is empty. *)
Theorem X23_container_contents (class : Container.cls)
    (items_state : gmap string Item.t) (internal_name : string)
    (pairs : list (Z * string)) (a : Container.argd) :
  match Container.init class items_state internal_name (Some pairs) a with
  | Ok k =>
      Container.container_class k = class
      /\ Container.internal_name k = internal_name
      /\ keyed_by_internal_name (Container._contents k) = true
      /\ (forall n, Container._contents k !! n = last_listed items_state pairs n)
  | Raise e =>
      exists q listed,
        In (q, listed) pairs /\ items_state !! listed = None
        /\ e = KeyError (KStr listed)
  end
  /\ exists empty_one,
       Container.init class items_state internal_name None a = Ok empty_one
       /\ Container._contents empty_one = ∅.
Proof.
  split; [| eexists; split; reflexivity].
  unfold Container.init.
  destruct (Container.lookup_items items_state pairs) as [items | e] eqn:El.
  - rewrite for_each_fill. cbn.
    split; [reflexivity |]. split; [reflexivity |]. split.
    + by apply fill_keyed.
    + intros n. rewrite (lookup_items_fill items_state pairs items _ n El).
      destruct (last_listed items_state pairs n); [reflexivity |].
      apply lookup_empty.
  - by apply lookup_items_raises.
Qed.

(** ** Rolling the ability scores *)

Section Roll_stats_facts.

Lemma sum_left (l : list Z) (acc : Z) :
  fold_left Z.add l acc = acc + fold_right Z.add 0 l.
Proof.
  revert acc. induction l as [| x l IH]; intros acc; cbn; [lia |].
  rewrite IH. lia.
Qed.

Lemma sum_Permutation (l l' : list Z) :
  l ≡ₚ l' -> fold_right Z.add 0 l = fold_right Z.add 0 l'.
Proof. induction 1; cbn; lia. Qed.

Lemma sorted_Permutation (l : list Z) : Ability_Scores.sorted l ≡ₚ l.
Proof. apply merge_sort_Permutation. Qed.

Lemma sorted_StronglySorted (l : list Z) :
  StronglySorted Z.le (Ability_Scores.sorted l).
Proof. apply StronglySorted_merge_sort; apply _. Qed.

(** Four values sorted: the first is their minimum, and the four sorted
    values have the total of the four given. *)
Lemma sorted_four (x0 x1 x2 x3 : Z) :
  exists m b c d,
    Ability_Scores.sorted [x0; x1; x2; x3] = [m; b; c; d]
    /\ m = Z.min (Z.min x0 x1) (Z.min x2 x3)
    /\ m + b + c + d = x0 + x1 + x2 + x3.
Proof.
  pose proof (sorted_Permutation [x0; x1; x2; x3]) as Hp.
  pose proof (sorted_StronglySorted [x0; x1; x2; x3]) as Hs.
  pose proof (Permutation_length Hp) as Hlen.
  destruct (Ability_Scores.sorted [x0; x1; x2; x3])
    as [| m [| b [| c [| d [| ? ?]]]]]; try discriminate.
  exists m, b, c, d. split; [reflexivity |].
  pose proof (sum_Permutation _ _ Hp) as Hsum. cbn in Hsum.
  apply StronglySorted_inv in Hs as [_ Hm].
  assert (Hin : forall x, x ∈ [x0; x1; x2; x3] -> m <= x).
  { intros x Hx. rewrite <- Hp in Hx.
    apply elem_of_cons in Hx as [-> | Hx]; [lia |].
    rewrite Forall_forall in Hm. by apply Hm. }
  assert (Hm_in : m ∈ [x0; x1; x2; x3]) by (rewrite <- Hp; apply list_elem_of_here).
  assert (H0 : m <= x0) by (apply Hin; rewrite !elem_of_cons; auto 6).
  assert (H1 : m <= x1) by (apply Hin; rewrite !elem_of_cons; auto 6).
  assert (H2 : m <= x2) by (apply Hin; rewrite !elem_of_cons; auto 6).
  assert (H3 : m <= x3) by (apply Hin; rewrite !elem_of_cons; auto 6).
  repeat (apply elem_of_cons in Hm_in as [Hm_in | Hm_in]);
    try (by apply elem_of_nil in Hm_in); split; lia.
Qed.

Lemma four_d6_drop_lowest_value (rng : nat -> Z) (pos : nat) :
  Ability_Scores.four_d6_drop_lowest rng pos
  = rng pos + rng (pos + 1)%nat + rng (pos + 2)%nat + rng (pos + 3)%nat
    - Z.min (Z.min (rng pos) (rng (pos + 1)%nat))
            (Z.min (rng (pos + 2)%nat) (rng (pos + 3)%nat)).
Proof.
  unfold Ability_Scores.four_d6_drop_lowest. cbn [map seq].
  rewrite Nat.add_0_r.
  destruct (sorted_four (rng pos) (rng (pos + 1)%nat) (rng (pos + 2)%nat)
              (rng (pos + 3)%nat)) as (m & b & c & d & -> & Hm & Hsum).
  cbn. lia.
Qed.

Lemma four_d6_drop_lowest_range (rng : nat -> Z) (pos : nat) :
  dice_in_range rng pos 4 ->
  3 <= Ability_Scores.four_d6_drop_lowest rng pos <= 18.
Proof.
  intros H. rewrite four_d6_drop_lowest_value.
  pose proof (H 0%nat ltac:(lia)) as H0. rewrite Nat.add_0_r in H0.
  pose proof (H 1%nat ltac:(lia)). pose proof (H 2%nat ltac:(lia)).
  pose proof (H 3%nat ltac:(lia)). lia.
Qed.

End Roll_stats_facts.

(** X24. One generated ability score is the total of four consecutive die
    rolls less the lowest of them; with rolls between 1 and 6 it lies between
    3 and 18. *)
Theorem X24_four_dice_drop_the_lowest (rng : nat -> Z) (pos : nat) :
  Ability_Scores.four_d6_drop_lowest rng pos
  = rng pos + rng (pos + 1)%nat + rng (pos + 2)%nat + rng (pos + 3)%nat
    - Z.min (Z.min (rng pos) (rng (pos + 1)%nat))
            (Z.min (rng (pos + 2)%nat) (rng (pos + 3)%nat))
  /\ (dice_in_range rng pos 4 ->
      3 <= Ability_Scores.four_d6_drop_lowest rng pos <= 18).
Proof.
  split; [apply four_d6_drop_lowest_value | apply four_d6_drop_lowest_range].
Qed.

Section Roll_stats_order_facts.

(** Six values sorted and reversed: a descending list of six values. *)
Lemma sorted_six_reversed (l : list Z) :
  List.length l = 6%nat ->
  exists r0 r1 r2 r3 r4 r5,
    rev (Ability_Scores.sorted l) = [r0; r1; r2; r3; r4; r5]
    /\ r0 >= r1 /\ r1 >= r2 /\ r2 >= r3 /\ r3 >= r4 /\ r4 >= r5
    /\ [r0; r1; r2; r3; r4; r5] ≡ₚ l.
Proof.
  intros Hlen.
  pose proof (sorted_Permutation l) as Hp.
  pose proof (sorted_StronglySorted l) as Hs.
  pose proof (Permutation_length Hp) as Hl. rewrite Hlen in Hl.
  destruct (Ability_Scores.sorted l)
    as [| s0 [| s1 [| s2 [| s3 [| s4 [| s5 [| ? ?]]]]]]]; try discriminate.
  exists s5, s4, s3, s2, s1, s0. split; [reflexivity |].
  repeat match goal with
         | H : StronglySorted _ (_ :: _) |- _ =>
             apply StronglySorted_inv in H as [H ?]
         | H : Forall _ (_ :: _) |- _ => apply Forall_cons in H as [? H]
         end.
  repeat split; try lia.
  rewrite <- Hp. apply (Permutation_rev [s5; s4; s3; s2; s1; s0]).
Qed.

(** [roll_stats] in closed form: the scores in the order of the class's
    priorities are the six sums in descending order. *)
Lemma roll_stats_in_priority_order (rng : nat -> Z) (pos : nat)
    (self : Ability_Scores.t) :
  let rolled := Ability_Scores.roll_stats rng pos self in
  exists rs,
    map (Ability_Scores.score (fst rolled))
        (Ability_Scores.weightings (Ability_Scores.character_class self))
    = map Some rs
    /\ rs ≡ₚ six_sums rng pos
    /\ StronglySorted Z.ge rs
    /\ scores_of (fst rolled) ≡ₚ rs
    /\ Ability_Scores.character_class (fst rolled)
       = Ability_Scores.character_class self
    /\ snd rolled = (pos + 24)%nat.
Proof.
  cbv zeta. unfold Ability_Scores.roll_stats. fold (six_sums rng pos).
  destruct (sorted_six_reversed (six_sums rng pos) eq_refl)
    as (r0 & r1 & r2 & r3 & r4 & r5 & -> & H01 & H12 & H23 & H34 & H45 & Hp).
  exists [r0; r1; r2; r3; r4; r5].
  split; [| split; [exact Hp | split; [| split; [| split]]]].
  - destruct self as [a b c d e f []]; reflexivity.
  - repeat constructor; lia.
  - destruct self as [a b c d e f []]; cbn.
    + (* Warrior *)
      apply (Permutation_trans (l' := [r0; r1; r2; r3; r5; r4]));
        [| repeat apply perm_skip; apply perm_swap].
      apply perm_skip.
      apply (Permutation_trans (perm_swap r1 r2 _)). apply perm_skip, perm_skip.
      reflexivity.
    + (* Thief *)
      change [r3; r0; r1; r5; r4; r2] with ([r3] ++ [r0; r1; r5; r4; r2]).
      solve_Permutation.
    + (* Priest *)
      solve_Permutation.
    + (* Mage *)
      solve_Permutation.
  - by destruct self as [a b c d e f []].
  - reflexivity.
Qed.

End Roll_stats_order_facts.

Section Rolled_scores_facts.

Lemma six_sums_in_range (rng : nat -> Z) (pos : nat) :
  dice_in_range rng pos 24 ->
  Forall (fun v => 3 <= v <= 18) (six_sums rng pos).
Proof.
  intros H. unfold six_sums. apply Forall_forall. intros v Hv.
  apply list_elem_of_fmap in Hv as (k & -> & Hk).
  apply elem_of_seq in Hk. apply four_d6_drop_lowest_range.
  intros i Hi. rewrite <- Nat.add_assoc. apply H. lia.
Qed.

Lemma rolled_scores_in_range (rng : nat -> Z) (pos : nat) (self : Ability_Scores.t) :
  dice_in_range rng pos 24 ->
  Forall (fun v => 3 <= v <= 18)
    (scores_of (fst (Ability_Scores.roll_stats rng pos self))).
Proof.
  intros H.
  destruct (roll_stats_in_priority_order rng pos self)
    as (rs & _ & Hp & _ & Hs & _).
  rewrite Hs, Hp. by apply six_sums_in_range.
Qed.

End Rolled_scores_facts.

(** X25. [roll_stats] advances the generator by 24 rolls and leaves the six
    scores, read in the order of the class's priorities, equal to the six
    generated sums in descending order: the first priority of the class gets
    the highest sum and the last priority the lowest, for each of the four
    classes.  With rolls between 1 and 6 every score lies between 3 and 18. *)
Theorem X25_roll_stats_assigns_by_priority (rng : nat -> Z) (pos : nat)
    (self : Ability_Scores.t) :
  let rolled := Ability_Scores.roll_stats rng pos self in
  snd rolled = (pos + 24)%nat
  /\ (exists rs,
        map (Ability_Scores.score (fst rolled))
            (Ability_Scores.weightings (Ability_Scores.character_class self))
        = map Some rs
        /\ rs ≡ₚ six_sums rng pos
        /\ StronglySorted Z.ge rs)
  /\ (dice_in_range rng pos 24 ->
      Forall (fun v => 3 <= v <= 18) (scores_of (fst rolled))).
Proof.
  cbv zeta. split; [reflexivity |]. split.
  - destruct (roll_stats_in_priority_order rng pos self)
      as (rs & Hm & Hp & Hs & _). eauto.
  - apply rolled_scores_in_range.
Qed.

(** ** Building a character *)

Section Character_init_facts.

Local Arguments Character.bonus_mana_points_item : simpl never.

(** The set-up of hit points and mana points touches nothing else. *)
Lemma set_up_frame (c : Character.t) (base_hit_points base_mana_points : Z)
    (arg : option string) :
  let after :=
    snd (Character._set_up_hit_points_and_mana_points base_hit_points
           base_mana_points arg c) in
  Character.character_name after = Character.character_name c
  /\ Character.character_class after = Character.character_class c
  /\ Character.ability_scores after = Character.ability_scores c
  /\ Character.inventory after = Character.inventory c
  /\ Character._equipment after = Character._equipment c.
Proof.
  cbv zeta. unfold Character._set_up_hit_points_and_mana_points,
    bind, get_self, lift_result, modify_self, ret, raise,
    Character.getattr_mod, Ability_Scores.constitution_mod.
  cbn [Ability_Scores._stat_mod Ability_Scores.score String.eqb Ascii.eqb
       fst snd Bool.eqb].
  destruct (Character.character_class c) eqn:Ec;
    destruct (base_hit_points =? 0); cbn [negb Character.class_lookup
      Character._hitpoint_base Character_class_eqb fst snd];
    destruct arg as [mks |];
    repeat match goal with
           | |- context [String.eqb mks ?x] =>
               destruct (String.eqb_spec mks x); [subst mks |]
           end;
    cbn [negb orb fst snd];
    rewrite ?getattr_mod_wisdom, ?getattr_mod_intelligence, ?getattr_mod_charisma;
    cbn [Character.ability_scores Character.set_magic_key_stat
         Character.set_hit_points Character.magic_key_stat fst snd];
    rewrite ?getattr_mod_wisdom, ?getattr_mod_intelligence, ?getattr_mod_charisma;
    try rewrite Ec;
    repeat match goal with
           | |- context [if negb ?b then _ else _] => destruct b; cbn [negb]
           | |- context [match Character.bonus_mana_points_item ?m with _ => _ end] =>
               destruct (Character.bonus_mana_points_item m)
           end;
    cbn; try rewrite Ec; cbn;
    repeat match goal with
           | |- context [match Character.bonus_mana_points_item ?m with _ => _ end] =>
               destruct (Character.bonus_mana_points_item m)
           end;
    cbn; rewrite ?Ec; repeat split; reflexivity.
Qed.

Lemma bonus_in_table (m : Z) :
  -4 <= m <= 4 ->
  exists b, Character.bonus_mana_points_item m = Ok b /\ 0 <= b <= 16.
Proof.
  intros H. unfold Character.bonus_mana_points_item.
  rewrite bonus_mana_points_table. unfold mana_bonus_table.
  destruct (Z.leb_spec (-4) m); [| lia].
  destruct (Z.leb_spec m 0); cbn [andb]; [eexists; split; [reflexivity | lia] |].
  repeat match goal with
         | |- context [m =? ?k] =>
             destruct (Z.eqb_spec m k); [eexists; split; [reflexivity | lia] |]
         end.
  lia.
Qed.

(** The set-up with every argument at its default, on scores between 3 and
    18: it succeeds, with positive hit points. *)
Lemma set_up_default (name : string) (class : Character_class)
    (scores : Ability_Scores.t) :
  Forall (fun v => 3 <= v <= 18) (scores_of scores) ->
  exists c,
    Character._set_up_hit_points_and_mana_points 0 0 None
      (Character.mk name class "" 0 0 0 0 scores Items_Multi_State.empty
         (Equipment.init class))
    = (Ok tt, c)
    /\ Character._current_hit_points c = Character._hit_point_maximum c
    /\ Character._current_mana_points c = Character._mana_point_maximum c
    /\ 0 < Character._current_hit_points c
    /\ 0 <= Character._current_mana_points c
    /\ (class = Warrior \/ class = Thief -> Character._current_mana_points c = 0).
Proof.
  intros H. unfold scores_of in H.
  repeat match goal with
         | H : Forall _ (_ :: _) |- _ => apply Forall_cons in H as [? H]
         end.
  assert (Hcon : -4 <= (Ability_Scores.constitution scores - 10) / 2 <= 4).
  { split; [apply Z.div_le_lower_bound | apply Z.div_le_upper_bound]; lia. }
  assert (Hint : -4 <= (Ability_Scores.intelligence scores - 10) / 2 <= 4).
  { split; [apply Z.div_le_lower_bound | apply Z.div_le_upper_bound]; lia. }
  assert (Hwis : -4 <= (Ability_Scores.wisdom scores - 10) / 2 <= 4).
  { split; [apply Z.div_le_lower_bound | apply Z.div_le_upper_bound]; lia. }
  destruct (bonus_in_table _ Hint) as (bi & Hbi & Hbi').
  destruct (bonus_in_table _ Hwis) as (bw & Hbw & Hbw').
  unfold Character._set_up_hit_points_and_mana_points,
    bind, get_self, lift_result, modify_self, ret, raise,
    Character.getattr_mod, Ability_Scores.constitution_mod.
  destruct class; cbn;
    rewrite ?getattr_mod_wisdom, ?getattr_mod_intelligence; cbn;
    rewrite ?Hbi, ?Hbw; cbn;
    eexists; (split; [reflexivity |]); cbn;
    repeat split; try reflexivity; try lia;
    try (intros [? | ?]; discriminate).
Qed.

(** [Character(name, class)] with rolled scores. *)
Lemma init_default_rolls (rng : nat -> Z) (pos : nat)
    (name class_str : string) (class : Character_class) :
  Character.class_of_str class_str = Some class ->
  dice_in_range rng pos 24 ->
  exists c,
    Character.init_default rng pos name class_str = (Ok c, (pos + 24)%nat)
    /\ Character.character_name c = name
    /\ Character.character_class c = class
    /\ Character.ability_scores c
       = fst (Ability_Scores.roll_stats rng pos (Ability_Scores.init class))
    /\ Character.inventory c = Items_Multi_State.empty
    /\ Character._equipment c = Equipment.init class
    /\ Character._current_hit_points c = Character._hit_point_maximum c
    /\ Character._current_mana_points c = Character._mana_point_maximum c
    /\ 0 < Character._current_hit_points c
    /\ 0 <= Character._current_mana_points c
    /\ (class = Warrior \/ class = Thief -> Character._current_mana_points c = 0).
Proof.
  intros Hclass Hdice.
  unfold Character.init_default, Character.init. rewrite Hclass.
  unfold Character._set_up_ability_scores. cbn [forallb existsb Z.eqb negb andb orb].
  cbv zeta.
  pose proof (rolled_scores_in_range rng pos (Ability_Scores.init class) Hdice)
    as Hrange.
  assert (Hpos : snd (Ability_Scores.roll_stats rng pos (Ability_Scores.init class))
                 = (pos + 24)%nat) by reflexivity.
  rewrite Hpos. clear Hpos.
  generalize dependent
    (fst (Ability_Scores.roll_stats rng pos (Ability_Scores.init class))).
  intros scores Hrange.
  destruct (set_up_default name class scores Hrange)
    as (c & Hc & Hhp & Hmp & Halive & Hmana & Hnon).
  pose proof (set_up_frame
                (Character.mk name class "" 0 0 0 0 scores Items_Multi_State.empty
                   (Equipment.init class)) 0 0 None) as Hframe.
  cbv zeta in Hframe. rewrite Hc in Hframe.
  cbn [snd Character.character_name Character.character_class
       Character.ability_scores Character.inventory Character._equipment]
    in Hframe.
  destruct Hframe as (Hn & Hcl & Hsc & Hinv & Heq).
  rewrite Hc. exists c. repeat split; assumption.
Qed.

End Character_init_facts.

(** X26. [Character.__init__] checks its arguments before any die is rolled.
    A class text that is none of the four raises [Internal_Exception] and
    leaves the generator where it was; so do ability scores some of which,
    but not all, are zero.  With six non-zero scores the generator is not
    used, and a character that is built carries exactly the scores given; only
    with six zero scores and a valid class is the generator advanced, by the
    24 rolls of [roll_stats]. *)
Theorem X26_character_arguments_are_checked (rng : nat -> Z) (pos : nat)
    (name class_str : string) (base_hit_points base_mana_points : Z)
    (magic_key_stat_arg : option string)
    (strength dexterity constitution intelligence wisdom charisma : Z) :
  let given :=
    [strength; dexterity; constitution; intelligence; wisdom; charisma] in
  let built :=
    Character.init rng pos name class_str base_hit_points base_mana_points
      magic_key_stat_arg strength dexterity constitution intelligence wisdom
      charisma in
  (Character.class_of_str class_str = None ->
   exists msg, built = (Raise (Internal_Exception msg), pos))
  /\ (Exists (fun v => v <> 0) given -> Exists (fun v => v = 0) given ->
      exists msg, built = (Raise (Internal_Exception msg), pos))
  /\ (Forall (fun v => v <> 0) given ->
      snd built = pos
      /\ forall self, fst built = Ok self ->
           scores_of (Character.ability_scores self) = given
           /\ Character.character_name self = name
           /\ Character.class_of_str class_str
              = Some (Character.character_class self))
  /\ (Forall (fun v => v = 0) given ->
      is_Some (Character.class_of_str class_str) ->
      snd built = (pos + 24)%nat).
Proof.
  cbv zeta. unfold Character.init.
  split; [| split; [| split]].
  - intros ->. eauto.
  - intros Hsome Hzero.
    destruct (Character.class_of_str class_str) as [class |]; [| eauto].
    unfold Character._set_up_ability_scores.
    rewrite !Exists_cons, Exists_nil in Hsome, Hzero.
    cbn [forallb existsb].
    destruct (Z.eqb_spec strength 0), (Z.eqb_spec dexterity 0),
      (Z.eqb_spec constitution 0), (Z.eqb_spec intelligence 0),
      (Z.eqb_spec wisdom 0), (Z.eqb_spec charisma 0);
      cbn [negb andb orb]; eauto; exfalso; tauto.
  - intros Hall.
    repeat match goal with
           | H : Forall _ (_ :: _) |- _ => apply Forall_cons in H as [? H]
           end.
    destruct (Character.class_of_str class_str) as [class |];
      [| split; [reflexivity | discriminate]].
    unfold Character._set_up_ability_scores. cbn [forallb].
    repeat match goal with
           | H : ?v <> 0 |- _ =>
               apply Z.eqb_neq in H; rewrite H; clear H
           end.
    cbn [negb andb Ability_Scores.character_class Ability_Scores.init].
    pose proof (set_up_frame
                  (Character.mk name class "" 0 0 0 0
                     (Ability_Scores.mk strength dexterity constitution
                        intelligence wisdom charisma class)
                     Items_Multi_State.empty (Equipment.init class))
                  base_hit_points base_mana_points magic_key_stat_arg)
      as Hframe.
    cbv zeta in Hframe.
    destruct (Character._set_up_hit_points_and_mana_points _ _ _ _)
      as [[[] | e] after]; (split; [reflexivity |]); [| discriminate].
    cbn [snd Character.character_name Character.character_class
         Character.ability_scores] in Hframe.
    destruct Hframe as (Hn & Hc & Hs & _).
    intros self [= <-]. rewrite Hs, Hn, Hc. by repeat split.
  - intros Hall [class ->].
    repeat match goal with
           | H : Forall _ (_ :: _) |- _ => apply Forall_cons in H as [? H]
           end.
    subst. unfold Character._set_up_ability_scores.
    cbn [forallb existsb Z.eqb negb andb orb]. cbv zeta.
    assert (Hpos : snd (Ability_Scores.roll_stats rng pos (Ability_Scores.init class))
                   = (pos + 24)%nat) by reflexivity.
    rewrite Hpos. clear Hpos.
    generalize (fst (Ability_Scores.roll_stats rng pos (Ability_Scores.init class))).
    intros scores.
    by destruct (Character._set_up_hit_points_and_mana_points _ _ _ _)
      as [[[] | e] after].
Qed.

(** X27. [Character(name, class)] with one of the four classes and every
    other argument at its default always succeeds when the 24 die rolls are
    between 1 and 6: the generator is advanced by 24, the character has the
    name and the class given, the rolled scores, an empty inventory and
    nothing equipped, its hit points are at their maximum and positive, its
    mana points are at their maximum and not negative, and a Warrior or a
    Thief has no mana points. *)
Theorem X27_new_character (rng : nat -> Z) (pos : nat)
    (name class_str : string) (class : Character_class) :
  Character.class_of_str class_str = Some class ->
  dice_in_range rng pos 24 ->
  exists c,
    Character.init_default rng pos name class_str = (Ok c, (pos + 24)%nat)
    /\ Character.character_name c = name
    /\ Character.character_class c = class
    /\ Character.ability_scores c
       = fst (Ability_Scores.roll_stats rng pos (Ability_Scores.init class))
    /\ Character.inventory c = Items_Multi_State.empty
    /\ Character._equipment c = Equipment.init class
    /\ Character._current_hit_points c = Character._hit_point_maximum c
    /\ Character._current_mana_points c = Character._mana_point_maximum c
    /\ 0 < Character._current_hit_points c
    /\ 0 <= Character._current_mana_points c
    /\ (class = Warrior \/ class = Thief -> Character._current_mana_points c = 0).
Proof.
  apply init_default_rolls.
Qed.

Lemma X27_new_character_witness :
  exists c,
    Character.init_default (fun _ => 3) 0 "Lidda" "Mage" = (Ok c, (0 + 24)%nat)
    /\ Character.character_name c = "Lidda"
    /\ Character.character_class c = Mage
    /\ Character.ability_scores c
       = fst (Ability_Scores.roll_stats (fun _ => 3) 0 (Ability_Scores.init Mage))
    /\ Character.inventory c = Items_Multi_State.empty
    /\ Character._equipment c = Equipment.init Mage
    /\ Character._current_hit_points c = Character._hit_point_maximum c
    /\ Character._current_mana_points c = Character._mana_point_maximum c
    /\ 0 < Character._current_hit_points c
    /\ 0 <= Character._current_mana_points c
    /\ (Mage = Warrior \/ Mage = Thief -> Character._current_mana_points c = 0).
Proof.
  apply (X27_new_character (fun _ => 3) 0 "Lidda" "Mage" Mage).
  - reflexivity.
  - intros i Hi. lia.
Defined.

Section Game_State_facts.

Lemma incept_with_character (rng : nat -> Z) (g : Game_State.t) (pos : nat)
    (c : Character.t) :
  Game_State.character g = Some c ->
  Game_State._incept_character_obj_if_possible rng (g, pos) = (Ok tt, (g, pos)).
Proof.
  intros H. unfold Game_State._incept_character_obj_if_possible, bind, get_self.
  cbn [fst snd]. by rewrite H.
Qed.

End Game_State_facts.

(** X28. A [Game_State] builds its character when the second of name and
    class is set, in either order, with the same outcome: setting the name
    and then the class leaves the same object and the same generator position
    as setting the class and then the name.  When neither text is empty the
    character is the one [Character(name, class)] builds, or none when that
    raises; when either text is empty no character is built and the generator
    is not used. *)
Theorem X28_character_is_built_in_either_order (rng : nat -> Z) (pos : nat)
    (name class_str : string) :
  let name_first :=
    snd ((let! _ := Game_State.set_character_name rng name in
          Game_State.set_character_class rng class_str)
           (Game_State.init, pos)) in
  let class_first :=
    snd ((let! _ := Game_State.set_character_class rng class_str in
          Game_State.set_character_name rng name)
           (Game_State.init, pos)) in
  name_first = class_first
  /\ (name <> "" -> class_str <> "" ->
      name_first
      = (Game_State.mk (Some name) (Some class_str)
           match fst (Character.init_default rng pos name class_str) with
           | Ok c => Some c
           | Raise _ => None
           end false false,
         snd (Character.init_default rng pos name class_str)))
  /\ (name = "" \/ class_str = "" ->
      name_first
      = (Game_State.mk (Some name) (Some class_str) None false false, pos)).
Proof.
  cbv zeta.
  unfold Game_State.set_character_name, Game_State.set_character_class,
    Game_State._incept_character_obj_if_possible, bind, modify_self, get_self,
    put_self, ret, raise, Game_State.init, Game_State.set_name,
    Game_State.set_class, Game_State.set_character.
  cbn [fst snd Game_State.character Game_State._character_name
       Game_State._character_class Game_State.game_has_begun
       Game_State.game_has_ended truthy negb andb Game_State.nonempty].
  rewrite !andb_false_r. cbn [fst snd Game_State.character
       Game_State._character_name Game_State._character_class
       Game_State.game_has_begun Game_State.game_has_ended truthy negb andb
       Game_State.nonempty].
  destruct name as [| a name]; destruct class_str as [| b class_str];
    cbn [andb Game_State.nonempty fst snd];
    (split; [reflexivity |]); (split; [intros; try congruence |]);
    try reflexivity; try (intros [? | ?]; discriminate).
  by destruct (Character.init_default rng pos (String a name) (String b class_str))
    as [[c | e] pos'].
Qed.

(** X29. Once a [Game_State] has a character, setting the name or the class
    again only stores the new text: the character object is kept as it is,
    nothing is raised and the generator is not used. *)
Theorem X29_the_character_is_not_replaced (rng : nat -> Z) (g : Game_State.t)
    (pos : nat) (c : Character.t) (v : string) :
  Game_State.character g = Some c ->
  Game_State.set_character_name rng v (g, pos)
  = (Ok tt, (Game_State.set_name v g, pos))
  /\ Game_State.set_character_class rng v (g, pos)
     = (Ok tt, (Game_State.set_class v g, pos))
  /\ Game_State.character (Game_State.set_name v g) = Some c
  /\ Game_State.character (Game_State.set_class v g) = Some c.
Proof.
  intros H.
  unfold Game_State.set_character_name, Game_State.set_character_class,
    bind, modify_self. cbn [fst snd].
  rewrite (incept_with_character rng (Game_State.set_name v g) pos c H).
  rewrite (incept_with_character rng (Game_State.set_class v g) pos c H).
  by repeat split.
Qed.

Lemma X29_the_character_is_not_replaced_witness :
  Game_State.set_character_name (fun _ => 3) "Mialee"
    (Game_State.mk (Some "Lidda") (Some "Mage") (Some (Sample.caster Mage))
       false false, 24%nat)
  = (Ok tt,
     (Game_State.set_name "Mialee"
        (Game_State.mk (Some "Lidda") (Some "Mage") (Some (Sample.caster Mage))
           false false), 24%nat))
  /\ Game_State.set_character_class (fun _ => 3) "Mialee"
       (Game_State.mk (Some "Lidda") (Some "Mage") (Some (Sample.caster Mage))
          false false, 24%nat)
     = (Ok tt,
        (Game_State.set_class "Mialee"
           (Game_State.mk (Some "Lidda") (Some "Mage")
              (Some (Sample.caster Mage)) false false), 24%nat))
  /\ Game_State.character
       (Game_State.set_name "Mialee"
          (Game_State.mk (Some "Lidda") (Some "Mage")
             (Some (Sample.caster Mage)) false false))
     = Some (Sample.caster Mage)
  /\ Game_State.character
       (Game_State.set_class "Mialee"
          (Game_State.mk (Some "Lidda") (Some "Mage")
             (Some (Sample.caster Mage)) false false))
     = Some (Sample.caster Mage).
Proof.
  apply (X29_the_character_is_not_replaced (fun _ => 3)
           (Game_State.mk (Some "Lidda") (Some "Mage")
              (Some (Sample.caster Mage)) false false)
           24%nat (Sample.caster Mage) "Mialee").
  reflexivity.
Defined.
